(** * The capture-to-result pipeline of the IALab page

    A shallow embedding of [handleCapture], [optimizeImage],
    [validateImageQuality], [handleContactSubmit] and [resetApplication]
    of the IALab React component, with the browser, the face landmarker,
    the metrics library and the remote simulation function as an explicit
    environment, followed by the properties of the orchestration.

    Conventions.
    - React state is the record [State]; the two refs of the component
      live next to it in [Store].
    - A function created by [useCallback] reads the [isProcessing] and
      [retryCount] of the render that created it: these captured values
      are the record [Closure], kept apart from the live [State].
    - Asynchronous code is run to completion: an awaited promise is the
      value it settles with ([inr] resolved, [inl] rejected), and
      everything the code does to the outside (toasts, logs, analytics,
      timers, remote calls, sleeps) is appended to a trace of [Event]s. *)

From Stdlib Require Import String List Bool Arith ZArith QArith Lia.
From Stdlib Require Import SpecFloat.
Import ListNotations.

Local Open Scope string_scope.
Local Open Scope list_scope.
Local Open Scope nat_scope.

(** ** JavaScript values *)

(** Values of type [any] / [Record<string, unknown>]: the metrics record,
    the face analysis, the recommendations.  Number literals are kept as
    exact rationals. *)
#[warnings="-register-all"]
Inductive jsval : Type :=
| JUndefined
| JNull
| JBool (b : bool)
| JNum (q : Q)
| JStr (s : string)
| JArr (items : list jsval)
| JObj (fields : list (string * jsval)).

(** What a [throw] or a promise rejection carries: an [Error] with its
    message, or something that is not an [Error] (the event object an
    [img.onerror = reject] rejects with). *)
Inductive Thrown : Type :=
| ThrownError (message : string)
| ThrownOther (what : string).

(** JavaScript truthiness of an optional string property. *)
Definition truthyStr (v : option string) : bool :=
  match v with
  | Some s => negb (String.eqb s "")
  | None => false
  end.

(** [a || b] on two optional string properties. *)
Definition orStr (a b : option string) : option string :=
  if truthyStr a then a else b.

(** The property names of an object literal, in source order. *)
Definition fieldNames (v : jsval) : list string :=
  match v with
  | JObj fields => map fst fields
  | _ => []
  end.

(** ** Data of the component *)

Inductive Step : Type := hero | capture | loading | contact | results.

Record SimulationData : Type := mkSimulationData {
  sd_facialAnalysis : option jsval;
  sd_qualityScore : option Q;
  sd_warnings : option (list string)
}.

Record ContactData : Type := mkContactData {
  email : string;
  name : option string;
  phone : option string
}.

Record Landmark : Type := mkLandmark { lm_x : Q; lm_y : Q; lm_z : Q }.

(** A decoded [HTMLImageElement]. *)
Record Image : Type := mkImage {
  img_src : string;
  img_width : nat;
  img_height : nat
}.

(** The [useState] cells of [IALab]. *)
Record State : Type := mkState {
  step : Step;
  restImage : string;
  smileImage : string;
  idealImage : string;
  analysis : string;
  metrics : option jsval;
  landmarks : option (list Landmark);
  contactData : option ContactData;
  simulationData : option SimulationData;
  isProcessing : bool;
  retryCount : nat
}.

(** The values of [isProcessing] and [retryCount] a [handleCapture]
    callback was created with (its [useCallback] dependencies). *)
Record Closure : Type := mkClosure {
  cl_isProcessing : bool;
  cl_retryCount : nat
}.

(** The callback of the latest render. *)
Definition currentClosure (st : State) : Closure :=
  mkClosure (isProcessing st) (retryCount st).

Definition initialState : State :=
  mkState hero "" "" "" "" None None None None false 0.

(** ** Constants *)

Definition MAX_RETRY_ATTEMPTS : nat := 3.
Definition IMAGE_QUALITY_THRESHOLD : Q := 0.85.
Definition MAX_IMAGE_SIZE : nat := 2048.

(** ** The environment *)

(** [FaceLandmarker.detect] returns [{ faceLandmarks?: Landmark[][] }] or
    throws. *)
Record FaceLandmarkerResult : Type := mkFaceLandmarkerResult {
  faceLandmarks : option (list (list Landmark))
}.

Record FaceLandmarker : Type := mkFaceLandmarker {
  detect : Image -> Thrown + FaceLandmarkerResult
}.

(** The argument object of [computeMetrics]. *)
Record MetricsInput : Type := mkMetricsInput {
  restLm : list Landmark;
  smileLm : list Landmark;
  imgW : nat;
  imgH : nat
}.

(** The module ["@/lib/metrics"], which is not part of the sources at
    hand: its four functions are taken as they are called, each one free
    to throw. *)
Record MetricsLib : Type := mkMetricsLib {
  computeMetrics : MetricsInput -> Thrown + jsval;
  analyzeFaceCharacteristics : jsval -> Thrown + jsval;
  generateSmileRecommendations : jsval -> jsval -> Thrown + jsval;
  generateAnalysisText : jsval -> jsval -> jsval -> Thrown + string
}.

(** The body sent to the [simulate-smile] function. *)
Record Request : Type := mkRequest {
  imageBase64 : string;
  req_metrics : jsval;
  req_faceAnalysis : jsval;
  req_recommendations : jsval
}.

(** The [data] of a response, with the properties [handleCapture] reads
    from it. *)
Record Payload : Type := mkPayload {
  simulatedImage : option string;
  p_idealImage : option string;
  p_facialAnalysis : option jsval;
  p_qualityScore : option Q;
  p_warnings : option (list string)
}.

(** What [supabase.functions.invoke] resolves with: [{ data, error }],
    either of which may be [null]. *)
Record Response : Type := mkResponse {
  data : option Payload;
  error : option Thrown
}.

(** Everything outside the component that a run of [handleCapture]
    consults. *)
Record World : Type := mkWorld {
  (** [new Image(); img.src = s]: [Some] element when [onload] fires,
      [None] when [onerror] fires. *)
  loadImage : string -> option Image;
  (** whether [canvas.getContext('2d')] returns a context *)
  getContext2d : bool;
  (** [canvas.toDataURL('image/jpeg', quality)] of a canvas of the given
      size onto which the image was drawn *)
  toDataURL : Image -> Z -> Z -> Q -> string;
  (** [await import("@/lib/metrics")] *)
  importMetrics : Thrown + MetricsLib;
  (** whether the 30 s timer set at the start of the run has expired by
      the time the given simulation attempt begins *)
  deadlinePassed : nat -> bool;
  (** the remote call of an attempt, given the request and whether the
      signal handed to it is already aborted; [inl] when the call itself
      throws *)
  invoke : nat -> Request -> bool -> Thrown + Response
}.

(** ** Effects *)

(** The action button of an error toast: ["Reintentar"], whose [onClick]
    calls the [handleCapture] of the render that showed the toast, with
    the photographs of the failed run. *)
Inductive ToastAction : Type :=
| Reintentar (cl : Closure) (rest smile : string).

Inductive Event : Type :=
| ToastWarning (msg : string)
| ToastError (msg : string) (action : option ToastAction)
| ToastInfo (msg : string)
| ToastSuccess (msg : string)
| TrackPhotosCaptured (has_face_landmarker : bool) (retry_count : nat)
| TrackContactSubmitted (email : string) (has_simulation : bool)
    (quality_score : option Q)
| LogLog (msg : string)
| LogWarn (msg : string)
| LogError (msg : string) (err : Thrown)
(** [logger.error(`Simulation attempt ${n} failed:`, err)] *)
| LogAttemptFailed (n : nat) (err : Thrown)
| SetTimeout (ms : Z)
| ClearTimeout
(** [supabase.functions.invoke("simulate-smile", { body, signal })] *)
| Invoke (attempt : nat) (body : Request) (signalAborted : bool)
(** [await new Promise(resolve => setTimeout(resolve, ms))] *)
| Sleep (ms : Z).

(** An [AbortController] with the state of its signal. *)
Record AbortController : Type := mkAbortController { aborted : bool }.

Record Store : Type := mkStore {
  react : State;
  faceLandmarkerRef : option FaceLandmarker;
  abortControllerRef : option AbortController
}.

(** ** A monad for the component's code: store, trace and exceptions *)

Module Js.

Definition M (A : Type) : Type :=
  Store -> (Thrown + A) * Store * list Event.

Definition ret {A} (a : A) : M A := fun s => (inr a, s, []).

Definition bind {A B} (m : M A) (k : A -> M B) : M B :=
  fun s =>
    match m s with
    | (inl e, s1, ev1) => (inl e, s1, ev1)
    | (inr a, s1, ev1) =>
        match k a s1 with
        | (r, s2, ev2) => (r, s2, ev1 ++ ev2)
        end
    end.

Definition throw {A} (e : Thrown) : M A := fun s => (inl e, s, []).

(** A call that returns or throws without touching the store. *)
Definition call {A} (r : Thrown + A) : M A := fun s => (r, s, []).

Definition emit (e : Event) : M unit := fun s => (inr tt, s, [e]).

Definition get : M Store := fun s => (inr s, s, []).

Definition modify (f : Store -> Store) : M unit :=
  fun s => (inr tt, f s, []).

(** [try { body } catch (e) { handler e }] *)
Definition tryCatch {A} (body : M A) (handler : Thrown -> M A) : M A :=
  fun s =>
    match body s with
    | (inl e, s1, ev1) =>
        match handler e s1 with
        | (r, s2, ev2) => (r, s2, ev1 ++ ev2)
        end
    | (inr a, s1, ev1) => (inr a, s1, ev1)
    end.

(** [try { body } finally { final }]: the outcome of [body] stands
    unless [final] itself throws. *)
Definition tryFinally {A} (body : M A) (final : M unit) : M A :=
  fun s =>
    match body s with
    | (r, s1, ev1) =>
        match final s1 with
        | (inl e, s2, ev2) => (inl e, s2, ev1 ++ ev2)
        | (inr _, s2, ev2) => (r, s2, ev1 ++ ev2)
        end
    end.

End Js.

Import Js.

Declare Scope js_scope.
Delimit Scope js_scope with js.
Notation "x <- m ;; k" := (bind m (fun x => k))
  (at level 61, m at next level, right associativity) : js_scope.
Notation "m ;; k" := (bind m (fun _ => k))
  (at level 61, right associativity) : js_scope.
Local Open Scope js_scope.

(** The state setters. *)
Definition setReact (f : State -> State) : M unit :=
  modify (fun s => mkStore (f (react s)) (faceLandmarkerRef s)
                     (abortControllerRef s)).

Definition setStep (v : Step) : M unit :=
  setReact (fun st => mkState v (restImage st) (smileImage st)
    (idealImage st) (analysis st) (metrics st) (landmarks st)
    (contactData st) (simulationData st) (isProcessing st) (retryCount st)).

Definition setRestImage (v : string) : M unit :=
  setReact (fun st => mkState (step st) v (smileImage st)
    (idealImage st) (analysis st) (metrics st) (landmarks st)
    (contactData st) (simulationData st) (isProcessing st) (retryCount st)).

Definition setSmileImage (v : string) : M unit :=
  setReact (fun st => mkState (step st) (restImage st) v
    (idealImage st) (analysis st) (metrics st) (landmarks st)
    (contactData st) (simulationData st) (isProcessing st) (retryCount st)).

Definition setIdealImage (v : string) : M unit :=
  setReact (fun st => mkState (step st) (restImage st) (smileImage st)
    v (analysis st) (metrics st) (landmarks st)
    (contactData st) (simulationData st) (isProcessing st) (retryCount st)).

Definition setAnalysis (v : string) : M unit :=
  setReact (fun st => mkState (step st) (restImage st) (smileImage st)
    (idealImage st) v (metrics st) (landmarks st)
    (contactData st) (simulationData st) (isProcessing st) (retryCount st)).

Definition setMetrics (v : option jsval) : M unit :=
  setReact (fun st => mkState (step st) (restImage st) (smileImage st)
    (idealImage st) (analysis st) v (landmarks st)
    (contactData st) (simulationData st) (isProcessing st) (retryCount st)).

Definition setLandmarks (v : option (list Landmark)) : M unit :=
  setReact (fun st => mkState (step st) (restImage st) (smileImage st)
    (idealImage st) (analysis st) (metrics st) v
    (contactData st) (simulationData st) (isProcessing st) (retryCount st)).

Definition setContactData (v : option ContactData) : M unit :=
  setReact (fun st => mkState (step st) (restImage st) (smileImage st)
    (idealImage st) (analysis st) (metrics st) (landmarks st)
    v (simulationData st) (isProcessing st) (retryCount st)).

Definition setSimulationData (v : option SimulationData) : M unit :=
  setReact (fun st => mkState (step st) (restImage st) (smileImage st)
    (idealImage st) (analysis st) (metrics st) (landmarks st)
    (contactData st) v (isProcessing st) (retryCount st)).

Definition setIsProcessing (v : bool) : M unit :=
  setReact (fun st => mkState (step st) (restImage st) (smileImage st)
    (idealImage st) (analysis st) (metrics st) (landmarks st)
    (contactData st) (simulationData st) v (retryCount st)).

(** [setRetryCount(prev => f prev)] *)
Definition setRetryCount (f : nat -> nat) : M unit :=
  setReact (fun st => mkState (step st) (restImage st) (smileImage st)
    (idealImage st) (analysis st) (metrics st) (landmarks st)
    (contactData st) (simulationData st) (isProcessing st)
    (f (retryCount st))).

Definition setAbortControllerRef (v : option AbortController) : M unit :=
  modify (fun s => mkStore (react s) (faceLandmarkerRef s) v).

(** ** optimizeImage *)

(** JavaScript numbers in the size computation: IEEE 754 binary64, with
    the operations of the Standard Library's specification of floating
    point (53 bits of precision, round to nearest even). *)
Definition number : Type := spec_float.

Definition numberOfNat (n : nat) : number :=
  binary_normalize 53 1024 (Z.of_nat n) 0 false.

(** [a / b] and [a * b] on numbers. *)
Definition numberDiv (a b : number) : number := SFdiv 53 1024 a b.
Definition numberMul (a b : number) : number := SFmul 53 1024 a b.

(** [Math.min(a, b)] (the operands here are never negative, so the
    order of the two zeros does not come into play). *)
Definition mathMin (a b : number) : number :=
  match a, b with
  | S754_nan, _ | _, S754_nan => S754_nan
  | _, _ => if SFltb b a then b else a
  end.

(** The integral part of a number, rounding toward zero; 0 for NaN and
    the infinities. *)
Definition truncate (x : number) : Z :=
  match x with
  | S754_finite sign m e =>
      let magnitude :=
        match e with
        | Zneg k => Z.shiftr (Zpos m) (Zpos k)
        | _ => Z.shiftl (Zpos m) e
        end in
      if sign then (- magnitude)%Z else magnitude
  | _ => 0%Z
  end.

(** The conversion to [unsigned long] that an assignment to
    [canvas.width] or [canvas.height] performs. *)
Definition toUint32 (x : number) : Z := (truncate x mod 2 ^ 32)%Z.

(** [Math.min(MAX_IMAGE_SIZE / width, MAX_IMAGE_SIZE / height)] *)
Definition scaleFor (width height : number) : number :=
  mathMin (numberDiv (numberOfNat MAX_IMAGE_SIZE) width)
          (numberDiv (numberOfNat MAX_IMAGE_SIZE) height).

(** The [width] and [height] the canvas is assigned: the image's own,
    or both multiplied by the scale when a side is larger than
    [MAX_IMAGE_SIZE]. *)
Definition targetSize (img : Image) : number * number :=
  let width := numberOfNat (img_width img) in
  let height := numberOfNat (img_height img) in
  if (MAX_IMAGE_SIZE <? img_width img) || (MAX_IMAGE_SIZE <? img_height img)
  then
    let scale := scaleFor width height in
    (numberMul width scale, numberMul height scale)
  else (width, height).

(** The promise [optimizeImage(base64)] settles with. *)
Definition optimizeImage (w : World) (base64 : string) : Thrown + string :=
  match loadImage w base64 with
  | Some img =>
      (* img.onload *)
      if negb (getContext2d w) then inr base64
      else
        let '(width, height) := targetSize img in
        (* canvas.width = width; canvas.height = height *)
        inr (toDataURL w img (toUint32 width) (toUint32 height)
               IMAGE_QUALITY_THRESHOLD)
  | None =>
      (* img.onerror *)
      inr base64
  end.

(** ** validateImageQuality *)

(** Advisory only: warns about a low resolution (and then answers
    [false]) or about an extreme aspect ratio. *)
Definition validateImageQuality (image : Image) : M bool :=
  if (img_width image <? 640) || (img_height image <? 480) then
    emit (ToastWarning "La imagen tiene una resolución muy baja. Los resultados pueden ser limitados.") ;;
    ret false
  else
    let aspectRatio :=
      (inject_Z (Z.of_nat (img_width image))
       / inject_Z (Z.of_nat (img_height image)))%Q in
    (if Qlt_le_dec aspectRatio 0.5 then
       emit (ToastWarning "La proporción de la imagen no es óptima. Intente con una foto más cuadrada.")
     else if Qlt_le_dec 2 aspectRatio then
       emit (ToastWarning "La proporción de la imagen no es óptima. Intente con una foto más cuadrada.")
     else ret tt) ;;
    ret true.

(** ** handleCapture *)

Notation "' pat <- m ;; k" :=
  (bind m (fun x => match x with pat => k end))
  (at level 61, pat pattern, m at next level, right associativity) : js_scope.

(** [await Promise.all([a, b])]: both values, or the rejection.  (When
    both members reject, the two rejections that occur here carry the
    same kind of value.) *)
Definition promiseAll2 {A B} (a : Thrown + A) (b : Thrown + B)
  : Thrown + (A * B) :=
  match a, b with
  | inr x, inr y => inr (x, y)
  | inl e, _ => inl e
  | _, inl e => inl e
  end.

(** [new Promise((resolve, reject) => { img.onload = () => resolve(img);
    img.onerror = reject; img.src = src })] *)
Definition createImage (w : World) (src : string) : Thrown + Image :=
  match loadImage w src with
  | Some img => inr img
  | None => inl (ThrownOther "error event of the image element")
  end.

(** The literal of the [catch (landmarkError)] branch. *)
Definition fallbackMetricsOnError : jsval :=
  JObj [
    ("smileArc", JStr "consonante");
    ("gingival", JObj [("mm", JNum 1); ("class", JStr "media")]);
    ("midline", JObj [("mm", JNum 0); ("side", JStr "centrado")]);
    ("buccalRatio", JNum 0.8);
    ("facialMidline", JObj [("mm", JNum 0); ("side", JStr "centrado")]);
    ("midlineCoincidence",
       JObj [("deviation", JNum 0); ("status", JStr "coincidente")]);
    ("facialProportions",
       JObj [("upperThird", JNum 0.33);
             ("middleThird", JNum 0.34);
             ("lowerThird", JNum 0.33);
             ("isBalanced", JBool true)])
  ].

(** The literal of the [else] branch (no landmarker available). *)
Definition fallbackMetricsNoLandmarker : jsval :=
  JObj [
    ("smileArc", JStr "consonante");
    ("gingival", JObj [("mm", JNum 1); ("class", JStr "media")]);
    ("midline", JObj [("mm", JNum 0); ("side", JStr "centrado")]);
    ("buccalRatio", JNum 0.8);
    ("facialMidline", JObj [("mm", JNum 0); ("side", JStr "centrado")]);
    ("midlineCoincidence",
       JObj [("deviation", JNum 0); ("status", JStr "coincidente")]);
    ("facialProportions",
       JObj [("upperThird", JNum 0.33);
             ("middleThird", JNum 0.34);
             ("lowerThird", JNum 0.33);
             ("isBalanced", JBool true)])
  ].

(** [results.faceLandmarks[0]] when [results.faceLandmarks?.length] is
    truthy. *)
Definition firstFace (r : FaceLandmarkerResult) : option (list Landmark) :=
  match faceLandmarks r with
  | Some (face :: _) => Some face
  | _ => None
  end.

(** The [catch (landmarkError)] block.  [smileLandmarks] is a local of
    the enclosing scope: it keeps what the [try] block assigned to it
    before throwing. *)
Definition onLandmarkError (landmarkError : Thrown)
    (smileLandmarks : option (list Landmark))
  : M (option (list Landmark) * jsval) :=
  emit (LogError "Error en detección de landmarks:" landmarkError) ;;
  ret (smileLandmarks, fallbackMetricsOnError).

(** Landmark detection and metric computation; returns
    [(smileLandmarks, calculatedMetrics)]. *)
Definition detectLandmarks (lib : MetricsLib) (smileImg restImg : Image)
  : M (option (list Landmark) * jsval) :=
  s <- get ;;
  match faceLandmarkerRef s with
  | Some landmarker =>
      match detect landmarker smileImg with
      | inl e => onLandmarkError e None
      | inr smileResults =>
      match detect landmarker restImg with
      | inl e => onLandmarkError e None
      | inr restResults =>
      match firstFace smileResults with
      | None =>
          onLandmarkError (ThrownError "No se detectó rostro en la imagen de sonrisa. Por favor, asegúrese de que su rostro esté visible y centrado.") None
      | Some smileLandmarks =>
      match firstFace restResults with
      | None =>
          onLandmarkError (ThrownError "No se detectó rostro en la imagen de reposo. Por favor, asegúrese de que su rostro esté visible y centrado.") None
      | Some restLandmarks =>
      match computeMetrics lib
              (mkMetricsInput restLandmarks smileLandmarks
                 (img_width smileImg) (img_height smileImg)) with
      | inl e => onLandmarkError e (Some smileLandmarks)
      | inr calculatedMetrics =>
          emit (LogLog "✅ Métricas calculadas exitosamente:") ;;
          ret (Some smileLandmarks, calculatedMetrics)
      end end end end end
  | None => ret (None, fallbackMetricsNoLandmarker)
  end.

(** The state of [abortControllerRef.current?.signal]. *)
Definition signalAborted (s : Store) : bool :=
  match abortControllerRef s with
  | Some c => aborted c
  | None => false
  end.

(** The callback of the 30 s timer, [abortControllerRef.current?.abort()],
    which runs at the first suspension after the deadline. *)
Definition timerTick (w : World) (attempt : nat) : M unit :=
  if deadlinePassed w attempt then
    modify (fun s => mkStore (react s) (faceLandmarkerRef s)
              (option_map (fun _ => mkAbortController true)
                 (abortControllerRef s)))
  else ret tt.

(** [for (let attempt = 0; attempt < MAX_RETRY_ATTEMPTS; attempt++)]:
    the values [attempt] runs through. *)
Definition simulationAttempts : list nat := seq 0 MAX_RETRY_ATTEMPTS.

(** The retry loop; returns [simulationResult]. *)
Fixpoint simulationLoop (w : World) (body : Request) (attempts : list nat)
  : M (option Payload) :=
  match attempts with
  | [] => ret None
  | attempt :: rest =>
      timerTick w attempt ;;
      s <- get ;;
      emit (Invoke attempt body (signalAborted s)) ;;
      r <- tryCatch
             (resp <- call (invoke w attempt body (signalAborted s)) ;;
              match error resp with
              | Some e => throw e                 (* if (error) throw error *)
              | None => ret (data resp)
              end)
             (fun err =>
                (* lastError = err *)
                emit (LogAttemptFailed (attempt + 1) err) ;;
                (if attempt <? MAX_RETRY_ATTEMPTS - 1
                 then emit (Sleep (1000 * Z.of_nat (attempt + 1)))
                 else ret tt) ;;
                ret None) ;;
      match r with
      | Some d => ret (Some d)        (* simulationResult = data; break *)
      | None => simulationLoop w body rest
      end
  end.

(** [a || b] where [b] is a string. *)
Definition orElse (a : option string) (b : string) : string :=
  match a with
  | Some s => if String.eqb s "" then b else s
  | None => b
  end.

(** [simulationResult?.simulatedImage] when it is truthy. *)
Definition usableImage (simulationResult : option Payload) : option string :=
  match simulationResult with
  | Some p =>
      match simulatedImage p with
      | Some s => if String.eqb s "" then None else Some s
      | None => None
      end
  | None => None
  end.

(** The part of the [try] block after the retry loop. *)
Definition processSimulationResult (simulationResult : option Payload)
    (optimizedSmile : string) : M unit :=
  match simulationResult, usableImage simulationResult with
  | Some p, Some simulated =>
      setSmileImage simulated ;;
      setIdealImage (orElse (p_idealImage p) simulated) ;;
      setSimulationData
        (Some (mkSimulationData (p_facialAnalysis p) (p_qualityScore p)
                 (p_warnings p)))
  | _, _ =>
      emit (LogWarn "Simulation failed, using original image") ;;
      emit (ToastInfo "La simulación automática no está disponible en este momento. Continuaremos con el análisis facial.") ;;
      setIdealImage optimizedSmile ;;
      setSimulationData
        (Some (mkSimulationData None None (Some ["simulation_unavailable"])))
  end.

(** What the stages before the retry loop hand on. *)
Record Prepared : Type := mkPrepared {
  optimizedSmile : string;
  smileLandmarks : option (list Landmark);
  calculatedMetrics : jsval;
  faceAnalysis : jsval;
  recommendations : jsval;
  analysisText : string
}.

Definition simulationRequest (p : Prepared) : Request :=
  mkRequest (optimizedSmile p) (calculatedMetrics p) (faceAnalysis p)
    (recommendations p).

(** [// Optimize images]: returns [[optimizedRest, optimizedSmile]]. *)
Definition optimizeBoth (w : World) (rest smile : string)
  : M (string * string) :=
  call (promiseAll2 (optimizeImage w rest) (optimizeImage w smile)).

(** [// Create image elements for analysis]: returns
    [[smileImg, restImg]]. *)
Definition createImages (w : World) (optimizedSmile optimizedRest : string)
  : M (Image * Image) :=
  call (promiseAll2 (createImage w optimizedSmile)
          (createImage w optimizedRest)).

(** [// Validate image quality] *)
Definition validateBoth (smileImg restImg : Image) : M unit :=
  smileValid <- validateImageQuality smileImg ;;
  restValid <- validateImageQuality restImg ;;
  if negb smileValid || negb restValid
  then emit (LogWarn "Image quality validation failed, continuing with warnings")
  else ret tt.

(** [// Analyze facial characteristics], [// Generate recommendations],
    [// Generate analysis text] *)
Definition analyse (lib : MetricsLib) (optimizedSmile : string)
    (smileLandmarks : option (list Landmark)) (calculatedMetrics : jsval)
  : M Prepared :=
  faceAnalysis <- call (analyzeFaceCharacteristics lib calculatedMetrics) ;;
  recommendations <-
     call (generateSmileRecommendations lib faceAnalysis calculatedMetrics) ;;
  analysisText <-
     call (generateAnalysisText lib faceAnalysis calculatedMetrics
             recommendations) ;;
  ret (mkPrepared optimizedSmile smileLandmarks calculatedMetrics
         faceAnalysis recommendations analysisText).

(** The [try] block up to the retry loop. *)
Definition prepare (w : World) (rest smile : string) : M Prepared :=
  '(optimizedRest, optimizedSmile) <- optimizeBoth w rest smile ;;
  lib <- call (importMetrics w) ;;
  '(smileImg, restImg) <- createImages w optimizedSmile optimizedRest ;;
  validateBoth smileImg restImg ;;
  '(smileLandmarks, calculatedMetrics) <-
     detectLandmarks lib smileImg restImg ;;
  analyse lib optimizedSmile smileLandmarks calculatedMetrics.

(** The whole [try] block. *)
Definition pipeline (w : World) (rest smile : string) : M unit :=
  p <- prepare w rest smile ;;
  simulationResult <-
    simulationLoop w (simulationRequest p) simulationAttempts ;;
  emit ClearTimeout ;;
  processSimulationResult simulationResult (optimizedSmile p) ;;
  setAnalysis (analysisText p) ;;
  setMetrics (Some (calculatedMetrics p)) ;;
  setLandmarks (smileLandmarks p) ;;
  setStep contact.

(** [error instanceof Error ? error.message : "Error desconocido"] *)
Definition errorMessageOf (error : Thrown) : string :=
  match error with
  | ThrownError message => message
  | ThrownOther _ => "Error desconocido"
  end.

(** The outer [catch (error)] block.  [retryCount] is the captured one;
    the retry button calls the same callback again. *)
Definition onPipelineError (cl : Closure) (rest smile : string)
    (error : Thrown) : M unit :=
  emit ClearTimeout ;;
  emit (LogError "Error processing smile:" error) ;;
  let errorMessage := errorMessageOf error in
  (if cl_retryCount cl <? MAX_RETRY_ATTEMPTS - 1 then
     emit (ToastError ("Error: " ++ errorMessage)
             (Some (Reintentar cl rest smile)))
   else
     emit (ToastError "No se pudo procesar la imagen después de varios intentos. Por favor, intente con una foto diferente." None)) ;;
  setStep capture.

Definition isSome {A} (o : option A) : bool :=
  match o with Some _ => true | None => false end.

Definition handleCapture (cl : Closure) (w : World) (rest smile : string)
  : M unit :=
  if cl_isProcessing cl then
    emit (ToastWarning "Ya se está procesando una imagen. Por favor espere.")
  else
    setIsProcessing true ;;
    setRestImage rest ;;
    setSmileImage smile ;;
    setStep loading ;;
    s <- get ;;
    emit (TrackPhotosCaptured (isSome (faceLandmarkerRef s))
            (cl_retryCount cl)) ;;
    setAbortControllerRef (Some (mkAbortController false)) ;;
    emit (SetTimeout 30000%Z) ;;
    tryFinally
      (tryCatch (pipeline w rest smile) (onPipelineError cl rest smile))
      (setIsProcessing false ;;
       setAbortControllerRef None).

(** ** handleContactSubmit and resetApplication *)

Definition handleContactSubmit (contact_data : ContactData) : M unit :=
  s <- get ;;
  setContactData (Some contact_data) ;;
  setStep results ;;
  emit (TrackContactSubmitted (email contact_data)
          (negb (String.eqb (idealImage (react s)) ""))
          (match simulationData (react s) with
           | Some sd => sd_qualityScore sd
           | None => None
           end)) ;;
  emit (ToastSuccess "¡Análisis completado! Revise sus resultados a continuación.").

Definition resetApplication : M unit :=
  setStep hero ;;
  setRestImage "" ;;
  setSmileImage "" ;;
  setIdealImage "" ;;
  setAnalysis "" ;;
  setMetrics None ;;
  setLandmarks None ;;
  setContactData None ;;
  setSimulationData None ;;
  setRetryCount (fun _ => 0).

(** ** The controller as a machine driven by the user *)

Inductive UserEvent : Type :=
(** [HeroSection onStart] *)
| ClickStart
(** [CaptureSection onCapture], the [handleCapture] of the current
    render *)
| SubmitPhotos (w : World) (rest smile : string)
(** the action button of an error toast *)
| ClickReintentar (w : World) (a : ToastAction)
(** [ContactSection onSubmit] *)
| SubmitContact (contact_data : ContactData)
(** [ResultsSection onReset] *)
| ClickReset.

Definition dispatch (e : UserEvent) : M unit :=
  match e with
  | ClickStart => setStep capture
  | SubmitPhotos w rest smile =>
      s <- get ;;
      handleCapture (currentClosure (react s)) w rest smile
  | ClickReintentar w (Reintentar cl rest smile) =>
      setRetryCount (fun prev => prev + 1) ;;
      handleCapture cl w rest smile
  | SubmitContact contact_data => handleContactSubmit contact_data
  | ClickReset => resetApplication
  end.

(** The store and the trace after an event. *)
Definition after (e : UserEvent) (s : Store) : Store * list Event :=
  match dispatch e s with
  | (_, s', evs) => (s', evs)
  end.

(** The retry buttons a trace shows. *)
Definition retryButtons (evs : list Event) : list ToastAction :=
  flat_map (fun e => match e with
                     | ToastError _ (Some a) => [a]
                     | _ => []
                     end) evs.

(** * Vocabulary of the statements *)

(** ** Reading traces *)

(** The backoff delays of a trace, in order. *)
Definition sleeps (evs : list Event) : list Z :=
  flat_map (fun e => match e with Sleep ms => [ms] | _ => [] end) evs.

(** The attempts a trace begins, each with the state of the signal it
    was given. *)
Definition invocations (evs : list Event) : list (nat * bool) :=
  flat_map (fun e => match e with
                     | Invoke attempt _ ab => [(attempt, ab)]
                     | _ => []
                     end) evs.

(** Whether a trace begins the given attempt. *)
Definition begins (evs : list Event) (attempt : nat) : Prop :=
  exists ab, In (attempt, ab) (invocations evs).

(** Every failure log of an attempt before the last one is followed at
    once by a delay of [1000 * n] ms, where [n] is the number of the
    attempt counted from 1, and no delay stands anywhere else. *)
Fixpoint backoffOk (evs : list Event) : bool :=
  match evs with
  | [] => true
  | LogAttemptFailed n _ :: rest =>
      if n <? MAX_RETRY_ATTEMPTS then
        match rest with
        | Sleep ms :: rest' => (ms =? 1000 * Z.of_nat n)%Z && backoffOk rest'
        | _ => false
        end
      else backoffOk rest
  | Sleep _ :: _ => false
  | _ :: rest => backoffOk rest
  end.

(** ** The outcome of an attempt *)

(** The three ways an attempt can go: the [catch] block runs (the call
    threw, or returned an [error]); the call returned neither [error]
    nor [data]; the call returned [data]. *)
Inductive AttemptOutcome : Type :=
| Failed (err : Thrown)
| Empty
| Accepted (d : Payload).

Definition classify (r : Thrown + Response) : AttemptOutcome :=
  match r with
  | inl err => Failed err
  | inr resp =>
      match error resp, data resp with
      | Some err, _ => Failed err
      | None, None => Empty
      | None, Some d => Accepted d
      end
  end.

Definition isAccepted (o : AttemptOutcome) : bool :=
  match o with Accepted _ => true | _ => false end.

Definition isFailed (o : AttemptOutcome) : bool :=
  match o with Failed _ => true | _ => false end.

(** The delay the [catch] block of an attempt asks for. *)
Definition backoffDelay (attempt : nat) : Z := 1000 * Z.of_nat (attempt + 1).

(** An attempt that is followed by a delay: it failed and is not the
    last one. *)
Definition delayed (w : World) (body : Request) (inv : nat * bool) : bool :=
  isFailed (classify (invoke w (fst inv) body (snd inv))) &&
  (fst inv <? MAX_RETRY_ATTEMPTS - 1).

(** The store after the timer callback had its chance to run. *)
Definition tick (w : World) (attempt : nat) (s : Store) : Store :=
  if deadlinePassed w attempt then
    mkStore (react s) (faceLandmarkerRef s)
      (option_map (fun _ => mkAbortController true) (abortControllerRef s))
  else s.

(** What the [catch] block of an attempt emits. *)
Definition failureEvents (attempt : nat) (err : Thrown) : list Event :=
  LogAttemptFailed (attempt + 1) err ::
  (if attempt <? MAX_RETRY_ATTEMPTS - 1
   then [Sleep (1000 * Z.of_nat (attempt + 1))] else []).

(** ** Computations and their results *)

Definition outcome {A} (x : (Thrown + A) * Store * list Event) : Thrown + A :=
  fst (fst x).
Definition storeOf {A} (x : (Thrown + A) * Store * list Event) : Store :=
  snd (fst x).
Definition traceOf {A} (x : (Thrown + A) * Store * list Event) : list Event :=
  snd x.

(** A computation whose final store is always related by [R] to the
    store it started from. *)
Definition preserves (R : Store -> Store -> Prop) {A} (m : M A) : Prop :=
  forall s, R s (storeOf (m s)).

(** Computations that leave the store as it is. *)
Definition readOnly {A} (m : M A) : Prop := preserves eq m.

Definition emitsOnly (P : Event -> Prop) {A} (m : M A) : Prop :=
  forall s, Forall P (traceOf (m s)).

(** Events that are neither an error toast nor a remote call. *)
Definition quiet (e : Event) : Prop :=
  match e with
  | ToastError _ _ => False
  | Invoke _ _ _ => False
  | _ => True
  end.

(** ** The stores and traces of a run *)

(** The store when the [try] block is entered. *)
Definition begun (rest smile : string) (s : Store) : Store :=
  mkStore
    (mkState loading rest smile (idealImage (react s)) (analysis (react s))
       (metrics (react s)) (landmarks (react s)) (contactData (react s))
       (simulationData (react s)) true (retryCount (react s)))
    (faceLandmarkerRef s)
    (Some (mkAbortController false)).

(** The store after the [finally] block. *)
Definition settled (s : Store) : Store :=
  mkStore
    (mkState (step (react s)) (restImage (react s)) (smileImage (react s))
       (idealImage (react s)) (analysis (react s)) (metrics (react s))
       (landmarks (react s)) (contactData (react s))
       (simulationData (react s)) false (retryCount (react s)))
    (faceLandmarkerRef s)
    None.

(** The store after the [setStep("capture")] of the [catch] block. *)
Definition backToCapture (s : Store) : Store :=
  mkStore
    (mkState capture (restImage (react s)) (smileImage (react s))
       (idealImage (react s)) (analysis (react s)) (metrics (react s))
       (landmarks (react s)) (contactData (react s))
       (simulationData (react s)) (isProcessing (react s))
       (retryCount (react s)))
    (faceLandmarkerRef s)
    (abortControllerRef s).

(** The toast of the [catch] block. *)
Definition failureNotice (cl : Closure) (rest smile : string)
    (error : Thrown) : Event :=
  if cl_retryCount cl <? MAX_RETRY_ATTEMPTS - 1 then
    ToastError ("Error: " ++ errorMessageOf error)
      (Some (Reintentar cl rest smile))
  else
    ToastError "No se pudo procesar la imagen después de varios intentos. Por favor, intente con una foto diferente." None.

Definition catchEvents (cl : Closure) (rest smile : string)
    (error : Thrown) : list Event :=
  [ClearTimeout; LogError "Error processing smile:" error;
   failureNotice cl rest smile error].

Definition startEvents (cl : Closure) (s : Store) : list Event :=
  [TrackPhotosCaptured (isSome (faceLandmarkerRef s)) (cl_retryCount cl);
   SetTimeout 30000].

(** What the code after the retry loop emits besides [ClearTimeout]. *)
Definition resultEvents (simulationResult : option Payload) : list Event :=
  match usableImage simulationResult with
  | Some _ => []
  | None =>
      [LogWarn "Simulation failed, using original image";
       ToastInfo "La simulación automática no está disponible en este momento. Continuaremos con el análisis facial."]
  end.

(** The React state at the end of a [try] block that ran through. *)
Definition completed (p : Prepared) (simulationResult : option Payload)
    (st : State) : State :=
  match simulationResult, usableImage simulationResult with
  | Some d, Some simulated =>
      mkState contact (restImage st) simulated
        (orElse (p_idealImage d) simulated) (analysisText p)
        (Some (calculatedMetrics p)) (smileLandmarks p) (contactData st)
        (Some (mkSimulationData (p_facialAnalysis d) (p_qualityScore d)
                 (p_warnings d)))
        (isProcessing st) (retryCount st)
  | _, _ =>
      mkState contact (restImage st) (smileImage st) (optimizedSmile p)
        (analysisText p) (Some (calculatedMetrics p)) (smileLandmarks p)
        (contactData st)
        (Some (mkSimulationData None None (Some ["simulation_unavailable"])))
        (isProcessing st) (retryCount st)
  end.

(** The store after [setRetryCount(prev => prev + 1)]. *)
Definition bumped (s : Store) : Store :=
  mkStore
    (mkState (step (react s)) (restImage (react s)) (smileImage (react s))
       (idealImage (react s)) (analysis (react s)) (metrics (react s))
       (landmarks (react s)) (contactData (react s))
       (simulationData (react s)) (isProcessing (react s))
       (retryCount (react s) + 1))
    (faceLandmarkerRef s) (abortControllerRef s).

(** ** More ways to read values, responses and traces *)

(** [v.key] on an object literal. *)
Definition getField (v : jsval) (key : string) : jsval :=
  match v with
  | JObj fields =>
      match find (fun kv => String.eqb (fst kv) key) fields with
      | Some kv => snd kv
      | None => JUndefined
      end
  | _ => JUndefined
  end.

(** Whether the outcome of a remote call carries a non-empty simulated
    image. *)
Definition usableResponse (r : Thrown + Response) : bool :=
  match classify r with
  | Accepted d => isSome (usableImage (Some d))
  | _ => false
  end.

(** The bodies of the remote calls of a trace. *)
Definition requests (evs : list Event) : list Request :=
  flat_map (fun e => match e with
                     | Invoke _ body _ => [body]
                     | _ => []
                     end) evs.

(** The ways landmarks can be unavailable in a run: there is no
    landmarker, or the [try] block around detection and metric
    computation throws. *)
Inductive LandmarksUnavailable (ref : option FaceLandmarker)
    (lib : MetricsLib) (smileImg restImg : Image) : Prop :=
| NeverInitialized :
    ref = None ->
    LandmarksUnavailable ref lib smileImg restImg
| DetectSmileThrows landmarker e :
    ref = Some landmarker ->
    detect landmarker smileImg = inl e ->
    LandmarksUnavailable ref lib smileImg restImg
| DetectRestThrows landmarker e :
    ref = Some landmarker ->
    detect landmarker restImg = inl e ->
    LandmarksUnavailable ref lib smileImg restImg
| NoFaceInSmile landmarker smileResults :
    ref = Some landmarker ->
    detect landmarker smileImg = inr smileResults ->
    firstFace smileResults = None ->
    LandmarksUnavailable ref lib smileImg restImg
| NoFaceInRest landmarker restResults :
    ref = Some landmarker ->
    detect landmarker restImg = inr restResults ->
    firstFace restResults = None ->
    LandmarksUnavailable ref lib smileImg restImg
| ComputeMetricsThrows landmarker smileResults restResults sl rl e :
    ref = Some landmarker ->
    detect landmarker smileImg = inr smileResults ->
    detect landmarker restImg = inr restResults ->
    firstFace smileResults = Some sl ->
    firstFace restResults = Some rl ->
    computeMetrics lib
      (mkMetricsInput rl sl (img_width smileImg) (img_height smileImg))
      = inl e ->
    LandmarksUnavailable ref lib smileImg restImg.

(** ** Sequences of user events *)

(** The stores and traces of a sequence of user events. *)
Fixpoint replay (es : list UserEvent) (s : Store)
  : Store * list (list Event) :=
  match es with
  | [] => (s, [])
  | e :: es' =>
      let '(s1, evs) := after e s in
      let '(s2, traces) := replay es' s1 in
      (s2, evs :: traces)
  end.

(** ** Sample environments *)

Module Sample.

Definition lib : MetricsLib :=
  mkMetricsLib
    (fun _ => inr (JObj [("smileArc", JStr "plano")]))
    (fun _ => inr (JObj [("faceShape", JStr "oval")]))
    (fun _ _ => inr (JArr []))
    (fun _ _ _ => inr "Analisis").

(** A browser in which every photograph decodes to 800 x 600, with the
    given remote function and deadline. *)
Definition world (remote : nat -> bool -> Thrown + Response)
    (deadline : nat -> bool) : World :=
  mkWorld (fun src => Some (mkImage src 800 600)) true
    (fun img _ _ _ => ("jpeg:" ++ img_src img)%string) (inr lib) deadline
    (fun attempt _ ab => remote attempt ab).

(** A browser in which no photograph decodes. *)
Definition brokenPhotos : World :=
  mkWorld (fun _ => None) true (fun _ _ _ _ => "") (inr lib)
    (fun _ => false) (fun _ _ _ => inr (mkResponse None None)).

Definition networkError : Thrown + Response :=
  inr (mkResponse None (Some (ThrownError "Failed to send a request to the Edge Function"))).

(** [data = {}]: an object without [simulatedImage]. *)
Definition emptyObject : Payload := mkPayload None None None None None.

Definition simulated : Payload :=
  mkPayload (Some "jpeg:simulated") None None (Some 0.9%Q) (Some []).

(** Every call fails. *)
Definition allFail : World := world (fun _ _ => networkError) (fun _ => false).

(** Every call returns [{ data: {}, error: null }]. *)
Definition emptyData : World :=
  world (fun _ _ => inr (mkResponse (Some emptyObject) None)) (fun _ => false).

(** The first two calls fail, the third returns a simulated image. *)
Definition thirdTime : World :=
  world (fun attempt _ =>
           if attempt <? 2 then networkError
           else inr (mkResponse (Some simulated) None))
    (fun _ => false).

(** The deadline passes during the first call; calls fail. *)
Definition timedOut : World :=
  world (fun _ _ => networkError) (fun attempt => 1 <=? attempt).

Definition body : Request := mkRequest "jpeg:smile" JNull JNull JNull.

(** A component that is idle on the capture step. *)
Definition idle : Store :=
  mkStore (mkState capture "" "" "" "" None None None None false 0) None None.

(** The same component inside a run. *)
Definition running : Store := begun "rest" "smile" idle.

End Sample.

(** ** A scenario: an undecodable photo pair and the retry button *)

Module Scenario.

(** The retry button shown after a failed run that was started from the
    capture widget with the counter at 0. *)
Definition retry : ToastAction :=
  Reintentar (mkClosure false 0) "rest" "smile".

(** A photo pair that cannot be decoded is submitted, and the retry
    button is pressed [n] times. *)
Definition failures (n : nat) : list UserEvent :=
  SubmitPhotos Sample.brokenPhotos "rest" "smile" ::
  repeat (ClickReintentar Sample.brokenPhotos retry) n.

(** The store after the submission and two retries. *)
Definition worn : Store := fst (replay (failures 2) Sample.idle).

End Scenario.

(** * The rest of the component *)

(** ** initializeFaceLandmarker *)

Inductive Delegate : Type := GPU | CPU.

(** The options object handed to [FaceLandmarker.createFromOptions]. *)
Record LandmarkerOptions : Type := mkLandmarkerOptions {
  modelAssetPath : string;
  delegate : Delegate;
  runningMode : string;
  numFaces : nat;
  minFaceDetectionConfidence : Q;
  minFacePresenceConfidence : Q;
  minTrackingConfidence : Q
}.

(** What [FilesetResolver.forVisionTasks] resolves with. *)
Inductive WasmFileset : Type := mkWasmFileset (basePath : string).

(** What the mount effect consults: the two WebGL contexts of a fresh
    canvas, the two MediaPipe calls, and whether the component is still
    mounted at the two places where [mounted] is read. *)
Record Browser : Type := mkBrowser {
  webgl : bool;
  experimentalWebgl : bool;
  forVisionTasks : string -> Thrown + WasmFileset;
  createFromOptions : WasmFileset -> LandmarkerOptions
                      -> Thrown + FaceLandmarker;
  mountedAfterResolve : bool;
  mountedAfterCreate : bool
}.

(** What the mount effect does to the outside.  The action of the error
    toast calls [initializeFaceLandmarker] again. *)
Inductive InitEvent : Type :=
| ResolveVision (url : string)
| CreateLandmarker (vision : WasmFileset) (options : LandmarkerOptions)
| InitLog (msg : string)
| InitLogError (msg : string) (err : Thrown)
| InitToastError (msg : string) (duration : Z) (actionLabel : string).

Definition visionWasmUrl : string :=
  "https://cdn.jsdelivr.net/npm/@mediapipe/tasks-vision@latest/wasm".

(** The options literal; [gl] is the context found by the WebGL check. *)
Definition landmarkerOptions (gl : bool) : LandmarkerOptions :=
  mkLandmarkerOptions
    "https://storage.googleapis.com/mediapipe-models/face_landmarker/face_landmarker/float16/1/face_landmarker.task"
    (if gl then GPU else CPU)
    "IMAGE" 1 0.5 0.5 0.5.

(** The [catch (error)] block of [initializeFaceLandmarker]. *)
Definition onInitError (error : Thrown) : list InitEvent :=
  [InitLogError "❌ Error initializing Face Landmarker:" error;
   InitToastError "Sistema de análisis facial no disponible. Puede continuar, pero el análisis será limitado."
     7000 "Reintentar"].

(** [initializeFaceLandmarker()]: the value of [faceLandmarkerRef.current]
    afterwards, and what was done. *)
Definition initializeFaceLandmarker (b : Browser)
    (ref : option FaceLandmarker)
  : option FaceLandmarker * list InitEvent :=
  let gl := webgl b || experimentalWebgl b in
  if negb gl then
    (ref, onInitError
            (ThrownError "WebGL not supported. Please use a modern browser."))
  else
    match forVisionTasks b visionWasmUrl with
    | inl error => (ref, ResolveVision visionWasmUrl :: onInitError error)
    | inr vision =>
        if negb (mountedAfterResolve b) then
          (ref, [ResolveVision visionWasmUrl])
        else
          match createFromOptions b vision (landmarkerOptions gl) with
          | inl error =>
              (ref, ResolveVision visionWasmUrl
                    :: CreateLandmarker vision (landmarkerOptions gl)
                    :: onInitError error)
          | inr faceLandmarker =>
              if negb (mountedAfterCreate b) then
                (ref, [ResolveVision visionWasmUrl;
                       CreateLandmarker vision (landmarkerOptions gl)])
              else
                (Some faceLandmarker,
                 [ResolveVision visionWasmUrl;
                  CreateLandmarker vision (landmarkerOptions gl);
                  InitLog "✅ MediaPipe Face Landmarker initialized successfully"])
          end
    end.

(** The component right after mounting: the initial state, with the
    landmarker the mount effect has left. *)
Definition mounted (b : Browser) : Store :=
  mkStore initialState (fst (initializeFaceLandmarker b None)) None.

(** ** More vocabulary *)

(** The messages of the error toasts of a trace. *)
Definition errorToasts (evs : list Event) : list string :=
  flat_map (fun e => match e with ToastError msg _ => [msg] | _ => [] end)
    evs.

(** The timer events of a trace. *)
Definition timerEvents (evs : list Event) : list Event :=
  filter (fun e => match e with
                   | SetTimeout _ | ClearTimeout => true
                   | _ => false
                   end) evs.

(** The failure logs of a trace: attempt number and error. *)
Definition failureLogs (evs : list Event) : list (nat * Thrown) :=
  flat_map (fun e => match e with
                     | LogAttemptFailed n err => [(n, err)]
                     | _ => []
                     end) evs.

(** The failure log an attempt calls for, if any. *)
Definition failureOf (w : World) (body : Request) (inv : nat * bool)
  : list (nat * Thrown) :=
  match classify (invoke w (fst inv) body (snd inv)) with
  | Failed err => [(fst inv + 1, err)]
  | _ => []
  end.

(** Whether the deadline has passed at the start of the given attempt or
    of an earlier one. *)
Definition deadlineBy (w : World) (attempt : nat) : bool :=
  existsb (deadlinePassed w) (seq 0 (S attempt)).

(** A whole number of pixels as a JavaScript number. *)
Definition pixels (n : nat) : Q := inject_Z (Z.of_nat n).

(** The two checks of [validateImageQuality] on whole numbers. *)
Definition lowResolution (image : Image) : bool :=
  (img_width image <? 640) || (img_height image <? 480).

Definition extremeAspect (image : Image) : bool :=
  (2 * img_width image <? img_height image) ||
  (2 * img_height image <? img_width image).

Definition resolutionWarning : Event :=
  ToastWarning "La imagen tiene una resolución muy baja. Los resultados pueden ser limitados.".

Definition aspectWarning : Event :=
  ToastWarning "La proporción de la imagen no es óptima. Intente con una foto más cuadrada.".

(** Events that are no error toast, no remote call and no timer event. *)
Definition calm (e : Event) : Prop :=
  match e with
  | ToastError _ _ | Invoke _ _ _ | SetTimeout _ | ClearTimeout => False
  | _ => True
  end.

(** The message of the toast of the outer [catch] block. *)
Definition failureMessage (cl : Closure) (error : Thrown) : string :=
  if cl_retryCount cl <? MAX_RETRY_ATTEMPTS - 1
  then "Error: " ++ errorMessageOf error
  else "No se pudo procesar la imagen después de varios intentos. Por favor, intente con una foto diferente.".

(** Events other than a backoff delay. *)
Definition prompt (e : Event) : Prop :=
  match e with
  | Sleep _ => False
  | _ => True
  end.

(** The warning toasts of a trace. *)
Definition warningToasts (evs : list Event) : list string :=
  flat_map (fun e => match e with ToastWarning msg => [msg] | _ => [] end)
    evs.

(** The size of the canvas [optimizeImage] draws a decoded image on. *)
Definition canvasSize (img : Image) : Z * Z :=
  let '(width, height) := targetSize img in
  (toUint32 width, toUint32 height).

(** [MAX_IMAGE_SIZE / n] *)
Definition quotient (n : nat) : number :=
  numberDiv (numberOfNat MAX_IMAGE_SIZE) (numberOfNat n).

(** A key that orders the positive numbers with a significand below
    2^53 as [<] orders them. *)
Definition floatKey (x : number) : option Z :=
  match x with
  | S754_finite false m e =>
      if (Zpos m <? 2 ^ 53)%Z then Some (e * 2 ^ 53 + Zpos m)%Z else None
  | _ => None
  end.

Definition below (prev : option Z) (k : Z) : bool :=
  match prev with
  | Some p => (k <=? p)%Z
  | None => true
  end.

(** Whether [n * q] is a canvas side of 2047 or 2048 pixels, asked of
    the sides beyond [MAX_IMAGE_SIZE] only. *)
Definition longSideOk (n : nat) (q : number) : bool :=
  (n <=? MAX_IMAGE_SIZE) ||
  (let side := toUint32 (numberMul (numberOfNat n) q) in
   (side =? 2047)%Z || (side =? 2048)%Z).

(** One pass over the quotients of [n], [n + 1], ...: they have keys,
    they do not grow, and each scales its own divisor to a side of 2047
    or 2048 pixels. *)
Fixpoint checkQuotients (prev : option Z) (n count : nat) : bool :=
  match count with
  | 0 => true
  | S count' =>
      let q := quotient n in
      match floatKey q with
      | Some k =>
          below prev k && longSideOk n q
          && checkQuotients (Some k) (S n) count'
      | None => false
      end
  end.

(** The largest side, in pixels, for which the quotients are evaluated
    one by one. *)
Definition LARGEST_CHECKED : nat := 4 * MAX_IMAGE_SIZE.

(** ** More sample environments *)

Module Probe.

Definition face : list Landmark := [mkLandmark 0.5 0.5 0].

(** A landmarker that finds one face in every image. *)
Definition seeing : FaceLandmarker :=
  mkFaceLandmarker (fun _ => inr (mkFaceLandmarkerResult (Some [face]))).

(** A metrics library whose [computeMetrics] throws. *)
Definition brokenMetrics : MetricsLib :=
  mkMetricsLib
    (fun _ => inl (ThrownError "landmark index out of range"))
    (fun _ => inr (JObj [("faceShape", JStr "oval")]))
    (fun _ _ => inr (JArr []))
    (fun _ _ _ => inr "Analisis").

(** The sample browser with that library, in which every call fails. *)
Definition brokenMetricsWorld : World :=
  mkWorld (fun src => Some (mkImage src 800 600)) true
    (fun img _ _ _ => ("jpeg:" ++ img_src img)%string) (inr brokenMetrics)
    (fun _ => false) (fun _ _ _ => Sample.networkError).

(** A component with a landmarker, idle on the capture step. *)
Definition idleSeeing : Store :=
  mkStore (react Sample.idle) (Some seeing) None.

(** A browser without WebGL. *)
Definition noWebgl : Browser :=
  mkBrowser false false (fun url => inr (mkWasmFileset url))
    (fun _ _ => inr seeing) true true.

(** A browser in which initialization goes through. *)
Definition modern : Browser :=
  mkBrowser true false (fun url => inr (mkWasmFileset url))
    (fun _ _ => inr seeing) true true.

Definition someone : ContactData :=
  mkContactData "ana@example.com" None None.

(** Every call returns [{ data: null, error: null }]. *)
Definition noPayload : World :=
  Sample.world (fun _ _ => inr (mkResponse None None)) (fun _ => false).

(** The first call returns [{ data: null, error: null }], the others
    fail. *)
Definition emptyThenFail : World :=
  Sample.world (fun attempt _ =>
                  if attempt =? 0 then inr (mkResponse None None)
                  else Sample.networkError)
    (fun _ => false).

(** The retry button of a run on an earlier photo pair that failed. *)
Definition oldRetry : ToastAction :=
  Reintentar (mkClosure false 0) "rest0" "smile0".

(** A browser in which every photograph decodes to 2215 x 1000. *)
Definition widePhotos : World :=
  mkWorld (fun src => Some (mkImage src 2215 1000)) true
    (fun img _ _ _ => ("jpeg:" ++ img_src img)%string) (inr Sample.lib)
    (fun _ => false) (fun _ _ _ => Sample.networkError).

End Probe.

(** * Lemmas *)

(** ** One iteration of the retry loop *)

Lemma simulationLoop_cons w body attempt rest s :
  simulationLoop w body (attempt :: rest) s =
  let s1 := tick w attempt s in
  let ab := signalAborted s1 in
  match classify (invoke w attempt body ab) with
  | Accepted d => (inr (Some d), s1, [Invoke attempt body ab])
  | Empty =>
      match simulationLoop w body rest s1 with
      | (r, s2, evs) => (r, s2, Invoke attempt body ab :: evs)
      end
  | Failed err =>
      match simulationLoop w body rest s1 with
      | (r, s2, evs) =>
          (r, s2, Invoke attempt body ab :: failureEvents attempt err ++ evs)
      end
  end.
Proof.
  cbn [simulationLoop].
  unfold bind, tryCatch, timerTick, tick, modify, get, emit, call, throw,
    ret, classify, failureEvents.
  destruct (attempt <? MAX_RETRY_ATTEMPTS - 1);
    destruct (deadlinePassed w attempt); cbn -[Z.mul];
    match goal with
    | |- context [invoke w attempt body ?ab] =>
        destruct (invoke w attempt body ab) as [e | [[d |] [e |]]]
    end; cbn -[Z.mul];
    try match goal with
    | |- context [simulationLoop w body rest ?s1] =>
        destruct (simulationLoop w body rest s1) as [[r s2] evs]
    end; reflexivity.
Qed.

(** ** The retry loop over any range of attempts *)

Section RetryLoop.

Variable w : World.
Variable body : Request.

Lemma invocations_app evs1 evs2 :
  invocations (evs1 ++ evs2) = invocations evs1 ++ invocations evs2.
Proof. unfold invocations. now rewrite flat_map_app. Qed.

Lemma invocations_cons_invoke attempt ab evs :
  invocations (Invoke attempt body ab :: evs) = (attempt, ab) :: invocations evs.
Proof. reflexivity. Qed.

Lemma invocations_failureEvents attempt err evs :
  invocations (failureEvents attempt err ++ evs) = invocations evs.
Proof.
  unfold failureEvents.
  destruct (attempt <? MAX_RETRY_ATTEMPTS - 1); reflexivity.
Qed.

Lemma sleeps_app evs1 evs2 : sleeps (evs1 ++ evs2) = sleeps evs1 ++ sleeps evs2.
Proof. unfold sleeps. now rewrite flat_map_app. Qed.

Lemma signalAborted_tick attempt s :
  signalAborted s = true -> signalAborted (tick w attempt s) = true.
Proof.
  unfold tick, signalAborted.
  destruct (deadlinePassed w attempt); [|easy].
  now destruct (abortControllerRef s).
Qed.

(** Case analysis on one iteration, with the trace of the remaining
    iterations named. *)
Ltac step_loop attempt rest s :=
  rewrite (simulationLoop_cons w body attempt rest s); cbv zeta;
  destruct (classify (invoke w attempt body
              (signalAborted (tick w attempt s)))) as [err| |d] eqn:Hcls;
  [ destruct (simulationLoop w body rest (tick w attempt s))
      as [[r s2] evs] eqn:Hrest
  | destruct (simulationLoop w body rest (tick w attempt s))
      as [[r s2] evs] eqn:Hrest
  | ].

(** The loop catches whatever an attempt throws. *)
Lemma simulationLoop_returns attempts s :
  exists result, outcome (simulationLoop w body attempts s) = inr result.
Proof.
  revert s.
  induction attempts as [|attempt rest IH]; intros s.
  - now exists None.
  - step_loop attempt rest s.
    + specialize (IH (tick w attempt s)). rewrite Hrest in IH. exact IH.
    + specialize (IH (tick w attempt s)). rewrite Hrest in IH. exact IH.
    + now exists (Some d).
Qed.

(** The loop writes nothing but the flag of the abort signal. *)
Lemma simulationLoop_store attempts s :
  react (storeOf (simulationLoop w body attempts s)) = react s /\
  faceLandmarkerRef (storeOf (simulationLoop w body attempts s)) = faceLandmarkerRef s.
Proof.
  revert s.
  assert (Htick : forall a s, react (tick w a s) = react s /\
            faceLandmarkerRef (tick w a s) = faceLandmarkerRef s).
  { intros a s. unfold tick. now destruct (deadlinePassed w a). }
  induction attempts as [|attempt rest IH]; intros s.
  - now split.
  - step_loop attempt rest s; cbn.
    + specialize (IH (tick w attempt s)). rewrite Hrest in IH. cbn in IH.
      destruct IH as [-> ->]. apply Htick.
    + specialize (IH (tick w attempt s)). rewrite Hrest in IH. cbn in IH.
      destruct IH as [-> ->]. apply Htick.
    + apply Htick.
Qed.

(** A non-empty range begins with its first attempt. *)
Lemma simulationLoop_begins_first attempt rest s :
  begins (traceOf (simulationLoop w body (attempt :: rest) s)) attempt.
Proof. step_loop attempt rest s; cbn;
    eexists; left; reflexivity.
Qed.

(** Only attempts of the range are begun. *)
Lemma simulationLoop_range n : forall a s j ab,
  In (j, ab) (invocations (traceOf (simulationLoop w body (seq a n) s))) -> a <= j < a + n.
Proof.
  induction n as [|n IH]; intros a s j ab Hin; [now cbn in Hin|].
  cbn [seq] in Hin. revert Hin.
  step_loop a (seq (S a) n) s; cbn [traceOf snd];
    rewrite invocations_cons_invoke, ?invocations_failureEvents.
  - intros [Heq | Hin].
    + inversion Heq; subst. lia.
    + specialize (IH (S a) (tick w a s) j ab).
      rewrite Hrest in IH. apply IH in Hin. lia.
  - intros [Heq | Hin].
    + inversion Heq; subst. lia.
    + specialize (IH (S a) (tick w a s) j ab).
      rewrite Hrest in IH. apply IH in Hin. lia.
  - intros [Heq | []]. inversion Heq; subst. lia.
Qed.

Lemma begins_cons attempt ab evs j :
  begins (Invoke attempt body ab :: evs) j <-> j = attempt \/ begins evs j.
Proof.
  unfold begins. rewrite invocations_cons_invoke. split.
  - intros [ab' [Heq | Hin]]; [inversion Heq; now left | right; now exists ab'].
  - intros [-> | [ab' Hin]]; [exists ab; now left | exists ab'; now right].
Qed.

Lemma begins_failureEvents attempt err evs j :
  begins (failureEvents attempt err ++ evs) j <-> begins evs j.
Proof. unfold begins. now rewrite invocations_failureEvents. Qed.

(** What follows each attempt that is begun: after accepted [data]
    the loop returns it and begins nothing more; after anything else
    the next attempt of the range is begun. *)
Lemma simulationLoop_attempts n : forall a s j ab,
  In (j, ab) (invocations (traceOf (simulationLoop w body (seq a n) s))) ->
  match classify (invoke w j body ab) with
  | Accepted d =>
      outcome (simulationLoop w body (seq a n) s) = inr (Some d) /\
      forall j', j < j' ->
        ~ begins (traceOf (simulationLoop w body (seq a n) s)) j'
  | _ => S j < a + n ->
         begins (traceOf (simulationLoop w body (seq a n) s)) (S j)
  end.
Proof.
  induction n as [|n IH]; intros a s j ab Hin; [now cbn in Hin|].
  pose proof (simulationLoop_range n (S a) (tick w a s)) as Hrange.
  pose proof (IH (S a) (tick w a s)) as IH'.
  assert (Hnext : S a < a + S n ->
            begins (traceOf (simulationLoop w body (seq (S a) n)
                               (tick w a s))) (S a)).
  { intros Hlt. destruct n as [|n']; [lia|].
    apply (simulationLoop_begins_first (S a) (seq (S (S a)) n')). }
  cbn [seq] in Hin |- *. revert Hin.
  step_loop a (seq (S a) n) s; cbn [traceOf outcome fst snd];
    cbn [traceOf outcome fst snd] in Hrange, IH', Hnext;
    rewrite invocations_cons_invoke, ?invocations_failureEvents.
  - (* the attempt failed *)
    intros [Heq | Hin].
    + inversion Heq; subst j ab. rewrite Hcls. intros Hlt.
      apply begins_cons; right. apply begins_failureEvents. auto.
    + specialize (IH' j ab Hin). specialize (Hrange j ab Hin).
      destruct (classify (invoke w j body ab)) as [e'| |d'].
      * intros Hlt. apply begins_cons; right.
        apply begins_failureEvents. apply IH'. lia.
      * intros Hlt. apply begins_cons; right.
        apply begins_failureEvents. apply IH'. lia.
      * destruct IH' as [Hout Hno]. split; [exact Hout|].
        intros j' Hlt Hb. apply begins_cons in Hb as [-> | Hb]; [lia|].
        apply begins_failureEvents in Hb. now apply (Hno j').
  - (* the attempt returned nothing *)
    intros [Heq | Hin].
    + inversion Heq; subst j ab. rewrite Hcls. intros Hlt.
      apply begins_cons; right. auto.
    + specialize (IH' j ab Hin). specialize (Hrange j ab Hin).
      destruct (classify (invoke w j body ab)) as [e'| |d'].
      * intros Hlt. apply begins_cons; right. apply IH'. lia.
      * intros Hlt. apply begins_cons; right. apply IH'. lia.
      * destruct IH' as [Hout Hno]. split; [exact Hout|].
        intros j' Hlt Hb. apply begins_cons in Hb as [-> | Hb]; [lia|].
        now apply (Hno j').
  - (* the attempt returned data *)
    intros [Heq | []]. inversion Heq; subst j ab. rewrite Hcls.
    split; [reflexivity|].
    intros j' Hlt Hb. apply begins_cons in Hb as [-> | [ab' []]]. lia.
Qed.

(** The [data] the loop returns is the [data] of an attempt it made. *)
Lemma simulationLoop_result attempts : forall s got,
  outcome (simulationLoop w body attempts s) = inr (Some got) ->
  exists j ab,
    In (j, ab) (invocations (traceOf (simulationLoop w body attempts s))) /\
    classify (invoke w j body ab) = Accepted got.
Proof.
  induction attempts as [|attempt rest IH]; intros s got; [discriminate|].
  step_loop attempt rest s; cbn [traceOf outcome fst snd];
    rewrite invocations_cons_invoke, ?invocations_failureEvents.
  - intros Hout. destruct (IH (tick w attempt s) got) as (j & ab & Hin & Hj).
    + now rewrite Hrest.
    + rewrite Hrest in Hin. exists j, ab. split; [now right | exact Hj].
  - intros Hout. destruct (IH (tick w attempt s) got) as (j & ab & Hin & Hj).
    + now rewrite Hrest.
    + rewrite Hrest in Hin. exists j, ab. split; [now right | exact Hj].
  - intros Hout. inversion Hout; subst got.
    eexists _, _. split; [now left | exact Hcls].
Qed.

Lemma sleeps_failureEvents attempt err :
  sleeps (failureEvents attempt err) =
  if attempt <? MAX_RETRY_ATTEMPTS - 1 then [backoffDelay attempt] else [].
Proof.
  unfold failureEvents. now destruct (attempt <? MAX_RETRY_ATTEMPTS - 1).
Qed.

(** The delays of a run are those of its failed attempts, in order. *)
Lemma simulationLoop_sleeps attempts : forall s,
  sleeps (traceOf (simulationLoop w body attempts s)) =
  map (fun inv => backoffDelay (fst inv))
    (filter (delayed w body)
       (invocations (traceOf (simulationLoop w body attempts s)))).
Proof.
  induction attempts as [|attempt rest IH]; intros s; [reflexivity|].
  step_loop attempt rest s; cbn [traceOf outcome fst snd];
    rewrite invocations_cons_invoke, ?invocations_failureEvents;
    cbn [filter]; unfold delayed at 1; cbn [fst snd]; rewrite Hcls;
    cbn [isFailed andb].
  - specialize (IH (tick w attempt s)). rewrite Hrest in IH.
    cbn [traceOf snd] in IH.
    change (sleeps (Invoke attempt body ?b :: ?l)) with (sleeps l).
    rewrite sleeps_app, sleeps_failureEvents, IH.
    now destruct (attempt <? MAX_RETRY_ATTEMPTS - 1).
  - specialize (IH (tick w attempt s)). rewrite Hrest in IH.
    exact IH.
  - reflexivity.
Qed.

(** Each delay stands right behind the failure log of its attempt. *)
Lemma simulationLoop_backoffOk attempts : forall s,
  backoffOk (traceOf (simulationLoop w body attempts s)) = true.
Proof.
  induction attempts as [|attempt rest IH]; intros s; [reflexivity|].
  step_loop attempt rest s; cbn [traceOf snd]; [| |reflexivity];
    specialize (IH (tick w attempt s)); rewrite Hrest in IH;
    cbn [traceOf snd] in IH; [|exact IH].
  unfold failureEvents. cbn [backoffOk app].
  destruct (Nat.ltb_spec attempt (MAX_RETRY_ATTEMPTS - 1)) as [Hlast|Hlast];
    destruct (Nat.ltb_spec (attempt + 1) MAX_RETRY_ATTEMPTS) as [Hnum|Hnum];
    unfold MAX_RETRY_ATTEMPTS in Hlast, Hnum; try lia; cbn [app].
  - now rewrite Z.eqb_refl.
  - exact IH.
Qed.

(** Once the signal is aborted, every remaining attempt of the range
    is still begun, unless a call made with the aborted signal returns
    data. *)
Lemma simulationLoop_after_abort n : forall a s,
  signalAborted s = true ->
  (forall j, a <= j < a + n ->
     isAccepted (classify (invoke w j body true)) = false) ->
  forall j, a <= j < a + n ->
    In (j, true)
      (invocations (traceOf (simulationLoop w body (seq a n) s))).
Proof.
  induction n as [|n IH]; intros a s Hab Hrej j Hj; [lia|].
  pose proof (signalAborted_tick a s Hab) as Hab1.
  pose proof (IH (S a) (tick w a s) Hab1) as IH'.
  pose proof (Hrej a) as Hfirst.
  cbn [seq]. revert Hfirst.
  step_loop a (seq (S a) n) s; cbn [traceOf snd];
    rewrite invocations_cons_invoke, ?invocations_failureEvents;
    cbn [traceOf snd] in IH'; rewrite Hab1 in *; intros Hfirst.
  - destruct (Nat.eq_dec j a) as [-> | Hne]; [now left | right].
    apply IH'; [intros; apply Hrej |]; lia.
  - destruct (Nat.eq_dec j a) as [-> | Hne]; [now left | right].
    apply IH'; [intros; apply Hrej |]; lia.
  - rewrite Hcls in Hfirst. cbn in Hfirst.
    assert (false = true) by (symmetry; apply Hfirst; lia). discriminate.
Qed.

Lemma simulationLoop_abort_persists n : forall a s k,
  In (k, true)
    (invocations (traceOf (simulationLoop w body (seq a n) s))) ->
  (forall j, k <= j < a + n ->
     isAccepted (classify (invoke w j body true)) = false) ->
  forall j, k <= j < a + n ->
    In (j, true)
      (invocations (traceOf (simulationLoop w body (seq a n) s))).
Proof.
  induction n as [|n IH]; intros a s k Hin Hrej j Hj; [now cbn in Hin|].
  pose proof (simulationLoop_range n (S a) (tick w a s)) as Hrange.
  pose proof (IH (S a) (tick w a s) k) as IH'.
  pose proof (simulationLoop_after_abort n (S a) (tick w a s)) as Hafter.
  cbn [seq] in Hin |- *. revert Hin.
  step_loop a (seq (S a) n) s; cbn [traceOf snd];
    cbn [traceOf snd] in Hrange, IH', Hafter;
    rewrite invocations_cons_invoke, ?invocations_failureEvents.
  - intros [Heq | Hin].
    + injection Heq as Hk Hab; subst k.
      destruct (Nat.eq_dec j a) as [-> | Hne]; [left; now rewrite Hab | right].
      apply Hafter; [exact Hab | intros; apply Hrej; lia | lia].
    + right. apply IH'; [exact Hin | intros; apply Hrej; lia | lia].
  - intros [Heq | Hin].
    + injection Heq as Hk Hab; subst k.
      destruct (Nat.eq_dec j a) as [-> | Hne]; [left; now rewrite Hab | right].
      apply Hafter; [exact Hab | intros; apply Hrej; lia | lia].
    + right. apply IH'; [exact Hin | intros; apply Hrej; lia | lia].
  - intros [Heq | []]. injection Heq as Hk Hab; subst k.
    rewrite Hab in Hcls. specialize (Hrej a). rewrite Hcls in Hrej.
    cbn in Hrej. assert (true = false) by (apply Hrej; lia). discriminate.
Qed.

End RetryLoop.

(** ** What a computation may do to the store *)

Section Preservation.

(** A relation between the store before and the store after. *)
Variable R : Store -> Store -> Prop.
Hypothesis R_refl : forall s, R s s.
Hypothesis R_trans : forall s1 s2 s3, R s1 s2 -> R s2 s3 -> R s1 s3.

Lemma preserves_ret {A} (a : A) : preserves R (ret a).
Proof. intros s. apply R_refl. Qed.

Lemma preserves_call {A} (r : Thrown + A) : preserves R (call r).
Proof. intros s. apply R_refl. Qed.

Lemma preserves_throw {A} (e : Thrown) : preserves R (@throw A e).
Proof. intros s. apply R_refl. Qed.

Lemma preserves_emit (e : Event) : preserves R (emit e).
Proof. intros s. apply R_refl. Qed.

Lemma preserves_get : preserves R get.
Proof. intros s. apply R_refl. Qed.

Lemma preserves_modify f : (forall s, R s (f s)) -> preserves R (modify f).
Proof. intros Hf s. apply Hf. Qed.

Lemma preserves_bind {A B} (m : M A) (k : A -> M B) :
  preserves R m -> (forall a, preserves R (k a)) -> preserves R (bind m k).
Proof.
  intros Hm Hk s. unfold bind, storeOf. specialize (Hm s).
  destruct (m s) as [[[e | a] s1] ev1]; cbn in *; [exact Hm|].
  specialize (Hk a s1). destruct (k a s1) as [[r s2] ev2]; cbn in *.
  eapply R_trans; eassumption.
Qed.

Lemma preserves_tryCatch {A} (m : M A) (h : Thrown -> M A) :
  preserves R m -> (forall e, preserves R (h e)) -> preserves R (tryCatch m h).
Proof.
  intros Hm Hh s. unfold tryCatch, storeOf. specialize (Hm s).
  destruct (m s) as [[[e | a] s1] ev1]; cbn in *; [|exact Hm].
  specialize (Hh e s1). destruct (h e s1) as [[r s2] ev2]; cbn in *.
  eapply R_trans; eassumption.
Qed.

Lemma preserves_tryFinally {A} (m : M A) (f : M unit) :
  preserves R m -> preserves R f -> preserves R (tryFinally m f).
Proof.
  intros Hm Hf s. unfold tryFinally, storeOf. specialize (Hm s).
  destruct (m s) as [[r s1] ev1]; cbn in *.
  specialize (Hf s1). destruct (f s1) as [[[e | u] s2] ev2]; cbn in *;
    eapply R_trans; eassumption.
Qed.

End Preservation.

(** Breaks a computation down to its primitive steps; what is left are
    the steps that write to the store. *)
Ltac preserve :=
  repeat first
    [ apply preserves_ret; assumption
    | apply preserves_call; assumption
    | apply preserves_throw; assumption
    | apply preserves_emit; assumption
    | apply preserves_get; assumption
    | apply preserves_bind; [assumption | | intros]
    | apply preserves_tryCatch; [assumption | | intros]
    | apply preserves_tryFinally; [assumption | |]
    | match goal with
      | |- preserves _ (match ?x with _ => _ end) => destruct x
      | |- preserves _ (if ?x then _ else _) => destruct x
      end ].

Lemma validateImageQuality_readOnly image :
  readOnly (validateImageQuality image).
Proof.
  unfold readOnly, validateImageQuality.
  assert (Hr : forall s : Store, s = s) by reflexivity.
  assert (Ht : forall s1 s2 s3 : Store, s1 = s2 -> s2 = s3 -> s1 = s3)
    by (intros; congruence).
  preserve.
Qed.

Lemma detectLandmarks_readOnly lib smileImg restImg :
  readOnly (detectLandmarks lib smileImg restImg).
Proof.
  unfold readOnly, detectLandmarks, onLandmarkError.
  assert (Hr : forall s : Store, s = s) by reflexivity.
  assert (Ht : forall s1 s2 s3 : Store, s1 = s2 -> s2 = s3 -> s1 = s3)
    by (intros; congruence).
  preserve.
Qed.

Lemma prepare_readOnly w rest smile : readOnly (prepare w rest smile).
Proof.
  unfold readOnly, prepare, optimizeBoth, createImages, validateBoth, analyse.
  assert (Hr : forall s : Store, s = s) by reflexivity.
  assert (Ht : forall s1 s2 s3 : Store, s1 = s2 -> s2 = s3 -> s1 = s3)
    by (intros; congruence).
  preserve;
    first [ apply validateImageQuality_readOnly
          | apply detectLandmarks_readOnly ].
Qed.

(** ** A run of handleCapture, stage by stage *)

Lemma handleCapture_run cl w rest smile s :
  cl_isProcessing cl = false ->
  handleCapture cl w rest smile s =
  match pipeline w rest smile (begun rest smile s) with
  | (inr _, s1, evs) => (inr tt, settled s1, startEvents cl s ++ evs)
  | (inl error, s1, evs) =>
      (inr tt, settled (backToCapture s1),
       startEvents cl s ++ evs ++ catchEvents cl rest smile error)
  end.
Proof.
  intros Hidle. unfold handleCapture. rewrite Hidle.
  unfold onPipelineError, catchEvents, failureNotice, startEvents.
  destruct (cl_retryCount cl <? MAX_RETRY_ATTEMPTS - 1);
    unfold bind, tryFinally, tryCatch, setIsProcessing, setRestImage,
      setSmileImage, setStep, setAbortControllerRef, setReact, modify, get,
      emit; cbn -[pipeline];
    fold (begun rest smile s);
    destruct (pipeline w rest smile (begun rest smile s))
      as [[[error | []] s1] evs]; cbn; rewrite ?app_nil_r; reflexivity.
Qed.

Lemma pipeline_run w rest smile s :
  pipeline w rest smile s =
  match prepare w rest smile s with
  | (inl e, s1, ev0) => (inl e, s1, ev0)
  | (inr p, s1, ev0) =>
      match simulationLoop w (simulationRequest p) simulationAttempts s1 with
      | (inl e, s2, ev1) => (inl e, s2, ev0 ++ ev1)
      | (inr simulationResult, s2, ev1) =>
          (inr tt,
           mkStore (completed p simulationResult (react s2))
             (faceLandmarkerRef s2) (abortControllerRef s2),
           ev0 ++ ev1 ++ ClearTimeout :: resultEvents simulationResult)
      end
  end.
Proof.
  unfold pipeline, bind.
  destruct (prepare w rest smile s) as [[[e | p] s1] ev0]; [reflexivity|].
  destruct (simulationLoop w (simulationRequest p) simulationAttempts s1)
    as [[[e | simulationResult] s2] ev1]; [reflexivity|].
  unfold processSimulationResult, completed, resultEvents.
  destruct simulationResult as [d|];
    [destruct (usableImage (Some d))|]; cbn; rewrite ?app_nil_r; reflexivity.
Qed.

(** A run whose stages before the retry loop succeed goes through to the
    contact step, whatever the remote calls do. *)
Lemma handleCapture_completes cl w rest smile s p :
  cl_isProcessing cl = false ->
  outcome (prepare w rest smile (begun rest smile s)) = inr p ->
  let run :=
    simulationLoop w (simulationRequest p) simulationAttempts
      (begun rest smile s) in
  exists simulationResult,
    outcome run = inr simulationResult /\
    outcome (handleCapture cl w rest smile s) = inr tt /\
    storeOf (handleCapture cl w rest smile s) =
      settled (mkStore
                 (completed p simulationResult (react (begun rest smile s)))
                 (faceLandmarkerRef s) None) /\
    traceOf (handleCapture cl w rest smile s) =
      startEvents cl s ++ traceOf (prepare w rest smile (begun rest smile s))
        ++ traceOf run ++ ClearTimeout :: resultEvents simulationResult.
Proof.
  intros Hidle Hprep run. subst run.
  rewrite (handleCapture_run _ _ _ _ _ Hidle), pipeline_run.
  pose proof (prepare_readOnly w rest smile (begun rest smile s)) as Hro.
  destruct (prepare w rest smile (begun rest smile s)) as [[[e | p'] s1] ev0];
    cbn in Hprep, Hro; [discriminate|].
  injection Hprep as ->. subst s1.
  destruct (simulationLoop_returns w (simulationRequest p) simulationAttempts
              (begun rest smile s)) as [simulationResult Hret].
  destruct (simulationLoop_store w (simulationRequest p) simulationAttempts
              (begun rest smile s)) as [Hreact Hflr].
  destruct (simulationLoop w (simulationRequest p) simulationAttempts
              (begun rest smile s)) as [[[e | result'] s2] ev1];
    cbn in Hret, Hreact, Hflr; [discriminate|].
  injection Hret as ->. exists simulationResult.
  cbn [outcome storeOf traceOf fst snd]. rewrite Hreact.
  repeat split. unfold settled. cbn. now rewrite Hflr.
Qed.

(** A run in which a stage before the retry loop throws goes back to the
    capture step with the failure notice. *)
Lemma handleCapture_fails cl w rest smile s error :
  cl_isProcessing cl = false ->
  outcome (prepare w rest smile (begun rest smile s)) = inl error ->
  outcome (handleCapture cl w rest smile s) = inr tt /\
  storeOf (handleCapture cl w rest smile s) =
    settled (backToCapture (begun rest smile s)) /\
  traceOf (handleCapture cl w rest smile s) =
    startEvents cl s ++ traceOf (prepare w rest smile (begun rest smile s))
      ++ catchEvents cl rest smile error.
Proof.
  intros Hidle Hprep.
  rewrite (handleCapture_run _ _ _ _ _ Hidle), pipeline_run.
  pose proof (prepare_readOnly w rest smile (begun rest smile s)) as Hro.
  destruct (prepare w rest smile (begun rest smile s)) as [[[e | p'] s1] ev0];
    cbn in Hprep, Hro; [|discriminate].
  injection Hprep as ->. subst s1. now repeat split.
Qed.

(** [handleCapture] lets nothing escape: it always returns. *)
Lemma handleCapture_returns cl w rest smile s :
  outcome (handleCapture cl w rest smile s) = inr tt.
Proof.
  destruct (cl_isProcessing cl) eqn:Hidle.
  - unfold handleCapture. now rewrite Hidle.
  - destruct (outcome (prepare w rest smile (begun rest smile s)))
      as [error | p] eqn:Hprep.
    + now destruct (handleCapture_fails cl w rest smile s error Hidle Hprep).
    + destruct (handleCapture_completes cl w rest smile s p Hidle Hprep)
        as (result & _ & Hout & _). exact Hout.
Qed.

(** * The claims *)

(** ** C7: optimizeImage *)

(** C7. [optimizeImage] never fails: for every input string its promise
    resolves, and when the image cannot be decoded or the canvas gives no
    2d context it resolves with the input string itself. *)
Theorem optimizeImage_never_fails (w : World) (base64 : string) :
  (exists optimized, optimizeImage w base64 = inr optimized) /\
  (loadImage w base64 = None \/ getContext2d w = false ->
   optimizeImage w base64 = inr base64).
Proof.
  unfold optimizeImage. split.
  - destruct (loadImage w base64) as [img|]; [|now exists base64].
    destruct (getContext2d w); cbn [negb]; [|now exists base64].
    destruct (targetSize img) as [width height]. eexists. reflexivity.
  - intros [Hdecode | Hctx].
    + now rewrite Hdecode.
    + rewrite Hctx. now destruct (loadImage w base64).
Qed.

Lemma optimizeImage_never_fails_witness :
  (loadImage Sample.brokenPhotos "not an image" = None \/
   getContext2d Sample.brokenPhotos = false) /\
  optimizeImage Sample.brokenPhotos "not an image" = inr "not an image".
Proof.
  split.
  - left. reflexivity.
  - apply (optimizeImage_never_fails Sample.brokenPhotos "not an image").
    left. reflexivity.
Defined.

(** ** C1: when the retry loop ends *)

(** C1, as stated, fails: a response whose [data] is an object without
    [simulatedImage] carries no usable image, yet it ends the loop after
    the first attempt. *)
Lemma data_without_image_ends_loop :
  usableResponse (invoke Sample.emptyData 0 Sample.body false) = false /\
  simulationLoop Sample.emptyData Sample.body simulationAttempts Sample.running
    = (inr (Some Sample.emptyObject), Sample.running,
       [Invoke 0 Sample.body false]) /\
  ~ begins
      (traceOf (simulationLoop Sample.emptyData Sample.body
                  simulationAttempts Sample.running)) 1.
Proof.
  repeat split.
  intros [ab Hin]. vm_compute in Hin. destruct Hin as [Heq | []].
  discriminate.
Qed.

(** C1, amended. An attempt ends the retry loop exactly when its call
    returns no [error] and a non-null [data], whether or not that data
    holds a simulated image: the loop then returns this data and begins
    no later attempt.  After every other attempt (the call threw,
    returned an [error], or returned neither [error] nor [data]) the
    next attempt is begun, as long as one of the three is left. *)
Theorem retry_loop_ends_on_first_data
    (w : World) (body : Request) (s : Store) (attempt : nat) (ab : bool) :
  In (attempt, ab)
    (invocations (traceOf (simulationLoop w body simulationAttempts s))) ->
  match classify (invoke w attempt body ab) with
  | Accepted d =>
      outcome (simulationLoop w body simulationAttempts s) = inr (Some d) /\
      forall later, attempt < later ->
        ~ begins (traceOf (simulationLoop w body simulationAttempts s)) later
  | _ =>
      S attempt < MAX_RETRY_ATTEMPTS ->
      begins (traceOf (simulationLoop w body simulationAttempts s))
        (S attempt)
  end.
Proof.
  apply (simulationLoop_attempts w body MAX_RETRY_ATTEMPTS 0 s).
Qed.

Lemma retry_loop_ends_on_first_data_witness :
  In (2, false)
    (invocations (traceOf (simulationLoop Sample.thirdTime Sample.body
                             simulationAttempts Sample.running))) /\
  (outcome (simulationLoop Sample.thirdTime Sample.body simulationAttempts
              Sample.running) = inr (Some Sample.simulated) /\
   forall later, 2 < later ->
     ~ begins (traceOf (simulationLoop Sample.thirdTime Sample.body
                          simulationAttempts Sample.running)) later).
Proof.
  assert (H : In (2, false)
    (invocations (traceOf (simulationLoop Sample.thirdTime Sample.body
                             simulationAttempts Sample.running)))).
  { vm_compute. right. right. left. reflexivity. }
  split.
  - exact H.
  - exact (retry_loop_ends_on_first_data Sample.thirdTime Sample.body
             Sample.running 2 false H).
Defined.

(** ** C3: the backoff delays *)

(** C3, as stated, fails: the delay stands in the [catch] block only.
    Three attempts that each come back without a payload
    ([{ data: null, error: null }]) exhaust the loop with no delay at all
    instead of 1 s + 2 s; and when such an attempt is followed by two
    that fail, the only delay is the 2 s one. *)
Lemma no_payload_attempts_get_no_backoff :
  usableResponse (invoke Probe.noPayload 0 Sample.body false) = false /\
  usableResponse (invoke Probe.noPayload 1 Sample.body false) = false /\
  usableResponse (invoke Probe.noPayload 2 Sample.body false) = false /\
  outcome (simulationLoop Probe.noPayload Sample.body simulationAttempts
             Sample.running) = inr None /\
  map fst (invocations
             (traceOf (simulationLoop Probe.noPayload Sample.body
                         simulationAttempts Sample.running))) = [0; 1; 2] /\
  sleeps (traceOf (simulationLoop Probe.noPayload Sample.body
                     simulationAttempts Sample.running)) = [] /\
  sleeps (traceOf (simulationLoop Probe.emptyThenFail Sample.body
                     simulationAttempts Sample.running)) = [2000%Z].
Proof. repeat split. Qed.

(** C3, amended. The client waits only after an attempt whose call
    threw or returned an error (the attempts the [catch] block logs as
    failed), and not after the third: [1000 * n] ms after the failure
    of attempt number [n] (1000 ms after the first, 2000 ms after the
    second), each delay right behind the failure log of its attempt,
    and none anywhere else.  An attempt that comes back with neither an
    error nor data is followed by the next attempt at once.  So a run
    whose three calls all throw or return an error waits 1000 ms and
    2000 ms, 3000 ms in all, and a run whose three calls all come back
    without error and without data waits not at all. *)
Theorem backoff_after_failed_attempts
    (w : World) (body : Request) (s : Store) :
  sleeps (traceOf (simulationLoop w body simulationAttempts s)) =
    map (fun inv => backoffDelay (fst inv))
      (filter (delayed w body)
         (invocations (traceOf (simulationLoop w body simulationAttempts s))))
  /\
  backoffOk (traceOf (simulationLoop w body simulationAttempts s)) = true /\
  ((forall attempt ab, attempt < MAX_RETRY_ATTEMPTS ->
      isFailed (classify (invoke w attempt body ab)) = true) ->
   sleeps (traceOf (simulationLoop w body simulationAttempts s))
     = [1000; 2000]%Z /\
   fold_right Z.add 0%Z
     (sleeps (traceOf (simulationLoop w body simulationAttempts s)))
     = 3000%Z) /\
  ((forall attempt ab, attempt < MAX_RETRY_ATTEMPTS ->
      classify (invoke w attempt body ab) = Empty) ->
   sleeps (traceOf (simulationLoop w body simulationAttempts s)) = []).
Proof.
  split; [apply simulationLoop_sleeps|].
  split; [apply simulationLoop_backoffOk|].
  split.
  - intros Hfail.
    assert (Hsl : sleeps (traceOf (simulationLoop w body simulationAttempts
                                     s))
                  = [1000; 2000]%Z).
    { unfold simulationAttempts, MAX_RETRY_ATTEMPTS. cbn [seq].
      assert (Hf : forall attempt s', attempt < 3 ->
                exists err, classify (invoke w attempt body
                              (signalAborted (tick w attempt s')))
                            = Failed err).
      { intros attempt s' Hlt.
        specialize (Hfail attempt (signalAborted (tick w attempt s')) Hlt).
        destruct (classify _) as [err| |d]; try discriminate.
        now exists err. }
      rewrite (simulationLoop_cons w body 0). cbv zeta.
      destruct (Hf 0 s) as [e0 ->]; [lia|].
      rewrite (simulationLoop_cons w body 1). cbv zeta.
      destruct (Hf 1 (tick w 0 s)) as [e1 ->]; [lia|].
      rewrite (simulationLoop_cons w body 2). cbv zeta.
      destruct (Hf 2 (tick w 1 (tick w 0 s))) as [e2 ->]; [lia|].
      reflexivity. }
    rewrite Hsl. split; reflexivity.
  - intros Hempty. rewrite simulationLoop_sleeps.
    pose proof (simulationLoop_range w body MAX_RETRY_ATTEMPTS 0 s)
      as Hrange.
    fold simulationAttempts in Hrange.
    induction (invocations
                 (traceOf (simulationLoop w body simulationAttempts s)))
      as [|[attempt ab] invs IH]; [reflexivity|].
    cbn [filter]. unfold delayed at 1. cbn [fst snd].
    rewrite (Hempty attempt ab).
    + cbn [isFailed andb]. apply IH.
      intros j b Hin. apply (Hrange j b). now right.
    + specialize (Hrange attempt ab (or_introl eq_refl)). lia.
Qed.

Lemma backoff_after_failed_attempts_witness :
  (forall attempt ab, attempt < MAX_RETRY_ATTEMPTS ->
     isFailed (classify (invoke Sample.allFail attempt Sample.body ab))
       = true) /\
  sleeps (traceOf (simulationLoop Sample.allFail Sample.body
                     simulationAttempts Sample.running)) = [1000; 2000]%Z /\
  fold_right Z.add 0%Z
    (sleeps (traceOf (simulationLoop Sample.allFail Sample.body
                        simulationAttempts Sample.running))) = 3000%Z.
Proof.
  assert (H : forall attempt ab, attempt < MAX_RETRY_ATTEMPTS ->
     isFailed (classify (invoke Sample.allFail attempt Sample.body ab))
       = true).
  { intros attempt ab _. reflexivity. }
  split.
  - exact H.
  - exact (proj1 (proj2 (proj2 (backoff_after_failed_attempts Sample.allFail
                                  Sample.body Sample.running))) H).
Defined.

(** ** C4: the cancellation token and the retries *)

(** C4, as stated, fails: with the deadline passed during the first
    call, the second and the third attempt are still begun, each with an
    aborted signal, and both delays are still waited. *)
Lemma retries_begin_after_token_fired :
  invocations
    (traceOf (simulationLoop Sample.timedOut Sample.body simulationAttempts
                Sample.running))
    = [(0, false); (1, true); (2, true)] /\
  sleeps
    (traceOf (simulationLoop Sample.timedOut Sample.body simulationAttempts
                Sample.running))
    = [1000; 2000]%Z.
Proof. split; reflexivity. Qed.

(** Every run that passes the guard sets the 30 s timer before
    anything else of the pipeline happens. *)
Lemma handleCapture_arms_deadline cl w rest smile s :
  cl_isProcessing cl = false ->
  exists evs,
    traceOf (handleCapture cl w rest smile s)
      = TrackPhotosCaptured (isSome (faceLandmarkerRef s)) (cl_retryCount cl)
        :: SetTimeout 30000 :: evs.
Proof.
  intros Hidle. rewrite (handleCapture_run _ _ _ _ _ Hidle).
  destruct (pipeline w rest smile (begun rest smile s))
    as [[[error | u] s1] evs]; eexists; reflexivity.
Qed.

(** ** C2: all attempts exhausted *)

(** When no call can return a usable image, the loop returns none. *)
Lemma simulationLoop_unusable w body s :
  (forall attempt ab, attempt < MAX_RETRY_ATTEMPTS ->
     usableResponse (invoke w attempt body ab) = false) ->
  forall simulationResult,
    outcome (simulationLoop w body simulationAttempts s)
      = inr simulationResult ->
    usableImage simulationResult = None.
Proof.
  intros Hbad [d|] Hout; [|reflexivity].
  destruct (simulationLoop_result w body simulationAttempts s d Hout)
    as (j & ab & Hin & Hcls).
  apply (simulationLoop_range w body MAX_RETRY_ATTEMPTS 0 s) in Hin.
  specialize (Hbad j ab ltac:(lia)). unfold usableResponse in Hbad.
  rewrite Hcls in Hbad. now destruct (usableImage (Some d)).
Qed.

(** C2. In a run that reaches the simulation and in which no attempt
    yields a usable simulated image, nothing is raised: [handleCapture]
    returns, the simulation data is the marker with warnings exactly
    [['simulation_unavailable']], the ideal image is the optimized
    smiling image, the smiling image is the one submitted, and the run
    completes on the contact step with the processing flag cleared. *)
Theorem simulation_exhausted_degrades
    (cl : Closure) (w : World) (rest smile : string) (s : Store)
    (p : Prepared) :
  cl_isProcessing cl = false ->
  outcome (prepare w rest smile (begun rest smile s)) = inr p ->
  (forall attempt ab, attempt < MAX_RETRY_ATTEMPTS ->
     usableResponse (invoke w attempt (simulationRequest p) ab) = false) ->
  outcome (handleCapture cl w rest smile s) = inr tt /\
  simulationData (react (storeOf (handleCapture cl w rest smile s)))
    = Some (mkSimulationData None None (Some ["simulation_unavailable"])) /\
  idealImage (react (storeOf (handleCapture cl w rest smile s)))
    = optimizedSmile p /\
  smileImage (react (storeOf (handleCapture cl w rest smile s))) = smile /\
  step (react (storeOf (handleCapture cl w rest smile s))) = contact /\
  analysis (react (storeOf (handleCapture cl w rest smile s)))
    = analysisText p /\
  metrics (react (storeOf (handleCapture cl w rest smile s)))
    = Some (calculatedMetrics p) /\
  isProcessing (react (storeOf (handleCapture cl w rest smile s))) = false.
Proof.
  intros Hidle Hprep Hbad.
  destruct (handleCapture_completes cl w rest smile s p Hidle Hprep)
    as (simulationResult & Hrun & Hout & Hstore & _).
  pose proof (simulationLoop_unusable w (simulationRequest p)
                (begun rest smile s) Hbad simulationResult Hrun) as Hnone.
  rewrite Hstore. unfold completed.
  destruct simulationResult; rewrite ?Hnone; cbn; now repeat split.
Qed.

Lemma simulation_exhausted_degrades_witness :
  cl_isProcessing (currentClosure (react Sample.idle)) = false /\
  outcome (prepare Sample.allFail "rest" "smile"
             (begun "rest" "smile" Sample.idle))
    = inr (mkPrepared "jpeg:smile" None fallbackMetricsNoLandmarker
             (JObj [("faceShape", JStr "oval")]) (JArr []) "Analisis") /\
  (forall attempt ab, attempt < MAX_RETRY_ATTEMPTS ->
     usableResponse
       (invoke Sample.allFail attempt
          (simulationRequest
             (mkPrepared "jpeg:smile" None fallbackMetricsNoLandmarker
                (JObj [("faceShape", JStr "oval")]) (JArr []) "Analisis"))
          ab) = false) /\
  simulationData
    (react (storeOf (handleCapture (currentClosure (react Sample.idle))
                       Sample.allFail "rest" "smile" Sample.idle)))
    = Some (mkSimulationData None None (Some ["simulation_unavailable"])) /\
  idealImage
    (react (storeOf (handleCapture (currentClosure (react Sample.idle))
                       Sample.allFail "rest" "smile" Sample.idle)))
    = "jpeg:smile".
Proof.
  assert (H1 : cl_isProcessing (currentClosure (react Sample.idle)) = false)
    by reflexivity.
  assert (H2 : outcome (prepare Sample.allFail "rest" "smile"
                          (begun "rest" "smile" Sample.idle))
    = inr (mkPrepared "jpeg:smile" None fallbackMetricsNoLandmarker
             (JObj [("faceShape", JStr "oval")]) (JArr []) "Analisis"))
    by reflexivity.
  assert (H3 : forall attempt ab, attempt < MAX_RETRY_ATTEMPTS ->
     usableResponse
       (invoke Sample.allFail attempt
          (simulationRequest
             (mkPrepared "jpeg:smile" None fallbackMetricsNoLandmarker
                (JObj [("faceShape", JStr "oval")]) (JArr []) "Analisis"))
          ab) = false)
    by (intros attempt ab _; reflexivity).
  pose proof (simulation_exhausted_degrades _ _ _ _ _ _ H1 H2 H3)
    as (_ & Hdata & Hideal & _).
  exact (conj H1 (conj H2 (conj H3 (conj Hdata Hideal)))).
Defined.

(** ** C9: a successful simulation *)

(** C9. When the retry loop returns data with a non-empty
    [simulatedImage], the smiling image of the state is overwritten with
    that simulated image, so it is no longer the photograph that was
    submitted; the ideal image is the [idealImage] of the data when that
    is a non-empty string and the simulated image itself otherwise, in
    particular when the data has no [idealImage]. *)
Theorem simulation_success_overwrites_smile
    (cl : Closure) (w : World) (rest smile : string) (s : Store)
    (p : Prepared) (d : Payload) (simulated : string) :
  cl_isProcessing cl = false ->
  outcome (prepare w rest smile (begun rest smile s)) = inr p ->
  outcome (simulationLoop w (simulationRequest p) simulationAttempts
             (begun rest smile s)) = inr (Some d) ->
  usableImage (Some d) = Some simulated ->
  simulatedImage d = Some simulated /\
  smileImage (react (storeOf (handleCapture cl w rest smile s)))
    = simulated /\
  idealImage (react (storeOf (handleCapture cl w rest smile s)))
    = orElse (p_idealImage d) simulated /\
  (p_idealImage d = None ->
   idealImage (react (storeOf (handleCapture cl w rest smile s)))
     = simulated) /\
  simulationData (react (storeOf (handleCapture cl w rest smile s)))
    = Some (mkSimulationData (p_facialAnalysis d) (p_qualityScore d)
              (p_warnings d)) /\
  step (react (storeOf (handleCapture cl w rest smile s))) = contact.
Proof.
  intros Hidle Hprep Hloop Husable.
  destruct (handleCapture_completes cl w rest smile s p Hidle Hprep)
    as (simulationResult & Hrun & _ & Hstore & _).
  rewrite Hloop in Hrun. injection Hrun as <-.
  rewrite Hstore. unfold completed. rewrite Husable. cbn.
  split.
  - unfold usableImage in Husable.
    destruct (simulatedImage d) as [img|]; [|discriminate].
    destruct (String.eqb img ""); [discriminate|]. exact Husable.
  - repeat split. intros Hnone. now rewrite Hnone.
Qed.

Lemma simulation_success_overwrites_smile_witness :
  cl_isProcessing (currentClosure (react Sample.idle)) = false /\
  outcome (prepare Sample.thirdTime "rest" "smile"
             (begun "rest" "smile" Sample.idle))
    = inr (mkPrepared "jpeg:smile" None fallbackMetricsNoLandmarker
             (JObj [("faceShape", JStr "oval")]) (JArr []) "Analisis") /\
  outcome (simulationLoop Sample.thirdTime
             (simulationRequest
                (mkPrepared "jpeg:smile" None fallbackMetricsNoLandmarker
                   (JObj [("faceShape", JStr "oval")]) (JArr []) "Analisis"))
             simulationAttempts (begun "rest" "smile" Sample.idle))
    = inr (Some Sample.simulated) /\
  usableImage (Some Sample.simulated) = Some "jpeg:simulated" /\
  smileImage
    (react (storeOf (handleCapture (currentClosure (react Sample.idle))
                       Sample.thirdTime "rest" "smile" Sample.idle)))
    = "jpeg:simulated" /\
  idealImage
    (react (storeOf (handleCapture (currentClosure (react Sample.idle))
                       Sample.thirdTime "rest" "smile" Sample.idle)))
    = "jpeg:simulated".
Proof.
  assert (H1 : cl_isProcessing (currentClosure (react Sample.idle)) = false)
    by reflexivity.
  assert (H2 : outcome (prepare Sample.thirdTime "rest" "smile"
                          (begun "rest" "smile" Sample.idle))
    = inr (mkPrepared "jpeg:smile" None fallbackMetricsNoLandmarker
             (JObj [("faceShape", JStr "oval")]) (JArr []) "Analisis"))
    by reflexivity.
  assert (H3 : outcome (simulationLoop Sample.thirdTime
             (simulationRequest
                (mkPrepared "jpeg:smile" None fallbackMetricsNoLandmarker
                   (JObj [("faceShape", JStr "oval")]) (JArr []) "Analisis"))
             simulationAttempts (begun "rest" "smile" Sample.idle))
    = inr (Some Sample.simulated)) by reflexivity.
  assert (H4 : usableImage (Some Sample.simulated) = Some "jpeg:simulated")
    by reflexivity.
  pose proof (simulation_success_overwrites_smile _ _ _ _ _ _ _ _
                H1 H2 H3 H4) as (_ & Hsmile & _ & Hideal & _).
  exact (conj H1 (conj H2 (conj H3 (conj H4
           (conj Hsmile (Hideal eq_refl)))))).
Defined.

(** ** C6: landmarks unavailable *)

Lemma bind_call_inr {A B} (v : A) (k : A -> M B) (s : Store) :
  bind (call (inr v)) k s = k v s.
Proof.
  unfold bind, call. now destruct (k v s) as [[r s2] ev2].
Qed.

Lemma bind_returns {A B} (m : M A) (k : A -> M B) s a s1 ev1 :
  m s = (inr a, s1, ev1) ->
  bind m k s = (outcome (k a s1), storeOf (k a s1), ev1 ++ traceOf (k a s1)).
Proof.
  intros Hm. unfold bind. rewrite Hm. now destruct (k a s1) as [[r s2] ev2].
Qed.

Lemma requests_app evs1 evs2 :
  requests (evs1 ++ evs2) = requests evs1 ++ requests evs2.
Proof. unfold requests. now rewrite flat_map_app. Qed.

(** Every remote call of the retry loop carries the same body. *)
Lemma simulationLoop_requests w body attempts : forall s sent,
  In sent (requests (traceOf (simulationLoop w body attempts s))) ->
  sent = body.
Proof.
  induction attempts as [|attempt rest IH]; intros s sent; [now cbn|].
  rewrite simulationLoop_cons. cbv zeta.
  destruct (classify _) as [err| |d].
  - specialize (IH (tick w attempt s) sent).
    destruct (simulationLoop w body rest (tick w attempt s)) as [[r s2] evs].
    cbn [traceOf snd] in *.
    change (Invoke attempt body ?b :: ?l) with ([Invoke attempt body b] ++ l).
    rewrite !requests_app. unfold failureEvents.
    destruct (attempt <? MAX_RETRY_ATTEMPTS - 1); cbn;
      intros [<- | Hin]; auto.
  - specialize (IH (tick w attempt s) sent).
    destruct (simulationLoop w body rest (tick w attempt s)) as [[r s2] evs].
    cbn in *. intros [<- | Hin]; auto.
  - cbn. intros [<- | []]. reflexivity.
Qed.

Lemma validateImageQuality_run image s :
  exists valid evs,
    validateImageQuality image s = (inr valid, s, evs) /\ requests evs = [].
Proof.
  unfold validateImageQuality.
  destruct ((img_width image <? 640) || (img_height image <? 480)).
  - now eexists _, _.
  - destruct (Qlt_le_dec _ _); [now eexists _, _|].
    destruct (Qlt_le_dec _ _); now eexists _, _.
Qed.

Lemma validateBoth_run smileImg restImg s :
  exists evs,
    validateBoth smileImg restImg s = (inr tt, s, evs) /\ requests evs = [].
Proof.
  unfold validateBoth.
  destruct (validateImageQuality_run smileImg s) as (v1 & ev1 & H1 & R1).
  destruct (validateImageQuality_run restImg s) as (v2 & ev2 & H2 & R2).
  rewrite (bind_returns _ _ _ _ _ _ H1), (bind_returns _ _ _ _ _ _ H2).
  destruct (negb v1 || negb v2); cbn; eexists; (split; [reflexivity|]);
    rewrite !requests_app, R1, R2; reflexivity.
Qed.

(** Landmark detection never throws past its [catch] block. *)
Lemma detectLandmarks_run lib smileImg restImg s :
  exists lm calculated evs,
    detectLandmarks lib smileImg restImg s = (inr (lm, calculated), s, evs) /\
    requests evs = [].
Proof.
  unfold detectLandmarks, onLandmarkError, bind, get, emit, ret. cbn.
  destruct (faceLandmarkerRef s) as [landmarker|]; [|now eexists _, _, _].
  destruct (detect landmarker smileImg) as [e|sr]; [now eexists _, _, _|].
  destruct (detect landmarker restImg) as [e|rr]; [now eexists _, _, _|].
  destruct (firstFace sr) as [sl|]; [|now eexists _, _, _].
  destruct (firstFace rr) as [rl|]; [|now eexists _, _, _].
  destruct (computeMetrics lib _) as [e|m]; now eexists _, _, _.
Qed.

(** The two fallback literals of the source are the same record. *)
Lemma fallback_literals_agree :
  fallbackMetricsOnError = fallbackMetricsNoLandmarker.
Proof. reflexivity. Qed.

Lemma detectLandmarks_unavailable lib smileImg restImg s :
  LandmarksUnavailable (faceLandmarkerRef s) lib smileImg restImg ->
  exists lm evs,
    detectLandmarks lib smileImg restImg s
      = (inr (lm, fallbackMetricsOnError), s, evs) /\
    requests evs = [].
Proof.
  intros Hun.
  unfold detectLandmarks, onLandmarkError, bind, get, emit, ret. cbn.
  destruct Hun as [Href | lmk e Href Hs | lmk e Href Hr
                  | lmk sr Href Hs Hface | lmk rr Href Hr Hface
                  | lmk sr rr sl rl e Href Hs Hr Hfs Hfr Hcm];
    rewrite Href.
  - now eexists _, _.
  - rewrite Hs. now eexists _, _.
  - rewrite Hr. destruct (detect lmk smileImg); now eexists _, _.
  - rewrite Hs, Hface. destruct (detect lmk restImg); now eexists _, _.
  - rewrite Hr, Hface. destruct (detect lmk smileImg) as [e|sr];
      [now eexists _, _|].
    destruct (firstFace sr); now eexists _, _.
  - rewrite Hs, Hr, Hfs, Hfr, Hcm. now eexists _, _.
Qed.

(** The analysis stage builds on the metrics it is given, or throws. *)
Lemma analyse_run lib optimized lm calculated s :
  (exists e, analyse lib optimized lm calculated s = (inl e, s, [])) \/
  (exists fa recs text,
     analyzeFaceCharacteristics lib calculated = inr fa /\
     generateSmileRecommendations lib fa calculated = inr recs /\
     generateAnalysisText lib fa calculated recs = inr text /\
     analyse lib optimized lm calculated s
       = (inr (mkPrepared optimized lm calculated fa recs text), s, [])).
Proof.
  unfold analyse, bind, call, ret.
  destruct (analyzeFaceCharacteristics lib calculated) as [e|fa] eqn:Hfa;
    [left; now exists e|].
  destruct (generateSmileRecommendations lib fa calculated) as [e|recs]
    eqn:Hrecs; [left; now exists e|].
  destruct (generateAnalysisText lib fa calculated recs) as [e|text]
    eqn:Htext; [left; now exists e|].
  right. exists fa, recs, text. now rewrite Hrecs, Htext.
Qed.

Lemma prepare_run w rest smile s lib optimizedRest optimizedSmile
    smileImg restImg :
  optimizeImage w rest = inr optimizedRest ->
  optimizeImage w smile = inr optimizedSmile ->
  importMetrics w = inr lib ->
  createImage w optimizedSmile = inr smileImg ->
  createImage w optimizedRest = inr restImg ->
  prepare w rest smile s =
  (validateBoth smileImg restImg ;;
   '(lm, calculated) <- detectLandmarks lib smileImg restImg ;;
   analyse lib optimizedSmile lm calculated) s.
Proof.
  intros Hrest Hsmile Hlib Hsi Hri.
  unfold prepare, optimizeBoth, createImages.
  rewrite Hrest, Hsmile. cbn [promiseAll2]. rewrite bind_call_inr.
  rewrite Hlib, bind_call_inr, Hsi, Hri. cbn [promiseAll2].
  now rewrite bind_call_inr.
Qed.

(** C6. When landmarks are unavailable, because the landmarker was
    never initialized or because detection or metric computation throws,
    the detection stage does not throw and yields the literal fallback
    record; every remote call of the run carries that record as its
    metrics; the run is not aborted for it: if the analysis functions
    accept the record, the run ends on the contact step with the record
    as the metrics of the state.  The record is the literal of the
    source (smileArc "consonante", gingival 1 mm "media", midline 0 mm
    "centrado", buccalRatio 0.8, thirds 0.33 / 0.34 / 0.33, balanced),
    and the literals of the two paths are one and the same record, with
    the same fields. *)
Theorem landmarks_unavailable_uses_fallback
    (cl : Closure) (w : World) (rest smile : string) (s : Store)
    (lib : MetricsLib) (optimizedRest optimizedSmile : string)
    (smileImg restImg : Image) :
  cl_isProcessing cl = false ->
  optimizeImage w rest = inr optimizedRest ->
  optimizeImage w smile = inr optimizedSmile ->
  importMetrics w = inr lib ->
  createImage w optimizedSmile = inr smileImg ->
  createImage w optimizedRest = inr restImg ->
  LandmarksUnavailable (faceLandmarkerRef s) lib smileImg restImg ->
  (exists lm,
     outcome (detectLandmarks lib smileImg restImg (begun rest smile s))
       = inr (lm, fallbackMetricsOnError)) /\
  (forall sent,
     In sent (requests (traceOf (handleCapture cl w rest smile s))) ->
     req_metrics sent = fallbackMetricsOnError) /\
  (step (react (storeOf (handleCapture cl w rest smile s))) = contact ->
   metrics (react (storeOf (handleCapture cl w rest smile s)))
     = Some fallbackMetricsOnError) /\
  (forall fa recs text,
     analyzeFaceCharacteristics lib fallbackMetricsOnError = inr fa ->
     generateSmileRecommendations lib fa fallbackMetricsOnError = inr recs ->
     generateAnalysisText lib fa fallbackMetricsOnError recs = inr text ->
     step (react (storeOf (handleCapture cl w rest smile s))) = contact) /\
  fallbackMetricsOnError = fallbackMetricsNoLandmarker /\
  fieldNames fallbackMetricsOnError = fieldNames fallbackMetricsNoLandmarker /\
  getField fallbackMetricsOnError "smileArc" = JStr "consonante" /\
  getField fallbackMetricsOnError "gingival"
    = JObj [("mm", JNum 1); ("class", JStr "media")] /\
  getField fallbackMetricsOnError "midline"
    = JObj [("mm", JNum 0); ("side", JStr "centrado")] /\
  getField fallbackMetricsOnError "buccalRatio" = JNum 0.8 /\
  getField fallbackMetricsOnError "facialProportions"
    = JObj [("upperThird", JNum 0.33); ("middleThird", JNum 0.34);
            ("lowerThird", JNum 0.33); ("isBalanced", JBool true)].
Proof.
  intros Hidle Hrest Hsmile Hlib Hsi Hri Hun.
  set (b := begun rest smile s).
  assert (Hun' : LandmarksUnavailable (faceLandmarkerRef b) lib
                   smileImg restImg) by exact Hun.
  destruct (detectLandmarks_unavailable lib smileImg restImg b Hun')
    as (lm & ev2 & Hdet & Hreq2).
  destruct (validateBoth_run smileImg restImg b) as (ev1 & Hval & Hreq1).
  pose proof (prepare_run w rest smile b lib _ _ _ _
                Hrest Hsmile Hlib Hsi Hri) as Hprep.
  rewrite (bind_returns _ _ _ _ _ _ Hval) in Hprep.
  rewrite (bind_returns _ _ _ _ _ _ Hdet) in Hprep.
  cbn [outcome storeOf traceOf fst snd] in Hprep.
  split; [exists lm; fold b; now rewrite Hdet|].
  destruct (analyse_run lib optimizedSmile lm fallbackMetricsOnError b)
    as [[e Han] | (fa & recs & text & Hfa & Hrecs & Htext & Han)];
    rewrite Han in Hprep; cbn [fst snd] in Hprep.
  - (* a later stage throws: the run goes back to the capture step *)
    destruct (handleCapture_fails cl w rest smile s e Hidle)
      as (_ & Hstore & Htrace); [fold b; now rewrite Hprep|].
    fold b in Htrace. rewrite Hprep in Htrace. cbn [traceOf snd] in Htrace.
    rewrite Hstore, Htrace.
    split; [|split; [|split]].
    + intros sent Hin. rewrite !requests_app, Hreq1, Hreq2 in Hin.
      unfold startEvents, catchEvents, failureNotice in Hin.
      destruct (cl_retryCount cl <? MAX_RETRY_ATTEMPTS - 1);
        now cbn in Hin.
    + cbn. discriminate.
    + intros fa recs text Hfa. unfold analyse, bind, call in Han.
      rewrite Hfa in Han. intros Hrecs. rewrite Hrecs in Han.
      intros Htext. rewrite Htext in Han. discriminate.
    + now repeat split.
  - (* the run reaches the retry loop *)
    set (p := mkPrepared optimizedSmile lm fallbackMetricsOnError fa recs
                text) in *.
    destruct (handleCapture_completes cl w rest smile s p Hidle)
      as (result & Hrun & _ & Hstore & Htrace); [fold b; now rewrite Hprep|].
    fold b in Htrace, Hrun. rewrite Hprep in Htrace.
    cbn [traceOf snd] in Htrace.
    split; [|split; [|split]].
    + intros sent Hin. rewrite Htrace in Hin.
      rewrite !requests_app, Hreq1, Hreq2 in Hin.
      change (ClearTimeout :: ?l) with ([ClearTimeout] ++ l) in Hin.
      rewrite requests_app in Hin.
      assert (Hres : requests (resultEvents result) = []).
      { unfold resultEvents. now destruct (usableImage result). }
      rewrite Hres in Hin. cbn [startEvents requests flat_map app] in Hin.
      rewrite app_nil_r in Hin.
      apply simulationLoop_requests in Hin. now subst sent.
    + intros _. rewrite Hstore. unfold completed.
      destruct result as [d|]; [destruct (usableImage (Some d))|]; reflexivity.
    + intros _ _ _ _ _ _. rewrite Hstore. unfold completed.
      destruct result as [d|]; [destruct (usableImage (Some d))|]; reflexivity.
    + now repeat split.
Qed.

Lemma landmarks_unavailable_uses_fallback_witness :
  cl_isProcessing (currentClosure (react Sample.idle)) = false /\
  optimizeImage Sample.allFail "rest" = inr "jpeg:rest" /\
  optimizeImage Sample.allFail "smile" = inr "jpeg:smile" /\
  importMetrics Sample.allFail = inr Sample.lib /\
  createImage Sample.allFail "jpeg:smile"
    = inr (mkImage "jpeg:smile" 800 600) /\
  createImage Sample.allFail "jpeg:rest"
    = inr (mkImage "jpeg:rest" 800 600) /\
  LandmarksUnavailable (faceLandmarkerRef Sample.idle) Sample.lib
    (mkImage "jpeg:smile" 800 600) (mkImage "jpeg:rest" 800 600) /\
  metrics
    (react (storeOf (handleCapture (currentClosure (react Sample.idle))
                       Sample.allFail "rest" "smile" Sample.idle)))
    = Some fallbackMetricsOnError.
Proof.
  assert (H1 : cl_isProcessing (currentClosure (react Sample.idle)) = false)
    by reflexivity.
  assert (H2 : optimizeImage Sample.allFail "rest" = inr "jpeg:rest")
    by reflexivity.
  assert (H3 : optimizeImage Sample.allFail "smile" = inr "jpeg:smile")
    by reflexivity.
  assert (H4 : importMetrics Sample.allFail = inr Sample.lib) by reflexivity.
  assert (H5 : createImage Sample.allFail "jpeg:smile"
               = inr (mkImage "jpeg:smile" 800 600)) by reflexivity.
  assert (H6 : createImage Sample.allFail "jpeg:rest"
               = inr (mkImage "jpeg:rest" 800 600)) by reflexivity.
  assert (H7 : LandmarksUnavailable (faceLandmarkerRef Sample.idle)
                 Sample.lib (mkImage "jpeg:smile" 800 600)
                 (mkImage "jpeg:rest" 800 600))
    by (apply NeverInitialized; reflexivity).
  pose proof (landmarks_unavailable_uses_fallback _ _ _ _ _ _ _ _ _ _
                H1 H2 H3 H4 H5 H6 H7) as (_ & _ & Hmetrics & _).
  exact (conj H1 (conj H2 (conj H3 (conj H4 (conj H5 (conj H6 (conj H7
           (Hmetrics eq_refl)))))))).
Defined.

(** The other path: a landmarker that finds no face in the smiling
    photograph. *)
Example no_face_uses_fallback :
  outcome (detectLandmarks Sample.lib (mkImage "jpeg:smile" 800 600)
             (mkImage "jpeg:rest" 800 600)
             (mkStore initialState
                (Some (mkFaceLandmarker
                         (fun _ => inr (mkFaceLandmarkerResult (Some [])))))
                None))
    = inr (None, fallbackMetricsOnError).
Proof. reflexivity. Qed.

(** ** What a computation may emit *)

Lemma emitsOnly_ret P {A} (a : A) : emitsOnly P (ret a).
Proof. intros s. constructor. Qed.

Lemma emitsOnly_call P {A} (r : Thrown + A) : emitsOnly P (call r).
Proof. intros s. constructor. Qed.

Lemma emitsOnly_get P : emitsOnly P get.
Proof. intros s. constructor. Qed.

Lemma emitsOnly_emit (P : Event -> Prop) e : P e -> emitsOnly P (emit e).
Proof. intros He s. now repeat constructor. Qed.

Lemma emitsOnly_bind P {A B} (m : M A) (k : A -> M B) :
  emitsOnly P m -> (forall a, emitsOnly P (k a)) -> emitsOnly P (bind m k).
Proof.
  intros Hm Hk s. unfold bind, traceOf. specialize (Hm s).
  destruct (m s) as [[[e | a] s1] ev1]; cbn in *; [exact Hm|].
  specialize (Hk a s1). destruct (k a s1) as [[r s2] ev2]; cbn in *.
  apply Forall_app. now split.
Qed.

Ltac emits :=
  repeat first
    [ apply emitsOnly_ret
    | apply emitsOnly_call
    | apply emitsOnly_get
    | apply emitsOnly_emit; exact I
    | apply emitsOnly_bind; [|intros]
    | match goal with
      | |- emitsOnly _ (match ?x with _ => _ end) => destruct x
      | |- emitsOnly _ (if ?x then _ else _) => destruct x
      end ].

Lemma prepare_quiet w rest smile : emitsOnly quiet (prepare w rest smile).
Proof.
  unfold prepare, optimizeBoth, createImages, validateBoth, analyse,
    detectLandmarks, onLandmarkError, validateImageQuality.
  emits.
Qed.

Lemma quiet_no_buttons evs : Forall quiet evs -> retryButtons evs = [].
Proof.
  induction 1 as [|e evs He _ IH]; [reflexivity|].
  unfold retryButtons in *. destruct e; cbn in *; try exact IH.
  contradiction.
Qed.

Lemma retryButtons_app evs1 evs2 :
  retryButtons (evs1 ++ evs2) = retryButtons evs1 ++ retryButtons evs2.
Proof. unfold retryButtons. now rewrite flat_map_app. Qed.

(** ** The user's events *)

Lemma after_SubmitPhotos w rest smile s :
  after (SubmitPhotos w rest smile) s =
  (storeOf (handleCapture (currentClosure (react s)) w rest smile s),
   traceOf (handleCapture (currentClosure (react s)) w rest smile s)).
Proof.
  unfold after, dispatch, bind, get.
  now destruct (handleCapture _ w rest smile s) as [[r s2] evs].
Qed.

Lemma after_ClickReintentar w cl rest smile s :
  after (ClickReintentar w (Reintentar cl rest smile)) s =
  (storeOf (handleCapture cl w rest smile (bumped s)),
   traceOf (handleCapture cl w rest smile (bumped s))).
Proof.
  unfold after, dispatch, bind, setRetryCount, setReact, modify.
  fold (bumped s).
  now destruct (handleCapture cl w rest smile (bumped s)) as [[r s2] evs].
Qed.

(** [handleCapture] never writes the retry counter. *)
Lemma handleCapture_retryCount cl w rest smile s :
  retryCount (react (storeOf (handleCapture cl w rest smile s)))
    = retryCount (react s).
Proof.
  destruct (cl_isProcessing cl) eqn:Hidle.
  - unfold handleCapture. now rewrite Hidle.
  - destruct (outcome (prepare w rest smile (begun rest smile s)))
      as [error | p] eqn:Hprep.
    + destruct (handleCapture_fails cl w rest smile s error Hidle Hprep)
        as (_ & -> & _). reflexivity.
    + destruct (handleCapture_completes cl w rest smile s p Hidle Hprep)
        as (result & _ & _ & -> & _).
      unfold completed.
      destruct result as [d|]; [destruct (usableImage (Some d))|];
        reflexivity.
Qed.

(** What the [catch] block shows depends on the captured counter only. *)
Lemma failure_notice_by_captured_count cl w rest smile s error :
  cl_isProcessing cl = false ->
  outcome (prepare w rest smile (begun rest smile s)) = inl error ->
  step (react (storeOf (handleCapture cl w rest smile s))) = capture /\
  retryButtons (traceOf (handleCapture cl w rest smile s)) =
    if cl_retryCount cl <? MAX_RETRY_ATTEMPTS - 1
    then [Reintentar cl rest smile] else [].
Proof.
  intros Hidle Hprep.
  destruct (handleCapture_fails cl w rest smile s error Hidle Hprep)
    as (_ & -> & ->).
  split; [reflexivity|].
  rewrite !retryButtons_app.
  rewrite (quiet_no_buttons _ (prepare_quiet w rest smile _)).
  unfold catchEvents, failureNotice.
  now destruct (cl_retryCount cl <? MAX_RETRY_ATTEMPTS - 1).
Qed.

(** ** C8: the cap on run-level retries *)

(** In a browser where no photograph decodes, every press of the retry
    button ends with the same retry button on offer. *)
Lemma retry_press_offers_retry_again s :
  retryButtons
    (snd (after (ClickReintentar Sample.brokenPhotos Scenario.retry) s))
    = [Scenario.retry] /\
  step (react (fst (after (ClickReintentar Sample.brokenPhotos
                             Scenario.retry) s))) = capture.
Proof.
  unfold Scenario.retry. rewrite after_ClickReintentar. cbn [fst snd].
  destruct (failure_notice_by_captured_count (mkClosure false 0)
              Sample.brokenPhotos "rest" "smile" (bumped s)
              (ThrownOther "error event of the image element")
              eq_refl eq_refl) as [Hstep Hbuttons].
  now rewrite Hstep, Hbuttons.
Qed.

Lemma replay_retries n : forall s,
  Forall (fun evs => retryButtons evs = [Scenario.retry])
    (snd (replay (repeat (ClickReintentar Sample.brokenPhotos
                            Scenario.retry) n) s)).
Proof.
  induction n as [|n IH]; intros s; [constructor|].
  cbn [repeat replay].
  destruct (retry_press_offers_retry_again s) as [Hbuttons _].
  destruct (after _ s) as [s1 evs]. specialize (IH s1).
  destruct (replay _ s1) as [s2 traces]. cbn [snd] in *.
  now constructor.
Qed.

(** C8 on the code. A photo pair that cannot be decoded is submitted
    and the retry button is pressed after each failure.  The first, the
    second and the third failure each end with the retry button on
    offer (the terminal notice, which carries no button, is not shown),
    although the counter of the state has reached 2 and the controller
    is back on the capture step; and so does every later failure. *)
Theorem third_failure_still_offers_retry :
  map retryButtons (snd (replay (Scenario.failures 2) Sample.idle))
    = [[Scenario.retry]; [Scenario.retry]; [Scenario.retry]] /\
  retryCount (react (fst (replay (Scenario.failures 2) Sample.idle))) = 2 /\
  step (react (fst (replay (Scenario.failures 2) Sample.idle))) = capture /\
  forall n,
    Forall (fun evs => retryButtons evs = [Scenario.retry])
      (snd (replay (Scenario.failures n) Sample.idle)).
Proof.
  repeat split.
  intros n. unfold Scenario.failures. cbn [replay].
  pose proof (replay_retries n
    (fst (after (SubmitPhotos Sample.brokenPhotos "rest" "smile")
            Sample.idle))) as Hrest.
  destruct (after (SubmitPhotos Sample.brokenPhotos "rest" "smile")
              Sample.idle) as [s1 evs] eqn:Hfirst.
  cbn [fst] in Hrest.
  destruct (replay _ s1) as [s2 traces]. cbn [snd] in *.
  constructor; [|exact Hrest].
  apply (f_equal snd) in Hfirst. cbn [snd] in Hfirst. now subst evs.
Qed.

(** ** C10: the life of the retry counter *)

(** C10. The retry counter of the state is set to 0 by the reset of the
    results view and by nothing else: pressing a retry button adds 1,
    and every other event leaves it as it is, in particular every
    submission of photographs, whatever the photographs are and however
    the run ends.  So the budget is shared by all photo pairs and all
    causes of failure: once two retries have been pressed, a failing
    submission of any photo pair is answered with the terminal notice
    and no retry button. *)
Theorem retry_count_reset_only_by_reset (e : UserEvent) (s : Store) :
  retryCount (react (fst (after e s))) =
    match e with
    | ClickReset => 0
    | ClickReintentar _ _ => retryCount (react s) + 1
    | _ => retryCount (react s)
    end /\
  (forall w rest smile error,
     isProcessing (react s) = false ->
     2 <= retryCount (react s) ->
     outcome (prepare w rest smile (begun rest smile s)) = inl error ->
     retryButtons (snd (after (SubmitPhotos w rest smile) s)) = [] /\
     In (ToastError "No se pudo procesar la imagen después de varios intentos. Por favor, intente con una foto diferente." None)
       (snd (after (SubmitPhotos w rest smile) s))).
Proof.
  split.
  - destruct e as [|w rest smile|w [cl rest smile]|contact_data|].
    + reflexivity.
    + rewrite after_SubmitPhotos. apply handleCapture_retryCount.
    + rewrite after_ClickReintentar. cbn [fst].
      now rewrite handleCapture_retryCount.
    + reflexivity.
    + reflexivity.
  - intros w rest smile error Hidle Hcount Hprep.
    rewrite after_SubmitPhotos. cbn [snd].
    assert (Hcap : (cl_retryCount (currentClosure (react s))
                    <? MAX_RETRY_ATTEMPTS - 1) = false).
    { apply Nat.ltb_ge. unfold MAX_RETRY_ATTEMPTS. cbn. lia. }
    destruct (failure_notice_by_captured_count (currentClosure (react s))
                w rest smile s error Hidle Hprep) as [_ Hbuttons].
    rewrite Hcap in Hbuttons. split; [exact Hbuttons|].
    destruct (handleCapture_fails (currentClosure (react s)) w rest smile s
                error Hidle Hprep) as (_ & _ & ->).
    apply in_or_app. right. apply in_or_app. right.
    unfold catchEvents, failureNotice. rewrite Hcap. cbn. auto.
Qed.

Lemma retry_count_reset_only_by_reset_witness :
  isProcessing (react Scenario.worn) = false /\
  2 <= retryCount (react Scenario.worn) /\
  outcome (prepare Sample.brokenPhotos "other rest" "other smile"
             (begun "other rest" "other smile" Scenario.worn))
    = inl (ThrownOther "error event of the image element") /\
  retryButtons
    (snd (after (SubmitPhotos Sample.brokenPhotos "other rest" "other smile")
            Scenario.worn)) = [].
Proof.
  assert (H1 : isProcessing (react Scenario.worn) = false) by reflexivity.
  assert (H2 : 2 <= retryCount (react Scenario.worn))
    by (vm_compute; apply le_n).
  assert (H3 : outcome (prepare Sample.brokenPhotos "other rest"
                          "other smile"
                          (begun "other rest" "other smile" Scenario.worn))
               = inl (ThrownOther "error event of the image element"))
    by reflexivity.
  pose proof (proj2 (retry_count_reset_only_by_reset ClickReset
                       Scenario.worn)
                Sample.brokenPhotos "other rest" "other smile" _ H1 H2 H3)
    as [Hbuttons _].
  exact (conj H1 (conj H2 (conj H3 Hbuttons))).
Defined.

(** * Further properties of the component *)

(** ** The retry loop: which attempts are made *)

(** Case analysis on one iteration of the retry loop. *)
Ltac loop_step w body attempt rest s :=
  rewrite (simulationLoop_cons w body attempt rest s); cbv zeta;
  let Hcls := fresh "Hcls" in
  let Hrest := fresh "Hrest" in
  destruct (classify (invoke w attempt body
              (signalAborted (tick w attempt s)))) as [?err| |?d] eqn:Hcls;
  [ destruct (simulationLoop w body rest (tick w attempt s))
      as [[?r ?s2] ?evs] eqn:Hrest
  | destruct (simulationLoop w body rest (tick w attempt s))
      as [[?r ?s2] ?evs] eqn:Hrest
  | ];
  cbn [traceOf outcome storeOf fst snd];
  rewrite ?invocations_cons_invoke, ?invocations_failureEvents.

Lemma simulationLoop_prefix w body n : forall a s,
  exists k,
    k <= n /\ (0 < n -> 0 < k) /\
    map fst (invocations (traceOf (simulationLoop w body (seq a n) s)))
      = seq a k.
Proof.
  induction n as [|n IH]; intros a s.
  - exists 0. repeat split; [lia|].
    intros H; inversion H.
  - cbn [seq]. pose proof (IH (S a) (tick w a s)) as (k & Hk & _ & Hseq).
    loop_step w body a (seq (S a) n) s.
    + exists (S k). cbn [traceOf snd] in Hseq.
      cbn [map fst seq]. rewrite Hseq. repeat split; lia.
    + exists (S k). cbn [traceOf snd] in Hseq.
      cbn [map fst seq]. rewrite Hseq. repeat split; lia.
    + exists 1. repeat split; lia.
Qed.

Lemma quiet_no_invocations evs : Forall quiet evs -> invocations evs = [].
Proof.
  induction 1 as [|e evs He _ IH]; [reflexivity|].
  unfold invocations in *. destruct e; cbn in *; try exact IH.
  contradiction.
Qed.

(** The remote calls of a run are those of its retry loop. *)
Lemma handleCapture_invocations cl w rest smile s :
  cl_isProcessing cl = false ->
  invocations (traceOf (handleCapture cl w rest smile s)) =
  match outcome (prepare w rest smile (begun rest smile s)) with
  | inr p =>
      invocations
        (traceOf (simulationLoop w (simulationRequest p) simulationAttempts
                    (begun rest smile s)))
  | inl _ => []
  end.
Proof.
  intros Hidle.
  pose proof (quiet_no_invocations _
                (prepare_quiet w rest smile (begun rest smile s))) as Hq.
  destruct (outcome (prepare w rest smile (begun rest smile s)))
    as [error | p] eqn:Hprep.
  - destruct (handleCapture_fails cl w rest smile s error Hidle Hprep)
      as (_ & _ & ->).
    rewrite !invocations_app, Hq. unfold catchEvents, failureNotice.
    now destruct (cl_retryCount cl <? MAX_RETRY_ATTEMPTS - 1).
  - destruct (handleCapture_completes cl w rest smile s p Hidle Hprep)
      as (result & _ & _ & _ & ->).
    rewrite !invocations_app, Hq.
    change (ClearTimeout :: ?l) with ([ClearTimeout] ++ l).
    rewrite invocations_app. unfold resultEvents.
    destruct (usableImage result); cbn; now rewrite app_nil_r.
Qed.

(** X1. The attempts of the retry loop are numbered 0, 1, ... without a
    gap: at least one and at most three are begun, each once.  A whole
    call of [handleCapture], whatever its closure sees, begins at most
    three remote calls, numbered in the same way. *)
Theorem attempts_form_a_prefix
    (cl : Closure) (w : World) (body : Request) (rest smile : string)
    (s : Store) :
  (exists k,
     1 <= k <= MAX_RETRY_ATTEMPTS /\
     map fst (invocations
                (traceOf (simulationLoop w body simulationAttempts s)))
       = seq 0 k) /\
  (exists k,
     k <= MAX_RETRY_ATTEMPTS /\
     map fst (invocations (traceOf (handleCapture cl w rest smile s)))
       = seq 0 k).
Proof.
  split.
  - destruct (simulationLoop_prefix w body MAX_RETRY_ATTEMPTS 0 s)
      as (k & Hle & Hpos & Hseq).
    exists k. split; [|exact Hseq].
    unfold MAX_RETRY_ATTEMPTS in *. lia.
  - destruct (cl_isProcessing cl) eqn:Hidle.
    + exists 0. unfold handleCapture. rewrite Hidle. split; [lia|reflexivity].
    + rewrite (handleCapture_invocations _ _ _ _ _ Hidle).
      destruct (outcome (prepare w rest smile (begun rest smile s)))
        as [error | p].
      * exists 0. split; [lia|reflexivity].
      * destruct (simulationLoop_prefix w (simulationRequest p)
                    MAX_RETRY_ATTEMPTS 0 (begun rest smile s))
          as (k & Hle & _ & Hseq).
        exists k. now split.
Qed.

(** ** The retry loop: which attempt decides *)

Lemma simulationLoop_first_data w body n : forall a s k got,
  a <= k < a + n ->
  (forall j ab, a <= j < k ->
     isAccepted (classify (invoke w j body ab)) = false) ->
  (forall ab, classify (invoke w k body ab) = Accepted got) ->
  outcome (simulationLoop w body (seq a n) s) = inr (Some got) /\
  map fst (invocations (traceOf (simulationLoop w body (seq a n) s)))
    = seq a (S k - a).
Proof.
  induction n as [|n IH]; intros a s k got Hk Hbefore Hat; [lia|].
  cbn [seq].
  destruct (Nat.eq_dec k a) as [-> | Hne].
  - rewrite (simulationLoop_cons w body a (seq (S a) n) s). cbv zeta.
    rewrite Hat. replace (S a - a) with 1 by lia. now split.
  - assert (Hhead : forall ab,
              isAccepted (classify (invoke w a body ab)) = false)
      by (intros ab; apply Hbefore; lia).
    destruct (IH (S a) (tick w a s) k got) as [Hout Hseq];
      [lia | intros; apply Hbefore; lia | exact Hat |].
    replace (S k - a) with (S (S k - S a)) by lia.
    specialize (Hhead (signalAborted (tick w a s))).
    loop_step w body a (seq (S a) n) s;
      cbn [outcome traceOf fst snd] in Hout, Hseq.
    + cbn [map fst seq]. now rewrite Hseq.
    + cbn [map fst seq]. now rewrite Hseq.
    + discriminate.
Qed.

Lemma simulationLoop_no_data w body n : forall a s,
  (forall j ab, a <= j < a + n ->
     isAccepted (classify (invoke w j body ab)) = false) ->
  outcome (simulationLoop w body (seq a n) s) = inr None /\
  map fst (invocations (traceOf (simulationLoop w body (seq a n) s)))
    = seq a n.
Proof.
  induction n as [|n IH]; intros a s Hnone; [now split|].
  cbn [seq].
  destruct (IH (S a) (tick w a s)) as [Hout Hseq];
    [intros; apply Hnone; lia|].
  pose proof (Hnone a (signalAborted (tick w a s)) ltac:(lia)) as Hhead.
  loop_step w body a (seq (S a) n) s;
    cbn [outcome traceOf fst snd] in Hout, Hseq.
  - cbn [map fst]. now rewrite Hseq.
  - cbn [map fst]. now rewrite Hseq.
  - discriminate.
Qed.

(** X2. The first attempt whose call returns data decides the loop: if
    the calls of the attempts before attempt [k] return no data and the
    call of attempt [k] returns the data [got], the loop returns [got]
    after exactly [k + 1] attempts (so a success on the third attempt
    is not followed by a fourth).  If no call returns data, the loop
    returns nothing after exactly three attempts. *)
Theorem first_data_decides
    (w : World) (body : Request) (s : Store) (k : nat) (got : Payload) :
  (k < MAX_RETRY_ATTEMPTS ->
   (forall j ab, j < k ->
      isAccepted (classify (invoke w j body ab)) = false) ->
   (forall ab, classify (invoke w k body ab) = Accepted got) ->
   outcome (simulationLoop w body simulationAttempts s) = inr (Some got) /\
   map fst (invocations
              (traceOf (simulationLoop w body simulationAttempts s)))
     = seq 0 (S k)) /\
  ((forall j ab, j < MAX_RETRY_ATTEMPTS ->
      isAccepted (classify (invoke w j body ab)) = false) ->
   outcome (simulationLoop w body simulationAttempts s) = inr None /\
   map fst (invocations
              (traceOf (simulationLoop w body simulationAttempts s)))
     = [0; 1; 2]).
Proof.
  split.
  - intros Hk Hbefore Hat.
    destruct (simulationLoop_first_data w body MAX_RETRY_ATTEMPTS 0 s k got)
      as [Hout Hseq]; [lia | intros; apply Hbefore; lia | exact Hat |].
    split; [exact Hout|]. now rewrite Nat.sub_0_r in Hseq.
  - intros Hnone.
    apply (simulationLoop_no_data w body MAX_RETRY_ATTEMPTS 0 s).
    intros j ab Hj. apply Hnone. lia.
Qed.

Lemma first_data_decides_witness :
  2 < MAX_RETRY_ATTEMPTS /\
  (forall j ab, j < 2 ->
     isAccepted (classify (invoke Sample.thirdTime j Sample.body ab))
       = false) /\
  (forall ab,
     classify (invoke Sample.thirdTime 2 Sample.body ab)
       = Accepted Sample.simulated) /\
  outcome (simulationLoop Sample.thirdTime Sample.body simulationAttempts
             Sample.running) = inr (Some Sample.simulated) /\
  map fst (invocations
             (traceOf (simulationLoop Sample.thirdTime Sample.body
                         simulationAttempts Sample.running)))
    = [0; 1; 2].
Proof.
  assert (H1 : 2 < MAX_RETRY_ATTEMPTS) by (unfold MAX_RETRY_ATTEMPTS; lia).
  assert (H2 : forall j ab, j < 2 ->
     isAccepted (classify (invoke Sample.thirdTime j Sample.body ab))
       = false).
  { intros j ab Hj.
    destruct j as [|[|j]]; [reflexivity | reflexivity | lia]. }
  assert (H3 : forall ab,
     classify (invoke Sample.thirdTime 2 Sample.body ab)
       = Accepted Sample.simulated) by (intros ab; reflexivity).
  split; [exact H1 | split; [exact H2 | split; [exact H3 |]]].
  exact (proj1 (first_data_decides Sample.thirdTime Sample.body
                  Sample.running 2 Sample.simulated) H1 H2 H3).
Defined.

(** ** The retry loop: what is logged *)

Lemma failureLogs_app evs1 evs2 :
  failureLogs (evs1 ++ evs2) = failureLogs evs1 ++ failureLogs evs2.
Proof. unfold failureLogs. now rewrite flat_map_app. Qed.

Lemma failureLogs_failureEvents attempt err :
  failureLogs (failureEvents attempt err) = [(attempt + 1, err)].
Proof.
  unfold failureEvents. now destruct (attempt <? MAX_RETRY_ATTEMPTS - 1).
Qed.

Lemma simulationLoop_failureLogs w body attempts : forall s,
  failureLogs (traceOf (simulationLoop w body attempts s)) =
  flat_map (failureOf w body)
    (invocations (traceOf (simulationLoop w body attempts s))).
Proof.
  induction attempts as [|attempt rest IH]; intros s; [reflexivity|].
  specialize (IH (tick w attempt s)).
  loop_step w body attempt rest s; cbn [traceOf snd] in IH;
    cbn [flat_map]; unfold failureOf at 1; cbn [fst snd]; rewrite Hcls.
  - change (failureLogs (Invoke attempt body ?b :: ?l))
      with (failureLogs l).
    now rewrite failureLogs_app, failureLogs_failureEvents, IH.
  - exact IH.
  - reflexivity.
Qed.

(** X3. The failure logs of the retry loop are exactly its failed
    attempts, in order, each with its number counted from 1 and the
    error that was thrown or returned.  An attempt whose call returns
    neither an error nor data leaves no log (and, not having failed, no
    delay): the loop goes on to the next attempt at once and
    silently. *)
Theorem failures_are_logged_once
    (w : World) (body : Request) (s : Store) :
  failureLogs (traceOf (simulationLoop w body simulationAttempts s)) =
    flat_map (failureOf w body)
      (invocations (traceOf (simulationLoop w body simulationAttempts s)))
  /\
  ((forall attempt ab, attempt < MAX_RETRY_ATTEMPTS ->
      classify (invoke w attempt body ab) = Empty) ->
   traceOf (simulationLoop w body simulationAttempts s) =
     [Invoke 0 body (signalAborted (tick w 0 s));
      Invoke 1 body (signalAborted (tick w 1 (tick w 0 s)));
      Invoke 2 body
        (signalAborted (tick w 2 (tick w 1 (tick w 0 s))))]).
Proof.
  split; [apply simulationLoop_failureLogs|].
  intros Hempty. unfold simulationAttempts, MAX_RETRY_ATTEMPTS in *.
  cbn [seq].
  rewrite (simulationLoop_cons w body 0). cbv zeta.
  rewrite (Hempty 0) by lia.
  rewrite (simulationLoop_cons w body 1). cbv zeta.
  rewrite (Hempty 1) by lia.
  rewrite (simulationLoop_cons w body 2). cbv zeta.
  rewrite (Hempty 2) by lia.
  reflexivity.
Qed.

Lemma failures_are_logged_once_witness :
  (forall attempt ab, attempt < MAX_RETRY_ATTEMPTS ->
     classify (invoke Sample.brokenPhotos attempt Sample.body ab) = Empty) /\
  traceOf (simulationLoop Sample.brokenPhotos Sample.body simulationAttempts
             Sample.running) =
    [Invoke 0 Sample.body false; Invoke 1 Sample.body false;
     Invoke 2 Sample.body false].
Proof.
  assert (H : forall attempt ab, attempt < MAX_RETRY_ATTEMPTS ->
     classify (invoke Sample.brokenPhotos attempt Sample.body ab) = Empty)
    by (intros attempt ab _; reflexivity).
  split; [exact H|].
  exact (proj2 (failures_are_logged_once Sample.brokenPhotos Sample.body
                  Sample.running) H).
Defined.

(** ** The retry loop: the signal handed to the calls *)

Lemma simulationLoop_flags w body n : forall a s c,
  abortControllerRef s = Some c ->
  forall i ab,
    In (i, ab) (invocations (traceOf (simulationLoop w body (seq a n) s))) ->
    ab = aborted c || existsb (deadlinePassed w) (seq a (S i - a)).
Proof.
  induction n as [|n IH]; intros a s c Hc i ab Hin; [now cbn in Hin|].
  pose proof (simulationLoop_range w body n (S a) (tick w a s)) as Hrange.
  assert (Htick : abortControllerRef (tick w a s)
                  = Some (mkAbortController
                            (aborted c || deadlinePassed w a))).
  { unfold tick. destruct (deadlinePassed w a); rewrite Hc; cbn.
    - now rewrite orb_true_r.
    - rewrite orb_false_r. now destruct c. }
  pose proof (IH (S a) (tick w a s) _ Htick i ab) as IH'.
  assert (Hflag : signalAborted (tick w a s)
                  = aborted c || deadlinePassed w a).
  { unfold signalAborted. now rewrite Htick. }
  assert (Hhead : signalAborted (tick w a s) =
            aborted c || existsb (deadlinePassed w) (seq a (S a - a))).
  { replace (S a - a) with 1 by lia. cbn. now rewrite orb_false_r. }
  assert (Htail : In (i, ab)
            (invocations (traceOf (simulationLoop w body (seq (S a) n)
                                     (tick w a s)))) ->
          ab = aborted c || existsb (deadlinePassed w) (seq a (S i - a))).
  { intros Hin'. specialize (IH' Hin'). apply Hrange in Hin'.
    replace (S i - a) with (S (S i - S a)) by lia.
    cbn [seq existsb aborted] in *. rewrite IH'. now rewrite orb_assoc. }
  cbn [seq] in Hin. revert Hin.
  loop_step w body a (seq (S a) n) s; cbn [traceOf snd] in Htail.
  - intros [Heq | Hin]; [injection Heq as <- <-; exact Hhead | auto].
  - intros [Heq | Hin]; [injection Heq as <- <-; exact Hhead | auto].
  - intros [Heq | []]. injection Heq as <- <-. exact Hhead.
Qed.

(** X4. In a run of [handleCapture] a remote call is handed an aborted
    signal exactly when the 30 s deadline has passed by the start of
    that attempt or of an earlier one; so once a call got an aborted
    signal, every later call of the run gets one too. *)
Theorem signal_follows_deadline
    (cl : Closure) (w : World) (rest smile : string) (s : Store)
    (attempt : nat) (ab : bool) :
  cl_isProcessing cl = false ->
  In (attempt, ab) (invocations (traceOf (handleCapture cl w rest smile s)))
  ->
  ab = deadlineBy w attempt /\
  (ab = true ->
   forall later ab',
     attempt <= later ->
     In (later, ab')
       (invocations (traceOf (handleCapture cl w rest smile s))) ->
     ab' = true).
Proof.
  intros Hidle Hin.
  rewrite (handleCapture_invocations _ _ _ _ _ Hidle) in *.
  destruct (outcome (prepare w rest smile (begun rest smile s)))
    as [error | p]; [now cbn in Hin|].
  assert (Hflags : forall i b,
            In (i, b)
              (invocations
                 (traceOf (simulationLoop w (simulationRequest p)
                             simulationAttempts (begun rest smile s)))) ->
            b = deadlineBy w i).
  { intros i b Hi.
    pose proof (simulationLoop_flags w (simulationRequest p)
                  MAX_RETRY_ATTEMPTS 0 (begun rest smile s)
                  (mkAbortController false) eq_refl i b Hi) as Hb.
    now rewrite Nat.sub_0_r in Hb. }
  split; [now apply Hflags|].
  intros Hab later ab' Hle Hin'.
  rewrite (Hflags _ _ Hin'). rewrite (Hflags _ _ Hin) in Hab.
  unfold deadlineBy in *. apply existsb_exists in Hab as (j & Hj & Hdp).
  apply existsb_exists. exists j. split; [|exact Hdp].
  apply in_seq in Hj. apply in_seq. lia.
Qed.

Lemma signal_follows_deadline_witness :
  cl_isProcessing (currentClosure (react Sample.idle)) = false /\
  In (1, true)
    (invocations
       (traceOf (handleCapture (currentClosure (react Sample.idle))
                   Sample.timedOut "rest" "smile" Sample.idle))) /\
  true = deadlineBy Sample.timedOut 1.
Proof.
  assert (H1 : cl_isProcessing (currentClosure (react Sample.idle)) = false)
    by reflexivity.
  assert (H2 : In (1, true)
    (invocations
       (traceOf (handleCapture (currentClosure (react Sample.idle))
                   Sample.timedOut "rest" "smile" Sample.idle)))).
  { vm_compute. right. left. reflexivity. }
  split; [exact H1 | split; [exact H2 |]].
  exact (proj1 (signal_follows_deadline _ _ _ _ _ _ _ H1 H2)).
Defined.

(** ** A run of handleCapture: timer, toasts, final state *)

Lemma prepare_calm w rest smile : emitsOnly calm (prepare w rest smile).
Proof.
  unfold prepare, optimizeBoth, createImages, validateBoth, analyse,
    detectLandmarks, onLandmarkError, validateImageQuality.
  emits.
Qed.

Lemma timerEvents_app evs1 evs2 :
  timerEvents (evs1 ++ evs2) = timerEvents evs1 ++ timerEvents evs2.
Proof. unfold timerEvents. apply filter_app. Qed.

Lemma errorToasts_app evs1 evs2 :
  errorToasts (evs1 ++ evs2) = errorToasts evs1 ++ errorToasts evs2.
Proof. unfold errorToasts. now rewrite flat_map_app. Qed.

Lemma calm_trace evs :
  Forall calm evs ->
  timerEvents evs = [] /\ errorToasts evs = [] /\ invocations evs = [].
Proof.
  induction 1 as [|e evs He _ (IHt & IHe & IHi)]; [now repeat split|].
  unfold timerEvents, errorToasts, invocations in *.
  destruct e; cbn in *; try contradiction; now repeat split.
Qed.

(** The retry loop sets no timer and shows no toast. *)
Lemma simulationLoop_trace w body attempts : forall s,
  timerEvents (traceOf (simulationLoop w body attempts s)) = [] /\
  errorToasts (traceOf (simulationLoop w body attempts s)) = [].
Proof.
  induction attempts as [|attempt rest IH]; intros s; [now split|].
  destruct (IH (tick w attempt s)) as [IHt IHe].
  rewrite (simulationLoop_cons w body attempt rest s). cbv zeta.
  destruct (classify _) as [err| |d]; [| |now split];
    destruct (simulationLoop w body rest (tick w attempt s))
      as [[r s2] evs]; cbn [traceOf snd] in *; [|now split].
  change (Invoke attempt body ?b :: ?l) with ([Invoke attempt body b] ++ l).
  rewrite !timerEvents_app, !errorToasts_app, IHt, IHe.
  unfold failureEvents.
  now destruct (attempt <? MAX_RETRY_ATTEMPTS - 1).
Qed.

(** X5. A call of [handleCapture] that passes the guard sets the 30 s
    timer once and clears it once, on every path; a call stopped by the
    guard sets none.  The timer is cleared only after the last remote
    call: the trace splits at [ClearTimeout] into a part that holds all
    remote calls and a part that holds none. *)
Theorem timer_set_once_cleared_once
    (cl : Closure) (w : World) (rest smile : string) (s : Store) :
  timerEvents (traceOf (handleCapture cl w rest smile s)) =
    (if cl_isProcessing cl then [] else [SetTimeout 30000; ClearTimeout]) /\
  (cl_isProcessing cl = false ->
   exists before after,
     traceOf (handleCapture cl w rest smile s)
       = before ++ ClearTimeout :: after /\
     invocations after = [] /\
     timerEvents before = [SetTimeout 30000]).
Proof.
  destruct (cl_isProcessing cl) eqn:Hidle.
  - split; [|discriminate]. unfold handleCapture. now rewrite Hidle.
  - destruct (calm_trace _ (prepare_calm w rest smile (begun rest smile s)))
      as (Hpt & _ & _).
    destruct (outcome (prepare w rest smile (begun rest smile s)))
      as [error | p] eqn:Hprep.
    + destruct (handleCapture_fails cl w rest smile s error Hidle Hprep)
        as (_ & _ & Htrace).
      split.
      * rewrite Htrace, !timerEvents_app, Hpt.
        unfold catchEvents, failureNotice.
        now destruct (cl_retryCount cl <? MAX_RETRY_ATTEMPTS - 1).
      * intros _.
        exists (startEvents cl s
                ++ traceOf (prepare w rest smile (begun rest smile s))),
               [LogError "Error processing smile:" error;
                failureNotice cl rest smile error].
        split; [now rewrite Htrace, <- app_assoc|].
        split.
        -- unfold failureNotice.
           now destruct (cl_retryCount cl <? MAX_RETRY_ATTEMPTS - 1).
        -- now rewrite timerEvents_app, Hpt.
    + destruct (handleCapture_completes cl w rest smile s p Hidle Hprep)
        as (result & _ & _ & _ & Htrace).
      destruct (simulationLoop_trace w (simulationRequest p)
                  simulationAttempts (begun rest smile s)) as [Hlt _].
      assert (Hres : timerEvents (resultEvents result) = [] /\
                     invocations (resultEvents result) = []).
      { unfold resultEvents. now destruct (usableImage result). }
      destruct Hres as [Hrt Hri].
      split.
      * rewrite Htrace, !timerEvents_app, Hpt, Hlt.
        change (ClearTimeout :: ?l) with ([ClearTimeout] ++ l).
        now rewrite timerEvents_app, Hrt.
      * intros _.
        exists (startEvents cl s
                ++ traceOf (prepare w rest smile (begun rest smile s))
                ++ traceOf (simulationLoop w (simulationRequest p)
                              simulationAttempts (begun rest smile s))),
               (resultEvents result).
        split; [now rewrite Htrace, <- !app_assoc|].
        split; [exact Hri|].
        now rewrite !timerEvents_app, Hpt, Hlt.
Qed.

Lemma timer_set_once_cleared_once_witness :
  cl_isProcessing (currentClosure (react Sample.idle)) = false /\
  exists before after,
    traceOf (handleCapture (currentClosure (react Sample.idle))
               Sample.allFail "rest" "smile" Sample.idle)
      = before ++ ClearTimeout :: after /\
    invocations after = [] /\
    timerEvents before = [SetTimeout 30000].
Proof.
  split.
  - reflexivity.
  - apply (proj2 (timer_set_once_cleared_once
                    (currentClosure (react Sample.idle)) Sample.allFail
                    "rest" "smile" Sample.idle)).
    reflexivity.
Defined.

(** X6. A call of [handleCapture] that passes the guard always settles:
    the processing flag is cleared, no abort controller is left, the
    landmarker and the contact data are untouched, and the resting image
    is the one submitted.  It ends in one of two ways.  Either the
    stages before the retry loop went through: then the step is
    [contact] and no error toast was shown.  Or one of them threw: then
    the step is [capture], exactly one error toast was shown, the
    smiling image is the one submitted, and ideal image, analysis,
    metrics, landmarks and simulation data are still those of before
    the run. *)
Theorem run_settles
    (cl : Closure) (w : World) (rest smile : string) (s : Store) :
  cl_isProcessing cl = false ->
  isProcessing (react (storeOf (handleCapture cl w rest smile s))) = false /\
  abortControllerRef (storeOf (handleCapture cl w rest smile s)) = None /\
  faceLandmarkerRef (storeOf (handleCapture cl w rest smile s))
    = faceLandmarkerRef s /\
  contactData (react (storeOf (handleCapture cl w rest smile s)))
    = contactData (react s) /\
  restImage (react (storeOf (handleCapture cl w rest smile s))) = rest /\
  ((step (react (storeOf (handleCapture cl w rest smile s))) = contact /\
    (exists p, outcome (prepare w rest smile (begun rest smile s)) = inr p) /\
    errorToasts (traceOf (handleCapture cl w rest smile s)) = [])
   \/
   (step (react (storeOf (handleCapture cl w rest smile s))) = capture /\
    (exists error,
       outcome (prepare w rest smile (begun rest smile s)) = inl error /\
       errorToasts (traceOf (handleCapture cl w rest smile s))
         = [failureMessage cl error]) /\
    smileImage (react (storeOf (handleCapture cl w rest smile s))) = smile /\
    idealImage (react (storeOf (handleCapture cl w rest smile s)))
      = idealImage (react s) /\
    analysis (react (storeOf (handleCapture cl w rest smile s)))
      = analysis (react s) /\
    metrics (react (storeOf (handleCapture cl w rest smile s)))
      = metrics (react s) /\
    landmarks (react (storeOf (handleCapture cl w rest smile s)))
      = landmarks (react s) /\
    simulationData (react (storeOf (handleCapture cl w rest smile s)))
      = simulationData (react s))).
Proof.
  intros Hidle.
  destruct (calm_trace _ (prepare_calm w rest smile (begun rest smile s)))
    as (_ & Hpe & _).
  destruct (outcome (prepare w rest smile (begun rest smile s)))
    as [error | p] eqn:Hprep.
  - destruct (handleCapture_fails cl w rest smile s error Hidle Hprep)
      as (_ & Hstore & Htrace).
    rewrite Hstore. repeat (split; [reflexivity|]).
    right. split; [reflexivity|]. split; [|now repeat split].
    exists error. split; [reflexivity|].
    rewrite Htrace, !errorToasts_app, Hpe.
    unfold catchEvents, failureNotice, failureMessage.
    now destruct (cl_retryCount cl <? MAX_RETRY_ATTEMPTS - 1).
  - destruct (handleCapture_completes cl w rest smile s p Hidle Hprep)
      as (result & _ & _ & Hstore & Htrace).
    destruct (simulationLoop_trace w (simulationRequest p)
                simulationAttempts (begun rest smile s)) as [_ Hle].
    rewrite Hstore. unfold completed.
    assert (Het : errorToasts (traceOf (handleCapture cl w rest smile s))
                  = []).
    { rewrite Htrace, !errorToasts_app, Hpe, Hle.
      change (ClearTimeout :: ?l) with ([ClearTimeout] ++ l).
      rewrite errorToasts_app. unfold resultEvents.
      now destruct (usableImage result). }
    destruct result as [d|]; [destruct (usableImage (Some d))|];
      cbn; repeat (split; [reflexivity|]); left;
      (split; [reflexivity|]); (split; [now exists p | exact Het]).
Qed.

Lemma run_settles_witness :
  cl_isProcessing (currentClosure (react Scenario.worn)) = false /\
  isProcessing
    (react (storeOf (handleCapture (currentClosure (react Scenario.worn))
                       Sample.allFail "rest" "smile" Scenario.worn)))
    = false /\
  abortControllerRef
    (storeOf (handleCapture (currentClosure (react Scenario.worn))
                Sample.allFail "rest" "smile" Scenario.worn)) = None.
Proof.
  assert (H : cl_isProcessing (currentClosure (react Scenario.worn)) = false)
    by reflexivity.
  pose proof (run_settles _ Sample.allFail "rest" "smile" Scenario.worn H)
    as (H1 & H2 & _).
  exact (conj H (conj H1 H2)).
Defined.

(** The end of a run whose stages before the retry loop went through. *)
Lemma run_settles_parts cl w rest smile s p :
  cl_isProcessing cl = false ->
  outcome (prepare w rest smile (begun rest smile s)) = inr p ->
  step (react (storeOf (handleCapture cl w rest smile s))) = contact /\
  (exists m,
     metrics (react (storeOf (handleCapture cl w rest smile s))) = Some m) /\
  (exists sd,
     simulationData (react (storeOf (handleCapture cl w rest smile s)))
       = Some sd) /\
  errorToasts (traceOf (handleCapture cl w rest smile s)) = [].
Proof.
  intros Hidle Hprep.
  destruct (calm_trace _ (prepare_calm w rest smile (begun rest smile s)))
    as (_ & Hpe & _).
  destruct (handleCapture_completes cl w rest smile s p Hidle Hprep)
    as (result & _ & _ & Hstore & Htrace).
  destruct (simulationLoop_trace w (simulationRequest p)
              simulationAttempts (begun rest smile s)) as [_ Hle].
  split; [|split; [|split]].
  - rewrite Hstore. unfold completed.
    destruct result as [d|]; [destruct (usableImage (Some d))|]; reflexivity.
  - rewrite Hstore. unfold completed.
    destruct result as [d|]; [destruct (usableImage (Some d))|];
      eexists; reflexivity.
  - rewrite Hstore. unfold completed.
    destruct result as [d|]; [destruct (usableImage (Some d))|];
      eexists; reflexivity.
  - rewrite Htrace, !errorToasts_app, Hpe, Hle.
    change (ClearTimeout :: ?l) with ([ClearTimeout] ++ l).
    rewrite errorToasts_app. unfold resultEvents.
    now destruct (usableImage result).
Qed.

(** ** A run of handleCapture: what the stages hand on *)

(** What stands behind a successful [prepare]. *)
Lemma prepare_inr w rest smile s p :
  outcome (prepare w rest smile s) = inr p ->
  exists optimizedRest lib smileImg restImg,
    optimizeImage w rest = inr optimizedRest /\
    optimizeImage w smile = inr (optimizedSmile p) /\
    importMetrics w = inr lib /\
    createImage w (optimizedSmile p) = inr smileImg /\
    createImage w optimizedRest = inr restImg /\
    outcome (detectLandmarks lib smileImg restImg s)
      = inr (smileLandmarks p, calculatedMetrics p) /\
    analyzeFaceCharacteristics lib (calculatedMetrics p)
      = inr (faceAnalysis p) /\
    generateSmileRecommendations lib (faceAnalysis p) (calculatedMetrics p)
      = inr (recommendations p) /\
    generateAnalysisText lib (faceAnalysis p) (calculatedMetrics p)
      (recommendations p) = inr (analysisText p).
Proof.
  intros Hout.
  assert (Hinl : forall A B (e : Thrown) (k : A -> M B),
            outcome (bind (call (inl e)) k s) = inl e) by reflexivity.
  unfold prepare, optimizeBoth, createImages in Hout.
  destruct (optimizeImage w rest) as [e | oR] eqn:Hrest;
    [cbn [promiseAll2] in Hout; rewrite Hinl in Hout; discriminate|].
  destruct (optimizeImage w smile) as [e | oS] eqn:Hsmile;
    [cbn [promiseAll2] in Hout; rewrite Hinl in Hout; discriminate|].
  cbn [promiseAll2] in Hout. rewrite bind_call_inr in Hout.
  destruct (importMetrics w) as [e | lib] eqn:Hlib;
    [rewrite Hinl in Hout; discriminate|].
  rewrite bind_call_inr in Hout.
  destruct (createImage w oS) as [e | si] eqn:Hsi;
    [cbn [promiseAll2] in Hout; rewrite Hinl in Hout; discriminate|].
  destruct (createImage w oR) as [e | ri] eqn:Hri;
    [cbn [promiseAll2] in Hout; rewrite Hinl in Hout; discriminate|].
  cbn [promiseAll2] in Hout. rewrite bind_call_inr in Hout.
  destruct (validateBoth_run si ri s) as (ev1 & Hval & _).
  destruct (detectLandmarks_run lib si ri s) as (lm & m & ev2 & Hdet & _).
  rewrite (bind_returns _ _ _ _ _ _ Hval) in Hout.
  rewrite (bind_returns _ _ _ _ _ _ Hdet) in Hout.
  cbn [outcome fst] in Hout.
  destruct (analyse_run lib oS lm m s)
    as [[e Han] | (fa & recs & text & Hfa & Hrecs & Htext & Han)];
    rewrite Han in Hout; cbn in Hout; [discriminate|].
  injection Hout as <-. exists oR, lib, si, ri.
  cbn [optimizedSmile smileLandmarks calculatedMetrics faceAnalysis
       recommendations analysisText].
  rewrite Hdet. now repeat split.
Qed.

(** X7. Only three things can abort a run: the import of the metrics
    library, the decoding of an optimized photograph, and the analysis
    functions.  When the library loads, both optimized photographs
    decode and the three analysis functions never throw, the run ends
    on the contact step with metrics and simulation data set, whatever
    the quality checks find, whether there is a landmarker, whatever
    detection and metric computation do, and whatever the remote calls
    and the deadline do. *)
Theorem run_completes_without_optional_stages
    (cl : Closure) (w : World) (rest smile : string) (s : Store)
    (lib : MetricsLib) (optimizedRest optimizedSmile : string)
    (smileImg restImg : Image) :
  cl_isProcessing cl = false ->
  optimizeImage w rest = inr optimizedRest ->
  optimizeImage w smile = inr optimizedSmile ->
  importMetrics w = inr lib ->
  createImage w optimizedSmile = inr smileImg ->
  createImage w optimizedRest = inr restImg ->
  (forall m, exists fa, analyzeFaceCharacteristics lib m = inr fa) ->
  (forall fa m, exists recs, generateSmileRecommendations lib fa m = inr recs)
  ->
  (forall fa m recs, exists text,
     generateAnalysisText lib fa m recs = inr text) ->
  step (react (storeOf (handleCapture cl w rest smile s))) = contact /\
  (exists m,
     metrics (react (storeOf (handleCapture cl w rest smile s))) = Some m) /\
  (exists sd,
     simulationData (react (storeOf (handleCapture cl w rest smile s)))
       = Some sd) /\
  errorToasts (traceOf (handleCapture cl w rest smile s)) = [].
Proof.
  intros Hidle Hrest Hsmile Hlib Hsi Hri Hfa Hrecs Htext.
  set (b := begun rest smile s).
  assert (Hprep : exists p, outcome (prepare w rest smile b) = inr p).
  { rewrite (prepare_run w rest smile b lib _ _ _ _
               Hrest Hsmile Hlib Hsi Hri).
    destruct (validateBoth_run smileImg restImg b) as (ev1 & Hval & _).
    destruct (detectLandmarks_run lib smileImg restImg b)
      as (lm & m & ev2 & Hdet & _).
    rewrite (bind_returns _ _ _ _ _ _ Hval).
    rewrite (bind_returns _ _ _ _ _ _ Hdet). cbn [outcome fst].
    destruct (Hfa m) as [fa Hfa'].
    destruct (Hrecs fa m) as [recs Hrecs'].
    destruct (Htext fa m recs) as [text Htext'].
    unfold analyse, bind, call, ret.
    rewrite Hfa', Hrecs', Htext'. cbn. eexists. reflexivity. }
  destruct Hprep as [p Hprep].
  destruct (run_settles_parts cl w rest smile s p Hidle Hprep)
    as (Hstep & Hm & Hsd & Het).
  repeat split; assumption.
Qed.

Lemma run_completes_without_optional_stages_witness :
  cl_isProcessing (currentClosure (react Probe.idleSeeing)) = false /\
  optimizeImage Sample.timedOut "rest" = inr "jpeg:rest" /\
  optimizeImage Sample.timedOut "smile" = inr "jpeg:smile" /\
  importMetrics Sample.timedOut = inr Sample.lib /\
  createImage Sample.timedOut "jpeg:smile"
    = inr (mkImage "jpeg:smile" 800 600) /\
  createImage Sample.timedOut "jpeg:rest"
    = inr (mkImage "jpeg:rest" 800 600) /\
  (forall m, exists fa, analyzeFaceCharacteristics Sample.lib m = inr fa) /\
  (forall fa m, exists recs,
     generateSmileRecommendations Sample.lib fa m = inr recs) /\
  (forall fa m recs, exists text,
     generateAnalysisText Sample.lib fa m recs = inr text) /\
  step (react (storeOf (handleCapture (currentClosure (react Probe.idleSeeing))
                          Sample.timedOut "rest" "smile" Probe.idleSeeing)))
    = contact.
Proof.
  assert (H1 : cl_isProcessing (currentClosure (react Probe.idleSeeing))
               = false) by reflexivity.
  assert (H2 : optimizeImage Sample.timedOut "rest" = inr "jpeg:rest")
    by reflexivity.
  assert (H3 : optimizeImage Sample.timedOut "smile" = inr "jpeg:smile")
    by reflexivity.
  assert (H4 : importMetrics Sample.timedOut = inr Sample.lib)
    by reflexivity.
  assert (H5 : createImage Sample.timedOut "jpeg:smile"
               = inr (mkImage "jpeg:smile" 800 600)) by reflexivity.
  assert (H6 : createImage Sample.timedOut "jpeg:rest"
               = inr (mkImage "jpeg:rest" 800 600)) by reflexivity.
  assert (H7 : forall m, exists fa,
            analyzeFaceCharacteristics Sample.lib m = inr fa)
    by (intros m; eexists; reflexivity).
  assert (H8 : forall fa m, exists recs,
            generateSmileRecommendations Sample.lib fa m = inr recs)
    by (intros fa m; eexists; reflexivity).
  assert (H9 : forall fa m recs, exists text,
            generateAnalysisText Sample.lib fa m recs = inr text)
    by (intros fa m recs; eexists; reflexivity).
  pose proof (run_completes_without_optional_stages _ _ _ _ Probe.idleSeeing
                _ _ _ _ _ H1 H2 H3 H4 H5 H6 H7 H8 H9) as (Hstep & _).
  exact (conj H1 (conj H2 (conj H3 (conj H4 (conj H5 (conj H6 (conj H7
           (conj H8 (conj H9 Hstep))))))))).
Defined.

(** X8. A photograph that cannot be decoded always aborts the run, even
    though [optimizeImage] does not fail on it: [optimizeImage] hands
    the photograph on unchanged, and the image element created from it
    next fails to load.  No remote call is made, the step is [capture],
    and, while the captured counter is below the cap, the error toast
    reads "Error: Error desconocido", the rejection being an event and
    not an [Error]. *)
Theorem undecodable_photo_aborts
    (cl : Closure) (w : World) (rest smile : string) (s : Store)
    (lib : MetricsLib) :
  cl_isProcessing cl = false ->
  importMetrics w = inr lib ->
  loadImage w smile = None \/ loadImage w rest = None ->
  step (react (storeOf (handleCapture cl w rest smile s))) = capture /\
  invocations (traceOf (handleCapture cl w rest smile s)) = [] /\
  errorToasts (traceOf (handleCapture cl w rest smile s)) =
    [if cl_retryCount cl <? MAX_RETRY_ATTEMPTS - 1
     then "Error: Error desconocido"
     else "No se pudo procesar la imagen después de varios intentos. Por favor, intente con una foto diferente."].
Proof.
  intros Hidle Hlib Hbad.
  assert (Hprep : outcome (prepare w rest smile (begun rest smile s))
                  = inl (ThrownOther "error event of the image element")).
  { unfold prepare, optimizeBoth, createImages.
    assert (Hopt : forall src, loadImage w src = None ->
              optimizeImage w src = inr src /\
              createImage w src
                = inl (ThrownOther "error event of the image element")).
    { intros src Hsrc. unfold optimizeImage, createImage.
      now rewrite Hsrc. }
    assert (Hany : forall src, exists o, optimizeImage w src = inr o).
    { intros src. unfold optimizeImage.
      destruct (loadImage w src) as [img|]; [|now eexists].
      destruct (negb (getContext2d w)); [now eexists|].
      destruct (targetSize img). now eexists. }
    destruct Hbad as [Hsmile | Hrest].
    - destruct (Hopt smile Hsmile) as [-> Hcs].
      destruct (Hany rest) as [oR ->].
      cbn [promiseAll2]. rewrite bind_call_inr, Hlib, bind_call_inr, Hcs.
      reflexivity.
    - destruct (Hopt rest Hrest) as [-> Hcr].
      destruct (Hany smile) as [oS ->].
      cbn [promiseAll2]. rewrite bind_call_inr, Hlib, bind_call_inr, Hcr.
      unfold createImage at 1. now destruct (loadImage w oS). }
  rewrite (handleCapture_invocations _ _ _ _ _ Hidle), Hprep.
  destruct (calm_trace _ (prepare_calm w rest smile (begun rest smile s)))
    as (_ & Hpe & _).
  destruct (handleCapture_fails cl w rest smile s _ Hidle Hprep)
    as (_ & Hstore & Htrace).
  rewrite Hstore, Htrace. repeat split.
  rewrite !errorToasts_app, Hpe. unfold catchEvents, failureNotice.
  now destruct (cl_retryCount cl <? MAX_RETRY_ATTEMPTS - 1).
Qed.

Lemma undecodable_photo_aborts_witness :
  cl_isProcessing (currentClosure (react Sample.idle)) = false /\
  importMetrics Sample.brokenPhotos = inr Sample.lib /\
  (loadImage Sample.brokenPhotos "smile" = None \/
   loadImage Sample.brokenPhotos "rest" = None) /\
  errorToasts
    (traceOf (handleCapture (currentClosure (react Sample.idle))
                Sample.brokenPhotos "rest" "smile" Sample.idle))
    = ["Error: Error desconocido"].
Proof.
  assert (H1 : cl_isProcessing (currentClosure (react Sample.idle)) = false)
    by reflexivity.
  assert (H2 : importMetrics Sample.brokenPhotos = inr Sample.lib)
    by reflexivity.
  assert (H3 : loadImage Sample.brokenPhotos "smile" = None \/
               loadImage Sample.brokenPhotos "rest" = None)
    by (left; reflexivity).
  pose proof (undecodable_photo_aborts _ _ "rest" "smile" Sample.idle _
                H1 H2 H3) as (_ & _ & Htoast).
  exact (conj H1 (conj H2 (conj H3 Htoast))).
Defined.

(** X9. Every remote call of a run sends the same body, whose image is
    the optimized smiling photograph, that is, what [optimizeImage]
    made of the smiling photograph that was submitted, and whose
    metrics are the metrics the run ends with. *)
Theorem requests_carry_optimized_smile
    (cl : Closure) (w : World) (rest smile : string) (s : Store)
    (sent : Request) :
  cl_isProcessing cl = false ->
  In sent (requests (traceOf (handleCapture cl w rest smile s))) ->
  optimizeImage w smile = inr (imageBase64 sent) /\
  metrics (react (storeOf (handleCapture cl w rest smile s)))
    = Some (req_metrics sent) /\
  forall sent',
    In sent' (requests (traceOf (handleCapture cl w rest smile s))) ->
    sent' = sent.
Proof.
  intros Hidle Hin.
  assert (Hq : requests (traceOf (prepare w rest smile (begun rest smile s)))
               = []).
  { pose proof (prepare_quiet w rest smile (begun rest smile s)) as Hquiet.
    induction Hquiet as [|e evs He _ IH]; [reflexivity|].
    unfold requests in *. destruct e; cbn in *; try exact IH.
    contradiction. }
  destruct (outcome (prepare w rest smile (begun rest smile s)))
    as [error | p] eqn:Hprep.
  - destruct (handleCapture_fails cl w rest smile s error Hidle Hprep)
      as (_ & _ & Htrace).
    rewrite Htrace, !requests_app, Hq in Hin.
    unfold catchEvents, failureNotice in Hin.
    destruct (cl_retryCount cl <? MAX_RETRY_ATTEMPTS - 1); now cbn in Hin.
  - destruct (handleCapture_completes cl w rest smile s p Hidle Hprep)
      as (result & _ & _ & Hstore & Htrace).
    assert (Hall : forall r,
              In r (requests (traceOf (handleCapture cl w rest smile s))) ->
              r = simulationRequest p).
    { intros r Hr. rewrite Htrace, !requests_app, Hq in Hr.
      change (ClearTimeout :: ?l) with ([ClearTimeout] ++ l) in Hr.
      rewrite requests_app in Hr.
      assert (Hres : requests (resultEvents result) = []).
      { unfold resultEvents. now destruct (usableImage result). }
      rewrite Hres in Hr. cbn [startEvents requests flat_map app] in Hr.
      rewrite app_nil_r in Hr.
      now apply simulationLoop_requests in Hr. }
    pose proof (Hall sent Hin) as ->.
    destruct (prepare_inr w rest smile _ p Hprep)
      as (oR & lib & si & ri & _ & Hsmile & _).
    split; [exact Hsmile|]. split.
    + rewrite Hstore. unfold completed.
      destruct result as [d|]; [destruct (usableImage (Some d))|];
        reflexivity.
    + exact Hall.
Qed.

Lemma requests_carry_optimized_smile_witness :
  cl_isProcessing (currentClosure (react Sample.idle)) = false /\
  In (mkRequest "jpeg:smile" fallbackMetricsNoLandmarker
        (JObj [("faceShape", JStr "oval")]) (JArr []))
    (requests (traceOf (handleCapture (currentClosure (react Sample.idle))
                          Sample.allFail "rest" "smile" Sample.idle))) /\
  optimizeImage Sample.allFail "smile" = inr "jpeg:smile".
Proof.
  assert (H1 : cl_isProcessing (currentClosure (react Sample.idle)) = false)
    by reflexivity.
  assert (H2 : In (mkRequest "jpeg:smile" fallbackMetricsNoLandmarker
        (JObj [("faceShape", JStr "oval")]) (JArr []))
    (requests (traceOf (handleCapture (currentClosure (react Sample.idle))
                          Sample.allFail "rest" "smile" Sample.idle)))).
  { vm_compute. left. reflexivity. }
  pose proof (requests_carry_optimized_smile _ _ _ _ _ _ H1 H2)
    as (Himg & _).
  exact (conj H1 (conj H2 Himg)).
Defined.

(** ** From a run to the results view *)

Lemma usableImage_nonempty r img :
  usableImage r = Some img -> String.eqb img "" = false.
Proof.
  unfold usableImage. destruct r as [d|]; [|discriminate].
  destruct (simulatedImage d) as [x|]; [|discriminate].
  destruct (String.eqb x "") eqn:Hx; [discriminate|].
  now intros [= <-].
Qed.

Lemma orElse_nonempty a b :
  String.eqb b "" = false -> String.eqb (orElse a b) "" = false.
Proof.
  intros Hb. unfold orElse. destruct a as [x|]; [|exact Hb].
  now destruct (String.eqb x "") eqn:Hx.
Qed.

(** X11. After a run that reached the contact step with a non-empty
    optimized smiling photograph, submitting the contact form reports
    [has_simulation: true] to analytics whether or not a simulation was
    obtained: in degraded mode the ideal image is the optimized
    photograph, which is just as truthy.  The quality score reported is
    then undefined.  The submission stores the contact data and moves
    to the results step. *)
Theorem contact_reports_simulation
    (cl : Closure) (w : World) (rest smile : string) (s : Store)
    (p : Prepared) (contact_data : ContactData) :
  cl_isProcessing cl = false ->
  outcome (prepare w rest smile (begun rest smile s)) = inr p ->
  optimizedSmile p <> "" ->
  exists quality,
    traceOf (handleContactSubmit contact_data
               (storeOf (handleCapture cl w rest smile s)))
      = [TrackContactSubmitted (email contact_data) true quality;
         ToastSuccess "¡Análisis completado! Revise sus resultados a continuación."]
    /\
    ((forall attempt ab, attempt < MAX_RETRY_ATTEMPTS ->
        usableResponse (invoke w attempt (simulationRequest p) ab) = false) ->
     quality = None) /\
    step (react (storeOf (handleContactSubmit contact_data
                            (storeOf (handleCapture cl w rest smile s)))))
      = results /\
    contactData
      (react (storeOf (handleContactSubmit contact_data
                         (storeOf (handleCapture cl w rest smile s)))))
      = Some contact_data.
Proof.
  intros Hidle Hprep Hne.
  destruct (handleCapture_completes cl w rest smile s p Hidle Hprep)
    as (result & Hrun & _ & Hstore & _).
  assert (Hopt : String.eqb (optimizedSmile p) "" = false)
    by (now apply String.eqb_neq).
  rewrite Hstore. unfold completed.
  destruct result as [d|].
  - destruct (usableImage (Some d)) as [img|] eqn:Hus.
    + pose proof (orElse_nonempty (p_idealImage d) img
                    (usableImage_nonempty _ _ Hus)) as Hideal.
      exists (p_qualityScore d). cbn. rewrite Hideal. cbn.
      repeat split. intros Hbad.
      rewrite (simulationLoop_unusable w (simulationRequest p)
                 (begun rest smile s) Hbad (Some d) Hrun) in Hus.
      discriminate.
    + exists None. cbn. rewrite Hopt. cbn. now repeat split.
  - exists None. cbn. rewrite Hopt. cbn. now repeat split.
Qed.

Lemma contact_reports_simulation_witness :
  cl_isProcessing (currentClosure (react Sample.idle)) = false /\
  outcome (prepare Sample.allFail "rest" "smile"
             (begun "rest" "smile" Sample.idle))
    = inr (mkPrepared "jpeg:smile" None fallbackMetricsNoLandmarker
             (JObj [("faceShape", JStr "oval")]) (JArr []) "Analisis") /\
  "jpeg:smile" <> "" /\
  exists quality,
    traceOf (handleContactSubmit Probe.someone
               (storeOf (handleCapture (currentClosure (react Sample.idle))
                           Sample.allFail "rest" "smile" Sample.idle)))
      = [TrackContactSubmitted "ana@example.com" true quality;
         ToastSuccess "¡Análisis completado! Revise sus resultados a continuación."].
Proof.
  assert (H1 : cl_isProcessing (currentClosure (react Sample.idle)) = false)
    by reflexivity.
  assert (H2 : outcome (prepare Sample.allFail "rest" "smile"
                          (begun "rest" "smile" Sample.idle))
    = inr (mkPrepared "jpeg:smile" None fallbackMetricsNoLandmarker
             (JObj [("faceShape", JStr "oval")]) (JArr []) "Analisis"))
    by reflexivity.
  assert (H3 : "jpeg:smile" <> "") by discriminate.
  destruct (contact_reports_simulation _ _ _ _ _ _ Probe.someone H1 H2 H3)
    as (quality & Htrace & _).
  exact (conj H1 (conj H2 (conj H3 (ex_intro _ quality Htrace)))).
Defined.

(** ** Sequences of user events *)

Lemma replay_app es1 es2 s :
  fst (replay (es1 ++ es2) s) = fst (replay es2 (fst (replay es1 s))).
Proof.
  revert s. induction es1 as [|e es1 IH]; intros s; [reflexivity|].
  cbn [app replay]. destruct (after e s) as [s1 evs].
  specialize (IH s1).
  destruct (replay (es1 ++ es2) s1) as [s2 traces].
  destruct (replay es1 s1) as [s2' traces']. exact IH.
Qed.

(** A component that is idle stays idle under every event, and keeps its
    landmarker. *)
Lemma after_idle e s :
  isProcessing (react s) = false ->
  abortControllerRef s = None ->
  isProcessing (react (fst (after e s))) = false /\
  abortControllerRef (fst (after e s)) = None /\
  faceLandmarkerRef (fst (after e s)) = faceLandmarkerRef s.
Proof.
  intros Hflag Hctl.
  assert (Hrun : forall cl w rest smile s0,
            isProcessing (react s0) = false ->
            abortControllerRef s0 = None ->
            isProcessing (react (storeOf (handleCapture cl w rest smile s0)))
              = false /\
            abortControllerRef (storeOf (handleCapture cl w rest smile s0))
              = None /\
            faceLandmarkerRef (storeOf (handleCapture cl w rest smile s0))
              = faceLandmarkerRef s0).
  { intros cl w rest smile s0 Hf Hc.
    destruct (cl_isProcessing cl) eqn:Hidle.
    - unfold handleCapture. rewrite Hidle. now repeat split.
    - destruct (outcome (prepare w rest smile (begun rest smile s0)))
        as [error | p] eqn:Hprep.
      + destruct (handleCapture_fails cl w rest smile s0 error Hidle Hprep)
          as (_ & -> & _). now repeat split.
      + destruct (handleCapture_completes cl w rest smile s0 p Hidle Hprep)
          as (result & _ & _ & -> & _). now repeat split. }
  destruct e as [|w rest smile|w [cl rest smile]|contact_data|].
  - now repeat split.
  - rewrite after_SubmitPhotos. now apply Hrun.
  - rewrite after_ClickReintentar. cbn [fst].
    now apply (Hrun cl w rest smile (bumped s)).
  - now repeat split.
  - now repeat split.
Qed.

Lemma replay_idle es : forall s,
  isProcessing (react s) = false ->
  abortControllerRef s = None ->
  isProcessing (react (fst (replay es s))) = false /\
  abortControllerRef (fst (replay es s)) = None /\
  faceLandmarkerRef (fst (replay es s)) = faceLandmarkerRef s.
Proof.
  induction es as [|e es IH]; intros s Hflag Hctl; [now repeat split|].
  cbn [replay].
  destruct (after_idle e s Hflag Hctl) as (Hf & Hc & Hl).
  destruct (after e s) as [s1 evs]. cbn [fst] in Hf, Hc, Hl.
  destruct (IH s1 Hf Hc) as (Hf' & Hc' & Hl').
  destruct (replay es s1) as [s2 traces]. cbn [fst] in *.
  repeat split; congruence.
Qed.

(** X12. From an idle component, no sequence of events of the capture
    flow (starts, submissions of photographs with any environment,
    presses of any retry button, contact submissions, resets), each run
    to completion, leaves the processing
    flag set or an abort controller behind, and none changes the
    landmarker.  A reset at the end of any such sequence gives back
    exactly the initial state. *)
Theorem idle_component_stays_idle (es : list UserEvent) (s : Store) :
  isProcessing (react s) = false ->
  abortControllerRef s = None ->
  isProcessing (react (fst (replay es s))) = false /\
  abortControllerRef (fst (replay es s)) = None /\
  faceLandmarkerRef (fst (replay es s)) = faceLandmarkerRef s /\
  react (fst (replay (es ++ [ClickReset]) s)) = initialState.
Proof.
  intros Hflag Hctl.
  destruct (replay_idle es s Hflag Hctl) as (Hf & Hc & Hl).
  repeat split; try assumption.
  rewrite replay_app. cbn. unfold initialState. now rewrite Hf.
Qed.

Lemma idle_component_stays_idle_witness :
  isProcessing (react Sample.idle) = false /\
  abortControllerRef Sample.idle = None /\
  react (fst (replay (Scenario.failures 2 ++ [ClickReset]) Sample.idle))
    = initialState.
Proof.
  assert (H1 : isProcessing (react Sample.idle) = false) by reflexivity.
  assert (H2 : abortControllerRef Sample.idle = None) by reflexivity.
  pose proof (idle_component_stays_idle (Scenario.failures 2) Sample.idle
                H1 H2) as (_ & _ & _ & Hreset).
  exact (conj H1 (conj H2 Hreset)).
Defined.

(** ** validateImageQuality on whole numbers *)

Lemma aspect_below_half width height :
  0 < height ->
  ((pixels width / pixels height < 0.5)%Q <-> 2 * width < height).
Proof.
  intros Hh. unfold pixels.
  destruct (Z.of_nat height) as [|ph|ph] eqn:Hz; try lia.
  unfold Qdiv, Qinv, Qmult, Qlt. cbn [Qnum Qden inject_Z].
  rewrite ?Pos.mul_1_l, ?Pos.mul_1_r. lia.
Qed.

Lemma aspect_above_two width height :
  0 < height ->
  ((2 < pixels width / pixels height)%Q <-> 2 * height < width).
Proof.
  intros Hh. unfold pixels.
  destruct (Z.of_nat height) as [|ph|ph] eqn:Hz; try lia.
  unfold Qdiv, Qinv, Qmult, Qlt. cbn [Qnum Qden inject_Z].
  rewrite ?Pos.mul_1_l, ?Pos.mul_1_r. lia.
Qed.

(** X14. [validateImageQuality] decides on whole numbers: it answers
    [false] exactly for an image narrower than 640 or lower than 480
    pixels, with the resolution warning as its only toast, and does not
    look at the aspect ratio of such an image.  Every other image is
    valid; it gets the aspect-ratio warning exactly when one side is
    more than twice the other.  It never throws and never touches the
    store, and it shows at most one toast. *)
Theorem validateImageQuality_checks (image : Image) (s : Store) :
  validateImageQuality image s =
    (inr (negb (lowResolution image)), s,
     if lowResolution image then [resolutionWarning]
     else if extremeAspect image then [aspectWarning] else []).
Proof.
  unfold validateImageQuality, lowResolution, extremeAspect,
    resolutionWarning, aspectWarning.
  destruct (Nat.ltb_spec (img_width image) 640) as [Hw | Hw];
    [reflexivity|].
  destruct (Nat.ltb_spec (img_height image) 480) as [Hh | Hh];
    [reflexivity|].
  cbn [orb negb].
  assert (Hpos : 0 < img_height image) by lia.
  fold (pixels (img_width image)). fold (pixels (img_height image)).
  destruct (Qlt_le_dec _ 0.5) as [Hlt | Hge].
  - apply (aspect_below_half _ _ Hpos) in Hlt.
    destruct (Nat.ltb_spec (2 * img_width image) (img_height image));
      [reflexivity | lia].
  - assert (Hnot : ~ 2 * img_width image < img_height image).
    { intros Hc. apply (aspect_below_half _ _ Hpos) in Hc.
      now apply Qlt_not_le in Hc. }
    destruct (Nat.ltb_spec (2 * img_width image) (img_height image));
      [lia|].
    destruct (Qlt_le_dec 2 _) as [Hgt | Hle].
    + apply (aspect_above_two _ _ Hpos) in Hgt.
      destruct (Nat.ltb_spec (2 * img_height image) (img_width image));
        [reflexivity | lia].
    + assert (Hnot' : ~ 2 * img_height image < img_width image).
      { intros Hc. apply (aspect_above_two _ _ Hpos) in Hc.
        now apply Qlt_not_le in Hc. }
      destruct (Nat.ltb_spec (2 * img_height image) (img_width image));
        [lia | reflexivity].
Qed.

(** ** initializeFaceLandmarker *)

(** X15. [initializeFaceLandmarker] creates a landmarker only in a
    browser with a WebGL context, and then always asks for the GPU
    delegate: the CPU branch of the options is never taken.  The ref is
    written only after both MediaPipe calls succeeded with the
    component still mounted; in every other case it keeps its value.
    A failure (no WebGL, or a call that throws) shows one error toast
    with the retry action; a component unmounted in between gives up
    silently, without log or toast. *)
Theorem landmarker_needs_webgl (b : Browser) (ref : option FaceLandmarker) :
  (forall vision options,
     In (CreateLandmarker vision options)
       (snd (initializeFaceLandmarker b ref)) ->
     webgl b || experimentalWebgl b = true /\
     options = landmarkerOptions true /\
     delegate options = GPU) /\
  (fst (initializeFaceLandmarker b ref) = ref \/
   exists vision faceLandmarker,
     webgl b || experimentalWebgl b = true /\
     forVisionTasks b visionWasmUrl = inr vision /\
     mountedAfterResolve b = true /\
     createFromOptions b vision (landmarkerOptions true)
       = inr faceLandmarker /\
     mountedAfterCreate b = true /\
     fst (initializeFaceLandmarker b ref) = Some faceLandmarker) /\
  (webgl b || experimentalWebgl b = false ->
   initializeFaceLandmarker b ref =
     (ref,
      onInitError
        (ThrownError "WebGL not supported. Please use a modern browser.")))
  /\
  (forall vision,
     webgl b || experimentalWebgl b = true ->
     forVisionTasks b visionWasmUrl = inr vision ->
     mountedAfterResolve b = false ->
     initializeFaceLandmarker b ref = (ref, [ResolveVision visionWasmUrl])).
Proof.
  split; [|split; [|split]].
  - intros v o Hin. unfold initializeFaceLandmarker in Hin.
    destruct (webgl b || experimentalWebgl b) eqn:Hgl; cbn [negb] in Hin;
      [|cbn in Hin; intuition discriminate].
    destruct (forVisionTasks b visionWasmUrl) as [e | vision];
      [cbn in Hin; intuition discriminate|].
    destruct (mountedAfterResolve b); cbn [negb] in Hin;
      [|cbn in Hin; intuition discriminate].
    assert (Hfound : CreateLandmarker vision (landmarkerOptions true)
                     = CreateLandmarker v o).
    { destruct (createFromOptions b vision (landmarkerOptions true))
        as [e | fl]; [|destruct (mountedAfterCreate b)];
        cbn in Hin; intuition discriminate. }
    injection Hfound as <- <-. now repeat split.
  - unfold initializeFaceLandmarker.
    destruct (webgl b || experimentalWebgl b) eqn:Hgl; cbn [negb];
      [|now left].
    destruct (forVisionTasks b visionWasmUrl) as [e | vision] eqn:Hv;
      [now left|].
    destruct (mountedAfterResolve b) eqn:Hm1; cbn [negb]; [|now left].
    destruct (createFromOptions b vision (landmarkerOptions true))
      as [e | fl] eqn:Hc; [now left|].
    destruct (mountedAfterCreate b) eqn:Hm2; cbn [negb]; [|now left].
    right. now exists vision, fl.
  - intros Hgl. unfold initializeFaceLandmarker. now rewrite Hgl.
  - intros vision Hgl Hv Hm. unfold initializeFaceLandmarker.
    now rewrite Hgl, Hv, Hm.
Qed.

Lemma landmarker_needs_webgl_witness :
  webgl Probe.noWebgl || experimentalWebgl Probe.noWebgl = false /\
  initializeFaceLandmarker Probe.noWebgl None =
    (None,
     onInitError
       (ThrownError "WebGL not supported. Please use a modern browser.")).
Proof.
  assert (H : webgl Probe.noWebgl || experimentalWebgl Probe.noWebgl = false)
    by reflexivity.
  destruct (landmarker_needs_webgl Probe.noWebgl None) as (_ & _ & Hno & _).
  exact (conj H (Hno H)).
Defined.

(** X16. When initialization has left no landmarker (in particular in a
    browser without WebGL), then after any sequence of events of the
    capture flow (starts, submissions of photographs, retry buttons of
    failed runs, contact submissions, resets) every run that reaches the
    retry loop works on the fallback metrics and ends with the fallback
    metrics and no landmarks in the state: no event of the capture flow
    brings a landmarker back. *)
Theorem failed_initialization_means_fallback
    (b : Browser) (es : list UserEvent) (cl : Closure) (w : World)
    (rest smile : string) (p : Prepared) :
  (webgl b || experimentalWebgl b = false ->
   fst (initializeFaceLandmarker b None) = None) /\
  (fst (initializeFaceLandmarker b None) = None ->
   cl_isProcessing cl = false ->
   outcome (prepare w rest smile
              (begun rest smile (fst (replay es (mounted b))))) = inr p ->
   calculatedMetrics p = fallbackMetricsNoLandmarker /\
   smileLandmarks p = None /\
   metrics (react (storeOf (handleCapture cl w rest smile
                              (fst (replay es (mounted b))))))
     = Some fallbackMetricsNoLandmarker /\
   landmarks (react (storeOf (handleCapture cl w rest smile
                                (fst (replay es (mounted b))))))
     = None).
Proof.
  split.
  - intros Hgl. unfold initializeFaceLandmarker. now rewrite Hgl.
  - intros Hnone Hidle Hprep.
    destruct (replay_idle es (mounted b) eq_refl eq_refl) as (_ & _ & Href).
    cbn [mounted faceLandmarkerRef] in Href. rewrite Hnone in Href.
    destruct (prepare_inr w rest smile _ p Hprep)
      as (oR & lib & si & ri & _ & _ & _ & _ & _ & Hdet & _).
    unfold detectLandmarks, bind, get in Hdet. cbn in Hdet.
    rewrite Href in Hdet. cbn in Hdet. injection Hdet as Hlm Hm.
    destruct (handleCapture_completes cl w rest smile _ p Hidle Hprep)
      as (result & _ & _ & Hstore & _).
    rewrite Hstore. unfold completed. rewrite <- Hlm, <- Hm.
    destruct result as [d|]; [destruct (usableImage (Some d))|];
      now repeat split.
Qed.

Lemma failed_initialization_means_fallback_witness :
  fst (initializeFaceLandmarker Probe.noWebgl None) = None /\
  cl_isProcessing (mkClosure false 2) = false /\
  outcome (prepare Sample.allFail "rest" "smile"
             (begun "rest" "smile"
                (fst (replay (Scenario.failures 2)
                        (mounted Probe.noWebgl)))))
    = inr (mkPrepared "jpeg:smile" None fallbackMetricsNoLandmarker
             (JObj [("faceShape", JStr "oval")]) (JArr []) "Analisis") /\
  metrics
    (react (storeOf (handleCapture (mkClosure false 2) Sample.allFail
                       "rest" "smile"
                       (fst (replay (Scenario.failures 2)
                               (mounted Probe.noWebgl))))))
    = Some fallbackMetricsNoLandmarker.
Proof.
  assert (H1 : fst (initializeFaceLandmarker Probe.noWebgl None) = None)
    by reflexivity.
  assert (H2 : cl_isProcessing (mkClosure false 2) = false) by reflexivity.
  assert (H3 : outcome (prepare Sample.allFail "rest" "smile"
             (begun "rest" "smile"
                (fst (replay (Scenario.failures 2)
                        (mounted Probe.noWebgl)))))
    = inr (mkPrepared "jpeg:smile" None fallbackMetricsNoLandmarker
             (JObj [("faceShape", JStr "oval")]) (JArr []) "Analisis"))
    by reflexivity.
  pose proof (proj2 (failed_initialization_means_fallback Probe.noWebgl
                       (Scenario.failures 2) (mkClosure false 2)
                       Sample.allFail "rest" "smile" _) H1 H2 H3)
    as (_ & _ & Hmetrics & _).
  exact (conj H1 (conj H2 (conj H3 Hmetrics))).
Defined.

(** ** C4: what the token is used for *)

Lemma prepare_prompt w rest smile : emitsOnly prompt (prepare w rest smile).
Proof.
  unfold prepare, optimizeBoth, createImages, validateBoth, analyse,
    detectLandmarks, onLandmarkError, validateImageQuality.
  emits.
Qed.

Lemma prompt_no_sleeps evs : Forall prompt evs -> sleeps evs = [].
Proof.
  induction 1 as [|e evs He _ IH]; [reflexivity|].
  unfold sleeps in *. destruct e; cbn in *; try exact IH.
  contradiction.
Qed.

(** The delays of a run are those of its retry loop. *)
Lemma handleCapture_sleeps cl w rest smile s :
  cl_isProcessing cl = false ->
  sleeps (traceOf (handleCapture cl w rest smile s)) =
  match outcome (prepare w rest smile (begun rest smile s)) with
  | inr p =>
      sleeps
        (traceOf (simulationLoop w (simulationRequest p) simulationAttempts
                    (begun rest smile s)))
  | inl _ => []
  end.
Proof.
  intros Hidle.
  pose proof (prompt_no_sleeps _
                (prepare_prompt w rest smile (begun rest smile s))) as Hq.
  destruct (outcome (prepare w rest smile (begun rest smile s)))
    as [error | p] eqn:Hprep.
  - destruct (handleCapture_fails cl w rest smile s error Hidle Hprep)
      as (_ & _ & ->).
    rewrite !sleeps_app, Hq. unfold catchEvents, failureNotice.
    now destruct (cl_retryCount cl <? MAX_RETRY_ATTEMPTS - 1).
  - destruct (handleCapture_completes cl w rest smile s p Hidle Hprep)
      as (result & _ & _ & _ & ->).
    rewrite !sleeps_app, Hq.
    change (ClearTimeout :: ?l) with ([ClearTimeout] ++ l).
    rewrite sleeps_app. unfold resultEvents.
    destruct (usableImage result); cbn; now rewrite app_nil_r.
Qed.

(** The loop takes nothing from the token but what the calls answer:
    two environments whose calls answer alike, whatever signal they are
    handed, give the same loop. *)
Lemma simulationLoop_same_responses w w' body attempts :
  (forall attempt ab ab',
     invoke w attempt body ab = invoke w' attempt body ab') ->
  forall s s',
    outcome (simulationLoop w body attempts s)
      = outcome (simulationLoop w' body attempts s') /\
    map fst (invocations (traceOf (simulationLoop w body attempts s)))
      = map fst (invocations (traceOf (simulationLoop w' body attempts s')))
    /\
    sleeps (traceOf (simulationLoop w body attempts s))
      = sleeps (traceOf (simulationLoop w' body attempts s')) /\
    failureLogs (traceOf (simulationLoop w body attempts s))
      = failureLogs (traceOf (simulationLoop w' body attempts s')).
Proof.
  intros Hsame.
  induction attempts as [|attempt rest IH]; intros s s'; [now repeat split|].
  rewrite (simulationLoop_cons w body attempt rest s),
          (simulationLoop_cons w' body attempt rest s'). cbv zeta.
  rewrite (Hsame attempt (signalAborted (tick w attempt s))
             (signalAborted (tick w' attempt s'))).
  specialize (IH (tick w attempt s) (tick w' attempt s')).
  destruct (classify _) as [err| |d]; [| |now repeat split];
    destruct (simulationLoop w body rest (tick w attempt s))
      as [[r1 t1] evs1];
    destruct (simulationLoop w' body rest (tick w' attempt s'))
      as [[r2 t2] evs2];
    cbn [outcome traceOf fst snd] in *;
    destruct IH as (Hout & Hinv & Hsl & Hlog);
    rewrite !invocations_cons_invoke, ?invocations_failureEvents.
  - change (sleeps (Invoke attempt body ?b :: ?l)) with (sleeps l).
    change (failureLogs (Invoke attempt body ?b :: ?l))
      with (failureLogs l).
    rewrite !sleeps_app, !failureLogs_app, Hsl, Hlog.
    cbn [map fst]. now rewrite Hinv.
  - change (sleeps (Invoke attempt body ?b :: ?l)) with (sleeps l).
    change (failureLogs (Invoke attempt body ?b :: ?l))
      with (failureLogs l).
    cbn [map fst]. now rewrite Hinv.
Qed.

(** What the loop does once the token has fired. *)
Lemma simulationLoop_fired w body s c k :
  abortControllerRef s = Some c ->
  k < MAX_RETRY_ATTEMPTS ->
  deadlinePassed w k = true ->
  (forall j ab, j < k ->
     isAccepted (classify (invoke w j body ab)) = false) ->
  (forall j, k <= j < MAX_RETRY_ATTEMPTS ->
     isFailed (classify (invoke w j body true)) = true) ->
  (forall j, k <= j < MAX_RETRY_ATTEMPTS ->
     In (j, true)
       (invocations (traceOf (simulationLoop w body simulationAttempts s))))
  /\
  (forall j, k <= j < MAX_RETRY_ATTEMPTS - 1 ->
     In (backoffDelay j)
       (sleeps (traceOf (simulationLoop w body simulationAttempts s)))) /\
  outcome (simulationLoop w body simulationAttempts s) = inr None.
Proof.
  intros Hc Hk Hfired Hbefore Hafter.
  set (run := simulationLoop w body simulationAttempts s).
  assert (Hflag : forall i ab,
            In (i, ab) (invocations (traceOf run)) -> k <= i -> ab = true).
  { intros i ab Hin Hle.
    rewrite (simulationLoop_flags w body MAX_RETRY_ATTEMPTS 0 s c Hc i ab Hin).
    apply orb_true_iff. right. apply existsb_exists. exists k.
    split; [apply in_seq; lia | exact Hfired]. }
  assert (Hnot : forall i ab,
            In (i, ab) (invocations (traceOf run)) ->
            isAccepted (classify (invoke w i body ab)) = false).
  { intros i ab Hin. destruct (Nat.lt_ge_cases i k) as [Hlt | Hge].
    - now apply Hbefore.
    - pose proof (simulationLoop_range w body MAX_RETRY_ATTEMPTS 0 s i ab Hin)
        as Hrange.
      rewrite (Hflag i ab Hin Hge).
      specialize (Hafter i ltac:(lia)).
      now destruct (classify (invoke w i body true)). }
  assert (Hall : forall j, j < MAX_RETRY_ATTEMPTS -> begins (traceOf run) j).
  { induction j as [|j IHj]; intros Hj.
    - apply (simulationLoop_begins_first w body 0 (seq 1 2) s).
    - destruct IHj as [ab Hin]; [lia|].
      pose proof (simulationLoop_attempts w body MAX_RETRY_ATTEMPTS 0 s j ab
                    Hin) as Hnext.
      specialize (Hnot j ab Hin).
      destruct (classify (invoke w j body ab)) as [err| |d];
        [apply Hnext; lia | apply Hnext; lia | discriminate]. }
  assert (Hin_true : forall j, k <= j < MAX_RETRY_ATTEMPTS ->
            In (j, true) (invocations (traceOf run))).
  { intros j Hj. destruct (Hall j) as [ab Hin]; [lia|].
    now rewrite (Hflag j ab Hin) in Hin by lia. }
  split; [exact Hin_true|]. split.
  - intros j Hj. subst run. rewrite simulationLoop_sleeps.
    apply (in_map (fun inv => backoffDelay (fst inv)) _ (j, true)).
    apply filter_In. split; [apply Hin_true; lia|].
    unfold delayed. cbn [fst snd]. rewrite Hafter by lia.
    apply Nat.ltb_lt. lia.
  - destruct (simulationLoop_returns w body simulationAttempts s)
      as [[d|] Hret]; [|exact Hret].
    destruct (simulationLoop_result w body simulationAttempts s d Hret)
      as (j & ab & Hin & Hcls).
    specialize (Hnot j ab Hin). rewrite Hcls in Hnot. discriminate.
Qed.

(** C4, amended. The token is armed when a run starts: the 30 s timer
    is set before the pipeline.  The retry loop never reads it; the
    token is only handed to each remote call as its abort signal: in
    two environments whose calls answer alike, whatever signal they are
    handed, the loop makes the same attempts, waits the same delays,
    logs the same failures and returns the same, whenever the token
    fires.  So firing the token stops nothing by itself: once the
    deadline has passed by the start of attempt [k] of a run, and the
    calls that are handed the aborted signal fail, every attempt from
    [k] up to the third is still begun, with the aborted signal, the
    backoff delay after each of them but the last is still waited, and
    the run ends with the unavailable marker. *)
Theorem token_only_handed_to_calls
    (cl : Closure) (w w' : World) (rest smile : string) (s s1 s2 : Store)
    (p : Prepared) (body : Request) (k : nat) :
  (cl_isProcessing cl = false ->
   exists evs,
     traceOf (handleCapture cl w rest smile s)
       = TrackPhotosCaptured (isSome (faceLandmarkerRef s))
           (cl_retryCount cl)
         :: SetTimeout 30000 :: evs) /\
  ((forall attempt ab ab',
      invoke w attempt body ab = invoke w' attempt body ab') ->
   outcome (simulationLoop w body simulationAttempts s1)
     = outcome (simulationLoop w' body simulationAttempts s2) /\
   map fst (invocations
              (traceOf (simulationLoop w body simulationAttempts s1)))
     = map fst (invocations
                  (traceOf (simulationLoop w' body simulationAttempts s2)))
   /\
   sleeps (traceOf (simulationLoop w body simulationAttempts s1))
     = sleeps (traceOf (simulationLoop w' body simulationAttempts s2)) /\
   failureLogs (traceOf (simulationLoop w body simulationAttempts s1))
     = failureLogs (traceOf (simulationLoop w' body simulationAttempts s2)))
  /\
  (cl_isProcessing cl = false ->
   outcome (prepare w rest smile (begun rest smile s)) = inr p ->
   k < MAX_RETRY_ATTEMPTS ->
   deadlinePassed w k = true ->
   (forall j ab, j < k ->
      isAccepted (classify (invoke w j (simulationRequest p) ab)) = false) ->
   (forall j, k <= j < MAX_RETRY_ATTEMPTS ->
      isFailed (classify (invoke w j (simulationRequest p) true)) = true) ->
   (forall j, k <= j < MAX_RETRY_ATTEMPTS ->
      In (j, true)
        (invocations (traceOf (handleCapture cl w rest smile s)))) /\
   (forall j, k <= j < MAX_RETRY_ATTEMPTS - 1 ->
      In (backoffDelay j)
        (sleeps (traceOf (handleCapture cl w rest smile s)))) /\
   simulationData (react (storeOf (handleCapture cl w rest smile s)))
     = Some (mkSimulationData None None (Some ["simulation_unavailable"]))).
Proof.
  split; [apply handleCapture_arms_deadline|].
  split;
    [intros Hsame;
     apply (simulationLoop_same_responses w w' body simulationAttempts
              Hsame s1 s2)|].
  intros Hidle Hprep Hk Hfired Hbefore Hafter.
  destruct (simulationLoop_fired w (simulationRequest p) (begun rest smile s)
              (mkAbortController false) k eq_refl Hk Hfired Hbefore Hafter)
    as (Hinv & Hsl & Hnone).
  rewrite (handleCapture_invocations _ _ _ _ _ Hidle),
          (handleCapture_sleeps _ _ _ _ _ Hidle), Hprep.
  split; [exact Hinv|]. split; [exact Hsl|].
  destruct (handleCapture_completes cl w rest smile s p Hidle Hprep)
    as (result & Hrun & _ & Hstore & _).
  rewrite Hnone in Hrun. injection Hrun as <-.
  now rewrite Hstore.
Qed.

Lemma token_only_handed_to_calls_witness :
  cl_isProcessing (currentClosure (react Sample.idle)) = false /\
  outcome (prepare Sample.timedOut "rest" "smile"
             (begun "rest" "smile" Sample.idle))
    = inr (mkPrepared "jpeg:smile" None fallbackMetricsNoLandmarker
             (JObj [("faceShape", JStr "oval")]) (JArr []) "Analisis") /\
  1 < MAX_RETRY_ATTEMPTS /\
  deadlinePassed Sample.timedOut 1 = true /\
  In (2, true)
    (invocations
       (traceOf (handleCapture (currentClosure (react Sample.idle))
                   Sample.timedOut "rest" "smile" Sample.idle))) /\
  In (backoffDelay 1)
    (sleeps
       (traceOf (handleCapture (currentClosure (react Sample.idle))
                   Sample.timedOut "rest" "smile" Sample.idle))) /\
  (forall attempt ab ab',
     invoke Sample.timedOut attempt Sample.body ab
       = invoke Sample.allFail attempt Sample.body ab') /\
  sleeps (traceOf (simulationLoop Sample.timedOut Sample.body
                     simulationAttempts Sample.running))
    = sleeps (traceOf (simulationLoop Sample.allFail Sample.body
                         simulationAttempts Sample.running)).
Proof.
  assert (H0 : forall attempt ab ab',
     invoke Sample.timedOut attempt Sample.body ab
       = invoke Sample.allFail attempt Sample.body ab')
    by (intros attempt ab ab'; reflexivity).
  pose proof (proj1 (proj2 (token_only_handed_to_calls
                              (currentClosure (react Sample.idle))
                              Sample.timedOut Sample.allFail "rest" "smile"
                              Sample.idle Sample.running Sample.running
                              (mkPrepared "" None JNull JNull JNull "")
                              Sample.body 1)) H0) as (_ & _ & Hsame & _).
  assert (H1 : cl_isProcessing (currentClosure (react Sample.idle)) = false)
    by reflexivity.
  assert (H2 : outcome (prepare Sample.timedOut "rest" "smile"
                          (begun "rest" "smile" Sample.idle))
    = inr (mkPrepared "jpeg:smile" None fallbackMetricsNoLandmarker
             (JObj [("faceShape", JStr "oval")]) (JArr []) "Analisis"))
    by reflexivity.
  assert (H3 : 1 < MAX_RETRY_ATTEMPTS) by (unfold MAX_RETRY_ATTEMPTS; lia).
  assert (H4 : deadlinePassed Sample.timedOut 1 = true) by reflexivity.
  assert (H5 : forall j ab, j < 1 ->
     isAccepted
       (classify
          (invoke Sample.timedOut j
             (simulationRequest
                (mkPrepared "jpeg:smile" None fallbackMetricsNoLandmarker
                   (JObj [("faceShape", JStr "oval")]) (JArr []) "Analisis"))
             ab)) = false) by (intros j ab _; reflexivity).
  assert (H6 : forall j, 1 <= j < MAX_RETRY_ATTEMPTS ->
     isFailed
       (classify
          (invoke Sample.timedOut j
             (simulationRequest
                (mkPrepared "jpeg:smile" None fallbackMetricsNoLandmarker
                   (JObj [("faceShape", JStr "oval")]) (JArr []) "Analisis"))
             true)) = true) by (intros j _; reflexivity).
  pose proof (proj2 (proj2 (token_only_handed_to_calls
                              (currentClosure (react Sample.idle))
                              Sample.timedOut Sample.timedOut "rest" "smile"
                              Sample.idle Sample.idle Sample.idle _
                              Sample.body 1))
                H1 H2 H3 H4 H5 H6) as (Hinv & Hsl & _).
  split; [exact H1 | split; [exact H2 | split; [exact H3 |
    split; [exact H4 | split; [|split; [|split; [exact H0 | exact Hsame]]]]]]].
  - apply Hinv. unfold MAX_RETRY_ATTEMPTS. lia.
  - apply Hsl. unfold MAX_RETRY_ATTEMPTS. cbn. lia.
Defined.

(** ** C5: the reentrancy guard *)

Lemma simulationLoop_no_buttons w body attempts : forall s,
  retryButtons (traceOf (simulationLoop w body attempts s)) = [].
Proof.
  induction attempts as [|attempt rest IH]; intros s; [reflexivity|].
  specialize (IH (tick w attempt s)).
  rewrite (simulationLoop_cons w body attempt rest s). cbv zeta.
  destruct (classify _) as [err| |d]; [| |reflexivity];
    destruct (simulationLoop w body rest (tick w attempt s))
      as [[r s2] evs]; cbn [traceOf snd] in *; [|exact IH].
  change (Invoke attempt body ?b :: ?l) with ([Invoke attempt body b] ++ l).
  rewrite !retryButtons_app, IH. unfold failureEvents.
  now destruct (attempt <? MAX_RETRY_ATTEMPTS - 1).
Qed.

(** Every retry button the code shows carries the photographs of its
    run and a closure that captured [isProcessing = false]: the toast is
    shown only by a call that passed the guard. *)
Lemma retry_buttons_captured_idle cl w rest smile s a :
  In a (retryButtons (traceOf (handleCapture cl w rest smile s))) ->
  a = Reintentar cl rest smile /\ cl_isProcessing cl = false.
Proof.
  destruct (cl_isProcessing cl) eqn:Hidle.
  - unfold handleCapture. rewrite Hidle. intros [].
  - destruct (outcome (prepare w rest smile (begun rest smile s)))
      as [error | p] eqn:Hprep.
    + destruct (failure_notice_by_captured_count cl w rest smile s error
                  Hidle Hprep) as [_ ->].
      destruct (cl_retryCount cl <? MAX_RETRY_ATTEMPTS - 1);
        [intros [<- | []]; now split | intros []].
    + destruct (handleCapture_completes cl w rest smile s p Hidle Hprep)
        as (result & _ & _ & _ & ->).
      rewrite !retryButtons_app.
      rewrite (quiet_no_buttons _ (prepare_quiet w rest smile _)).
      rewrite simulationLoop_no_buttons.
      change (ClearTimeout :: ?l) with ([ClearTimeout] ++ l).
      rewrite retryButtons_app. unfold resultEvents.
      destruct (usableImage result); intros [].
Qed.

(** So the guard never stops the press of a retry button: whatever the
    state is, also with the processing flag set, the press starts a
    run. *)
Lemma retry_press_passes_guard cl w rest smile s a w' s' :
  In a (retryButtons (traceOf (handleCapture cl w rest smile s))) ->
  exists evs,
    snd (after (ClickReintentar w' a) s')
      = TrackPhotosCaptured (isSome (faceLandmarkerRef s')) (cl_retryCount cl)
        :: SetTimeout 30000 :: evs.
Proof.
  intros Hin.
  destruct (retry_buttons_captured_idle cl w rest smile s a Hin)
    as [-> Hidle].
  rewrite after_ClickReintentar. cbn [snd].
  apply (handleCapture_arms_deadline cl w' rest smile (bumped s') Hidle).
Qed.

(** C5 on the code. The guard of [handleCapture] reads the
    [isProcessing] its closure captured, not the flag of the state.  A
    run on the photographs "rest0"/"smile0" fails and shows its retry
    button; the user submits "rest"/"smile", and while that run is in
    flight (processing flag set, step [loading]) presses the button that
    is still on screen.  The press is not rejected: no warning toast is
    shown, a second run starts and makes its three remote calls, the
    images of the run in flight are overwritten with "rest0"/"smile0",
    the retry counter goes up, and the second run's [finally] clears
    the processing flag of the run still in flight. *)
Theorem stale_retry_starts_second_run :
  retryButtons
    (snd (after (SubmitPhotos Sample.brokenPhotos "rest0" "smile0")
            Sample.idle)) = [Probe.oldRetry] /\
  isProcessing (react Sample.running) = true /\
  step (react Sample.running) = loading /\
  restImage (react Sample.running) = "rest" /\
  warningToasts
    (snd (after (ClickReintentar Sample.allFail Probe.oldRetry)
            Sample.running)) = [] /\
  map fst
    (invocations
       (snd (after (ClickReintentar Sample.allFail Probe.oldRetry)
               Sample.running))) = [0; 1; 2] /\
  restImage
    (react (fst (after (ClickReintentar Sample.allFail Probe.oldRetry)
                   Sample.running))) = "rest0" /\
  smileImage
    (react (fst (after (ClickReintentar Sample.allFail Probe.oldRetry)
                   Sample.running))) = "smile0" /\
  retryCount
    (react (fst (after (ClickReintentar Sample.allFail Probe.oldRetry)
                   Sample.running))) = 1 /\
  step
    (react (fst (after (ClickReintentar Sample.allFail Probe.oldRetry)
                   Sample.running))) = contact /\
  isProcessing
    (react (fst (after (ClickReintentar Sample.allFail Probe.oldRetry)
                   Sample.running))) = false.
Proof. repeat split. Qed.

(** ** Landmarks and metrics *)

(** X10. The detection stage hands on the landmarks of the smiling
    photograph whenever a face was found in both photographs: together
    with the computed metrics when [computeMetrics] returns, and
    together with the fallback metrics when it throws, so that the
    state then holds real landmarks next to fallback metrics.  Whenever
    the stage hands on no landmarks (a detection threw or found no
    face, or there is no landmarker; a face found in one photograph
    alone is not kept), the metrics are the fallback record.  What the
    detection of a run hands on, for the run's own library and images,
    is what the run stores as landmarks and metrics when it
    completes. *)
Theorem landmarks_kept_when_metrics_fail
    (cl : Closure) (w : World) (rest smile : string) (s : Store)
    (lib : MetricsLib) (optimizedRest optimizedSmile : string)
    (smileImg restImg : Image) :
  (forall landmarker smileResults restResults sl rl,
     faceLandmarkerRef s = Some landmarker ->
     detect landmarker smileImg = inr smileResults ->
     detect landmarker restImg = inr restResults ->
     firstFace smileResults = Some sl ->
     firstFace restResults = Some rl ->
     outcome (detectLandmarks lib smileImg restImg (begun rest smile s))
       = inr (Some sl,
              match computeMetrics lib
                      (mkMetricsInput rl sl (img_width smileImg)
                         (img_height smileImg)) with
              | inr computed => computed
              | inl _ => fallbackMetricsOnError
              end)) /\
  (forall lm m,
     outcome (detectLandmarks lib smileImg restImg (begun rest smile s))
       = inr (lm, m) ->
     match lm with
     | Some sl =>
         exists landmarker smileResults restResults rl,
           faceLandmarkerRef s = Some landmarker /\
           detect landmarker smileImg = inr smileResults /\
           detect landmarker restImg = inr restResults /\
           firstFace smileResults = Some sl /\
           firstFace restResults = Some rl
     | None => m = fallbackMetricsOnError
     end) /\
  (forall lm m,
     cl_isProcessing cl = false ->
     optimizeImage w rest = inr optimizedRest ->
     optimizeImage w smile = inr optimizedSmile ->
     importMetrics w = inr lib ->
     createImage w optimizedSmile = inr smileImg ->
     createImage w optimizedRest = inr restImg ->
     outcome (detectLandmarks lib smileImg restImg (begun rest smile s))
       = inr (lm, m) ->
     step (react (storeOf (handleCapture cl w rest smile s))) = contact ->
     landmarks (react (storeOf (handleCapture cl w rest smile s))) = lm /\
     metrics (react (storeOf (handleCapture cl w rest smile s))) = Some m).
Proof.
  split; [|split].
  - intros landmarker sr rr sl rl Href Hs Hr Hfs Hfr.
    unfold detectLandmarks, onLandmarkError, bind, get, emit, ret. cbn.
    rewrite Href, Hs, Hr, Hfs, Hfr.
    now destruct (computeMetrics lib _).
  - intros lm m.
    unfold detectLandmarks, onLandmarkError, bind, get, emit, ret. cbn.
    destruct (faceLandmarkerRef s) as [landmarker|];
      [|intros [= <- <-]; reflexivity].
    destruct (detect landmarker smileImg) as [e|sr] eqn:Hs;
      [intros [= <- <-]; reflexivity|].
    destruct (detect landmarker restImg) as [e|rr] eqn:Hr;
      [intros [= <- <-]; reflexivity|].
    destruct (firstFace sr) as [sl|] eqn:Hfs;
      [|intros [= <- <-]; reflexivity].
    destruct (firstFace rr) as [rl|] eqn:Hfr;
      [|intros [= <- <-]; reflexivity].
    destruct (computeMetrics lib _) as [e|m'];
      intros [= <- <-]; now exists landmarker, sr, rr, rl.
  - intros lm m Hidle Hrest Hsmile Hlib Hsi Hri Hdet Hstep.
    destruct (outcome (prepare w rest smile (begun rest smile s)))
      as [error | p] eqn:Hprep.
    + destruct (handleCapture_fails cl w rest smile s error Hidle Hprep)
        as (_ & Hstore & _).
      rewrite Hstore in Hstep. discriminate.
    + destruct (prepare_inr w rest smile _ p Hprep)
        as (oR & lib' & si & ri & Hrest' & Hsmile' & Hlib' & Hsi' & Hri'
            & Hdet' & _).
      rewrite Hrest in Hrest'. injection Hrest' as <-.
      rewrite Hsmile in Hsmile'. injection Hsmile' as Hos.
      rewrite Hlib in Hlib'. injection Hlib' as <-.
      rewrite <- Hos, Hsi in Hsi'. injection Hsi' as <-.
      rewrite Hri in Hri'. injection Hri' as <-.
      rewrite Hdet in Hdet'. injection Hdet' as Hlm Hm.
      destruct (handleCapture_completes cl w rest smile s p Hidle Hprep)
        as (result & _ & _ & Hstore & _).
      rewrite Hstore. unfold completed. rewrite Hlm, Hm.
      destruct result as [d|]; [destruct (usableImage (Some d))|];
        now split.
Qed.

Lemma landmarks_kept_when_metrics_fail_witness :
  cl_isProcessing (currentClosure (react Probe.idleSeeing)) = false /\
  optimizeImage Probe.brokenMetricsWorld "rest" = inr "jpeg:rest" /\
  optimizeImage Probe.brokenMetricsWorld "smile" = inr "jpeg:smile" /\
  importMetrics Probe.brokenMetricsWorld = inr Probe.brokenMetrics /\
  createImage Probe.brokenMetricsWorld "jpeg:smile"
    = inr (mkImage "jpeg:smile" 800 600) /\
  createImage Probe.brokenMetricsWorld "jpeg:rest"
    = inr (mkImage "jpeg:rest" 800 600) /\
  outcome (detectLandmarks Probe.brokenMetrics
             (mkImage "jpeg:smile" 800 600) (mkImage "jpeg:rest" 800 600)
             (begun "rest" "smile" Probe.idleSeeing))
    = inr (Some Probe.face, fallbackMetricsOnError) /\
  step (react (storeOf (handleCapture
                          (currentClosure (react Probe.idleSeeing))
                          Probe.brokenMetricsWorld "rest" "smile"
                          Probe.idleSeeing))) = contact /\
  landmarks (react (storeOf (handleCapture
                               (currentClosure (react Probe.idleSeeing))
                               Probe.brokenMetricsWorld "rest" "smile"
                               Probe.idleSeeing))) = Some Probe.face /\
  metrics (react (storeOf (handleCapture
                             (currentClosure (react Probe.idleSeeing))
                             Probe.brokenMetricsWorld "rest" "smile"
                             Probe.idleSeeing)))
    = Some fallbackMetricsOnError.
Proof.
  assert (H1 : cl_isProcessing (currentClosure (react Probe.idleSeeing))
               = false) by reflexivity.
  assert (H2 : optimizeImage Probe.brokenMetricsWorld "rest"
               = inr "jpeg:rest") by reflexivity.
  assert (H3 : optimizeImage Probe.brokenMetricsWorld "smile"
               = inr "jpeg:smile") by reflexivity.
  assert (H4 : importMetrics Probe.brokenMetricsWorld
               = inr Probe.brokenMetrics) by reflexivity.
  assert (H5 : createImage Probe.brokenMetricsWorld "jpeg:smile"
               = inr (mkImage "jpeg:smile" 800 600)) by reflexivity.
  assert (H6 : createImage Probe.brokenMetricsWorld "jpeg:rest"
               = inr (mkImage "jpeg:rest" 800 600)) by reflexivity.
  assert (H7 : outcome (detectLandmarks Probe.brokenMetrics
             (mkImage "jpeg:smile" 800 600) (mkImage "jpeg:rest" 800 600)
             (begun "rest" "smile" Probe.idleSeeing))
    = inr (Some Probe.face, fallbackMetricsOnError)) by reflexivity.
  assert (H8 : step (react (storeOf (handleCapture
                          (currentClosure (react Probe.idleSeeing))
                          Probe.brokenMetricsWorld "rest" "smile"
                          Probe.idleSeeing))) = contact) by reflexivity.
  destruct (proj2 (proj2 (landmarks_kept_when_metrics_fail
                            (currentClosure (react Probe.idleSeeing))
                            Probe.brokenMetricsWorld "rest" "smile"
                            Probe.idleSeeing Probe.brokenMetrics
                            "jpeg:rest" "jpeg:smile"
                            (mkImage "jpeg:smile" 800 600)
                            (mkImage "jpeg:rest" 800 600)))
              _ _ H1 H2 H3 H4 H5 H6 H7 H8) as [Hlm Hm].
  exact (conj H1 (conj H2 (conj H3 (conj H4 (conj H5 (conj H6 (conj H7
           (conj H8 (conj Hlm Hm))))))))).
Defined.

(** ** optimizeImage: the size of the canvas *)

Lemma checkQuotients_spec : forall count prev n,
  checkQuotients prev n count = true ->
  (forall i, n <= i < n + count ->
     exists k, floatKey (quotient i) = Some k /\ below prev k = true /\
               longSideOk i (quotient i) = true) /\
  (forall i j ki kj, n <= i -> i <= j -> j < n + count ->
     floatKey (quotient i) = Some ki -> floatKey (quotient j) = Some kj ->
     (kj <= ki)%Z).
Proof.
  induction count as [|count IH]; intros prev n Hcheck.
  - split; intros; lia.
  - cbn [checkQuotients] in Hcheck. cbv zeta in Hcheck.
    destruct (floatKey (quotient n)) as [k|] eqn:Hk; [|discriminate].
    apply andb_prop in Hcheck as [Hcheck Hrest].
    apply andb_prop in Hcheck as [Hbelow Hlong].
    destruct (IH _ _ Hrest) as [Heach Hmono].
    assert (Hunder : forall j kj, S n <= j < S n + count ->
              floatKey (quotient j) = Some kj -> (kj <= k)%Z).
    { intros j kj Hj Hkj. destruct (Heach j Hj) as (k' & Hk' & Hb & _).
      rewrite Hkj in Hk'. injection Hk' as <-. cbn in Hb. lia. }
    split.
    + intros i Hi. destruct (Nat.eq_dec i n) as [->|Hne].
      * now exists k.
      * destruct (Heach i ltac:(lia)) as (k' & Hk' & Hb & Hl).
        exists k'. split; [exact Hk'|]. split; [|exact Hl].
        destruct prev as [p|]; [|reflexivity]. cbn in *.
        specialize (Hunder i k' ltac:(lia) Hk'). lia.
    + intros i j ki kj Hi Hij Hj Hki Hkj.
      destruct (Nat.eq_dec i n) as [->|Hne].
      * rewrite Hk in Hki. injection Hki as <-.
        destruct (Nat.eq_dec j n) as [->|Hne'].
        -- rewrite Hk in Hkj. injection Hkj as <-. lia.
        -- apply (Hunder j kj); [lia | exact Hkj].
      * apply (Hmono i j ki kj); try assumption; lia.
Qed.

Lemma floatKey_lt a b ka kb :
  floatKey a = Some ka -> floatKey b = Some kb ->
  SFltb b a = (kb <? ka)%Z.
Proof.
  destruct a as [| | |[] ma ea]; try discriminate.
  destruct b as [| | |[] mb eb]; try discriminate.
  unfold floatKey.
  destruct (Z.ltb_spec (Z.pos ma) (2 ^ 53)) as [Ha|]; [|discriminate].
  destruct (Z.ltb_spec (Z.pos mb) (2 ^ 53)) as [Hb|]; [|discriminate].
  intros [= <-] [= <-].
  change (2 ^ 53)%Z with 9007199254740992%Z in *.
  unfold SFltb, SFcompare.
  destruct (Z.compare_spec eb ea) as [->|Hlt|Hgt].
  - fold (Pos.compare mb ma).
    destruct (Pos.compare_spec mb ma) as [->|Hm|Hm];
      symmetry; [apply Z.ltb_ge | apply Z.ltb_lt | apply Z.ltb_ge]; lia.
  - symmetry. apply Z.ltb_lt. lia.
  - symmetry. apply Z.ltb_ge. lia.
Qed.

Lemma floatKey_inj a b k :
  floatKey a = Some k -> floatKey b = Some k -> a = b.
Proof.
  destruct a as [| | |[] ma ea]; try discriminate.
  destruct b as [| | |[] mb eb]; try discriminate.
  unfold floatKey.
  destruct (Z.ltb_spec (Z.pos ma) (2 ^ 53)) as [Ha|]; [|discriminate].
  destruct (Z.ltb_spec (Z.pos mb) (2 ^ 53)) as [Hb|]; [|discriminate].
  change (2 ^ 53)%Z with 9007199254740992%Z in *.
  intros [= <-] [= Heq].
  assert (ea = eb) by lia. subst eb.
  assert (ma = mb) by lia. now subst mb.
Qed.

Lemma mathMin_by_key a b ka kb :
  floatKey a = Some ka -> floatKey b = Some kb ->
  mathMin a b = if (kb <? ka)%Z then b else a.
Proof.
  intros Ha Hb. rewrite <- (floatKey_lt a b ka kb Ha Hb).
  destruct a as [| | |sa ma ea]; try discriminate.
  destruct b as [| | |sb mb eb]; try discriminate.
  reflexivity.
Qed.

Lemma quotients_checked :
  checkQuotients None 1 LARGEST_CHECKED = true.
Proof. vm_compute. reflexivity. Qed.

Lemma small_sizes_exact :
  forallb (fun n => (toUint32 (numberOfNat n) =? Z.of_nat n)%Z)
    (seq 0 (S MAX_IMAGE_SIZE)) = true.
Proof. vm_compute. reflexivity. Qed.

Lemma scaleFor_longer_side a b :
  1 <= a <= LARGEST_CHECKED -> 1 <= b <= LARGEST_CHECKED -> a <= b ->
  scaleFor (numberOfNat a) (numberOfNat b) = quotient b /\
  scaleFor (numberOfNat b) (numberOfNat a) = quotient b.
Proof.
  intros Ha Hb Hab.
  destruct (checkQuotients_spec _ _ _ quotients_checked) as [Heach Hmono].
  destruct (Heach a ltac:(lia)) as (ka & Hka & _).
  destruct (Heach b ltac:(lia)) as (kb & Hkb & _).
  pose proof (Hmono a b ka kb ltac:(lia) Hab ltac:(lia) Hka Hkb) as Hle.
  unfold scaleFor. fold (quotient a). fold (quotient b).
  rewrite (mathMin_by_key _ _ ka kb Hka Hkb),
          (mathMin_by_key _ _ kb ka Hkb Hka).
  destruct (Z.ltb_spec kb ka) as [Hlt|Hge];
    destruct (Z.ltb_spec ka kb) as [Hlt'|Hge']; try lia;
    try (split; reflexivity).
  assert (ka = kb) by lia. subst kb.
  now rewrite (floatKey_inj _ _ _ Hka Hkb).
Qed.

Lemma long_side_scaled n :
  MAX_IMAGE_SIZE < n <= LARGEST_CHECKED ->
  toUint32 (numberMul (numberOfNat n) (quotient n)) = 2047%Z \/
  toUint32 (numberMul (numberOfNat n) (quotient n)) = 2048%Z.
Proof.
  intros Hn.
  destruct (checkQuotients_spec _ _ _ quotients_checked) as [Heach _].
  destruct (Heach n) as (k & _ & _ & Hlong).
  { unfold MAX_IMAGE_SIZE in Hn. lia. }
  unfold longSideOk in Hlong.
  destruct (Nat.leb_spec n MAX_IMAGE_SIZE) as [Hle|_]; [lia|].
  cbn [orb] in Hlong. cbv zeta in Hlong.
  apply orb_prop in Hlong as [H|H]; apply Z.eqb_eq in H; auto.
Qed.

Lemma small_side_exact n :
  n <= MAX_IMAGE_SIZE -> toUint32 (numberOfNat n) = Z.of_nat n.
Proof.
  intros Hn. apply Z.eqb_eq.
  pose proof small_sizes_exact as Hall. rewrite forallb_forall in Hall.
  apply (Hall n). apply in_seq. lia.
Qed.

(** X13. The canvas on which [optimizeImage] draws a decoded image, with
    the sizes computed in binary64 as the code computes them.  An image
    with both sides within [MAX_IMAGE_SIZE] keeps its exact size.  When
    the longer side lies beyond [MAX_IMAGE_SIZE] (up to 8192 pixels,
    the shorter side being at least 1), the longer side of the canvas is
    2047 or 2048 pixels: [width * (2048 / width)] may round just below
    2048, and the assignment to [canvas.width] drops the fraction.  A
    2215 x 1000 image gets a canvas of 2047 x 924. *)
Theorem canvas_long_side_2047_or_2048
    (w : World) (base64 : string) (img : Image) :
  (loadImage w base64 = Some img -> getContext2d w = true ->
   optimizeImage w base64
     = inr (toDataURL w img (fst (canvasSize img)) (snd (canvasSize img))
              IMAGE_QUALITY_THRESHOLD)) /\
  (img_width img <= MAX_IMAGE_SIZE -> img_height img <= MAX_IMAGE_SIZE ->
   canvasSize img = (Z.of_nat (img_width img), Z.of_nat (img_height img)))
  /\
  (MAX_IMAGE_SIZE < img_width img <= LARGEST_CHECKED ->
   1 <= img_height img <= img_width img ->
   fst (canvasSize img) = 2047%Z \/ fst (canvasSize img) = 2048%Z) /\
  (MAX_IMAGE_SIZE < img_height img <= LARGEST_CHECKED ->
   1 <= img_width img <= img_height img ->
   snd (canvasSize img) = 2047%Z \/ snd (canvasSize img) = 2048%Z) /\
  canvasSize (mkImage base64 2215 1000) = (2047, 924)%Z.
Proof.
  split; [|split; [|split; [|split]]].
  - intros Hload Hctx. unfold optimizeImage, canvasSize.
    rewrite Hload, Hctx. now destruct (targetSize img).
  - intros Hw Hh. unfold canvasSize, targetSize.
    destruct (Nat.ltb_spec MAX_IMAGE_SIZE (img_width img)); [lia|].
    destruct (Nat.ltb_spec MAX_IMAGE_SIZE (img_height img)); [lia|].
    cbn [orb]. cbv zeta.
    now rewrite (small_side_exact _ Hw), (small_side_exact _ Hh).
  - intros Hw Hh. unfold canvasSize, targetSize.
    destruct (Nat.ltb_spec MAX_IMAGE_SIZE (img_width img)); [|lia].
    cbn [orb]. cbv zeta.
    rewrite (proj2 (scaleFor_longer_side (img_height img) (img_width img)
                      ltac:(lia) ltac:(lia) ltac:(lia))).
    cbn [fst]. apply long_side_scaled. lia.
  - intros Hh Hw. unfold canvasSize, targetSize.
    destruct (Nat.ltb_spec MAX_IMAGE_SIZE (img_height img)); [|lia].
    rewrite orb_true_r. cbv zeta.
    rewrite (proj1 (scaleFor_longer_side (img_width img) (img_height img)
                      ltac:(lia) ltac:(lia) ltac:(lia))).
    cbn [snd]. apply long_side_scaled. lia.
  - vm_compute. reflexivity.
Qed.

Lemma canvas_long_side_2047_or_2048_witness :
  loadImage Probe.widePhotos "smile" = Some (mkImage "smile" 2215 1000) /\
  getContext2d Probe.widePhotos = true /\
  MAX_IMAGE_SIZE < 2215 <= LARGEST_CHECKED /\
  1 <= 1000 <= 2215 /\
  optimizeImage Probe.widePhotos "smile"
    = inr (toDataURL Probe.widePhotos (mkImage "smile" 2215 1000)
             (fst (canvasSize (mkImage "smile" 2215 1000)))
             (snd (canvasSize (mkImage "smile" 2215 1000)))
             IMAGE_QUALITY_THRESHOLD) /\
  (fst (canvasSize (mkImage "smile" 2215 1000)) = 2047%Z \/
   fst (canvasSize (mkImage "smile" 2215 1000)) = 2048%Z).
Proof.
  assert (H1 : loadImage Probe.widePhotos "smile"
               = Some (mkImage "smile" 2215 1000)) by reflexivity.
  assert (H2 : getContext2d Probe.widePhotos = true) by reflexivity.
  assert (H3 : MAX_IMAGE_SIZE < 2215 <= LARGEST_CHECKED)
    by (unfold LARGEST_CHECKED, MAX_IMAGE_SIZE; lia).
  assert (H4 : 1 <= 1000 <= 2215) by lia.
  destruct (canvas_long_side_2047_or_2048 Probe.widePhotos "smile"
              (mkImage "smile" 2215 1000)) as (Hrun & _ & Hlong & _).
  exact (conj H1 (conj H2 (conj H3 (conj H4
           (conj (Hrun H1 H2) (Hlong H3 H4)))))).
Defined.
